(** * Asset database connection: a shallow embedding of
      AzToolsFramework/AssetDatabase/AssetDatabaseConnection.cpp

    The translation follows the C++ source function by function.

    - C++ integers ([AZ::s64], [AZ::u32], [AZ::u64], [int]) are [Z];
      [AZ::Uuid] and [AZStd::bitset<64>] are [N]; [AZStd::string] and
      [const char*] are [string] (an optional [const char*] that the code
      tests against [nullptr] is [option string]).
    - A table of the store is the list of its rows, in row order; a row is
      the entity record the code materialises from it.
    - A prepared statement is a cursor over the rows it will yield,
      together with the status that [Step] reports when they run out.
    - A caller's handler is a function of the delivered entry and of the
      state the C++ lambda captures by reference; it returns the "continue"
      flag and the new captured state. *)

From Stdlib Require Import List ZArith NArith String Ascii Bool Lia Relations.
Import ListNotations.

Set Implicit Arguments.

Open Scope string_scope.
Open Scope Z_scope.

(** ** Scalar types *)

Definition Uuid := N.

(** [AZ::Uuid::IsNull]: a guid is its 128-bit value, the null guid is 0. *)
Definition Uuid_IsNull (u : Uuid) : bool := N.eqb u 0%N.

(** [AssetSystem::JobStatus] is an enumeration declared outside the file at
    hand.  The connection only ever compares a status with another status
    and with the wildcard [JobStatus::Any]. *)
Definition JobStatus := Z.

(** Modelled from the spec: the enumerator [JobStatus::Any] is declared in a
    header that is not part of the sources; it is the "no filter" value of
    the optional status criterion. *)
Definition JobStatus_Any : JobStatus := -1.

(** [DatabaseVersion] is an enumeration declared in the class header. *)
Definition DatabaseVersion := Z.

(** ** Entities *)

Module DatabaseInfoEntry.
Record t := Build { m_rowID : Z; m_version : DatabaseVersion }.
End DatabaseInfoEntry.

Module ScanFolderDatabaseEntry.
Record t := Build {
  m_scanFolderID : Z;
  m_scanFolder : string;
  m_displayName : string;
  m_portableKey : string;
  m_outputPrefix : string;
  m_isRoot : Z }.

(** [ScanFolderDatabaseEntry::operator==]: its the same database entry when
    the portable key is the same. *)
Definition eqb (a other : t) : bool :=
  String.eqb (m_portableKey a) (m_portableKey other).
End ScanFolderDatabaseEntry.

Module SourceDatabaseEntry.
Record t := Build {
  m_sourceID : Z;
  m_scanFolderPK : Z;
  m_sourceName : string;
  m_sourceGuid : Uuid;
  m_analysisFingerprint : string }.
End SourceDatabaseEntry.

Module JobDatabaseEntry.
Record t := Build {
  m_jobID : Z;
  m_sourcePK : Z;
  m_jobKey : string;
  m_fingerprint : Z;
  m_platform : string;
  m_builderGuid : Uuid;
  m_status : JobStatus;
  m_jobRunKey : Z;
  m_firstFailLogTime : Z;
  m_firstFailLogFile : string;
  m_lastFailLogTime : Z;
  m_lastFailLogFile : string;
  m_lastLogTime : Z;
  m_lastLogFile : string }.
End JobDatabaseEntry.

Module ProductDatabaseEntry.
Record t := Build {
  m_productID : Z;
  m_jobPK : Z;
  m_productName : string;
  m_subID : Z;
  m_assetType : Uuid;
  m_legacyGuid : Uuid }.

(** Rows of [Products] are compared column by column by the store (the
    [UNION] of the recursive query). *)
Definition eq_dec (a b : t) : {a = b} + {a <> b}.
Proof.
  decide equality; auto using Z.eq_dec, N.eq_dec, string_dec.
Defined.

Section Equality.

(** [AzFramework::StringFunc::Equal] lives in a library that is not part of
    the sources at hand; [operator==] is stated over it. *)
Variable StringFunc_Equal : string -> string -> bool.

(** [ProductDatabaseEntry::operator==]: equivalence is when everything but
    the id is the same; the legacy guid is not compared. *)
Definition eqb (a other : t) : bool :=
  Z.eqb (m_jobPK a) (m_jobPK other) &&
  Z.eqb (m_subID a) (m_subID other) &&
  N.eqb (m_assetType a) (m_assetType other) &&
  StringFunc_Equal (m_productName a) (m_productName other).

End Equality.
End ProductDatabaseEntry.

Module LegacySubIDsEntry.
Record t := Build {
  m_subIDsEntryID : Z;
  m_productPK : Z;
  m_subID : Z }.
End LegacySubIDsEntry.

Module ProductDependencyDatabaseEntry.
Record t := Build {
  m_productDependencyID : Z;
  m_productPK : Z;
  m_dependencySourceGuid : Uuid;
  m_dependencySubID : Z;
  m_dependencyFlags : N;
  m_platform : string;
  m_unresolvedPath : string;
  m_dependencyType : Z }.
End ProductDependencyDatabaseEntry.

Module BuilderInfoEntry.
Record t := Build {
  m_builderInfoID : Z;
  m_builderUuid : Uuid;
  m_analysisFingerprint : string }.
End BuilderInfoEntry.

(** [CombinedDatabaseEntry] derives from the four entities below and adds
    the legacy sub ids collected for the product. *)
Module CombinedDatabaseEntry.
Record t := Build {
  scanFolder : ScanFolderDatabaseEntry.t;
  source : SourceDatabaseEntry.t;
  job : JobDatabaseEntry.t;
  product : ProductDatabaseEntry.t;
  m_legacySubIDs : list LegacySubIDsEntry.t }.
End CombinedDatabaseEntry.

(** [AzToolsFramework::AssetSystem::JobInfo], the flattened shape handed to
    the scheduler and the editor. *)
Module JobInfo.
Record t := Build {
  m_sourceFile : string;
  m_watchFolder : string;
  m_platform : string;
  m_builderGuid : Uuid;
  m_jobKey : string;
  m_status : JobStatus;
  m_jobRunKey : Z;
  m_firstFailLogTime : Z;
  m_firstFailLogFile : string;
  m_lastFailLogTime : Z;
  m_lastFailLogFile : string;
  m_lastLogTime : Z;
  m_lastLogFile : string;
  m_jobID : Z }.

(** A default constructed [JobInfo]. *)
Definition empty : t :=
  Build "" "" "" 0%N "" 0 0 0 "" 0 "" 0 "" 0.
End JobInfo.

(** [PopulateJobInfo]: copies the job columns into [jobinfo]; the source
    file and the watch folder are left as they are. *)
Definition PopulateJobInfo (jobinfo : JobInfo.t) (jobDatabaseEntry : JobDatabaseEntry.t)
  : JobInfo.t :=
  JobInfo.Build
    (JobInfo.m_sourceFile jobinfo)
    (JobInfo.m_watchFolder jobinfo)
    (JobDatabaseEntry.m_platform jobDatabaseEntry)
    (JobDatabaseEntry.m_builderGuid jobDatabaseEntry)
    (JobDatabaseEntry.m_jobKey jobDatabaseEntry)
    (JobDatabaseEntry.m_status jobDatabaseEntry)
    (JobDatabaseEntry.m_jobRunKey jobDatabaseEntry)
    (JobDatabaseEntry.m_firstFailLogTime jobDatabaseEntry)
    (JobDatabaseEntry.m_firstFailLogFile jobDatabaseEntry)
    (JobDatabaseEntry.m_lastFailLogTime jobDatabaseEntry)
    (JobDatabaseEntry.m_lastFailLogFile jobDatabaseEntry)
    (JobDatabaseEntry.m_lastLogTime jobDatabaseEntry)
    (JobDatabaseEntry.m_lastLogFile jobDatabaseEntry)
    (JobDatabaseEntry.m_jobID jobDatabaseEntry).

(** ** Pattern matching ("like") queries *)

Inductive LikeType := Raw | StartsWith | EndsWith | Matches.

Module StringFunc.

(** Modelled from the spec: [AzFramework::StringFunc::Replace] is not part
    of the sources at hand.  The helper "escapes the store's two wildcard
    metacharacters with a dedicated escape character": every occurrence of
    the one-character string [replaceA] is rewritten to [withB]. *)
Fixpoint Replace (inout : string) (replaceA : ascii) (withB : string) : string :=
  match inout with
  | EmptyString => EmptyString
  | String c rest =>
      if Ascii.eqb c replaceA
      then withB ++ Replace rest replaceA withB
      else String c (Replace rest replaceA withB)
  end.

(** [StringFunc::Append] and [StringFunc::Prepend] *)
Definition Append (inout : string) (s : string) : string := inout ++ s.
Definition Prepend (inout : string) (s : string) : string := s ++ inout.

End StringFunc.

(** [AssetDatabaseConnection::GetLikeActualSearchTerm] *)
Definition GetLikeActualSearchTerm (likeString : string) (likeType : LikeType) : string :=
  let actualSearchTerm := likeString in
  match likeType with
  | StartsWith =>
      let actualSearchTerm := StringFunc.Replace actualSearchTerm "%" "|%" in
      let actualSearchTerm := StringFunc.Replace actualSearchTerm "_" "|_" in
      StringFunc.Append actualSearchTerm "%"
  | EndsWith =>
      let actualSearchTerm := StringFunc.Replace actualSearchTerm "%" "|%" in
      let actualSearchTerm := StringFunc.Replace actualSearchTerm "_" "|_" in
      StringFunc.Prepend actualSearchTerm "%"
  | Matches =>
      let actualSearchTerm := StringFunc.Replace actualSearchTerm "%" "|%" in
      let actualSearchTerm := StringFunc.Replace actualSearchTerm "_" "|_" in
      let actualSearchTerm := StringFunc.Prepend actualSearchTerm "%" in
      StringFunc.Append actualSearchTerm "%"
  | Raw => actualSearchTerm
  end.

Section Like.

(** The store compares an ordinary pattern character with a character of
    the stored string by [chr_eq]: equality when LIKE is case sensitive,
    equality up to ASCII case otherwise.  Nothing below depends on which. *)
Variable chr_eq : ascii -> ascii -> bool.

(** Modelled from the spec: the store's [X LIKE P ESCAPE E] operator, which
    is outside the sources.  In the pattern [%] matches any run of
    characters, [_] matches exactly one character, and the escape character
    makes the character after it stand for itself (a pattern that ends in
    the escape character matches nothing). *)
Fixpoint sql_like (escape : ascii) (pattern stored : string) {struct pattern} : bool :=
  match pattern with
  | EmptyString => match stored with EmptyString => true | String _ _ => false end
  | String c pattern' =>
      if Ascii.eqb c escape then
        match pattern' with
        | EmptyString => false
        | String c2 pattern'' =>
            match stored with
            | EmptyString => false
            | String d stored' => chr_eq c2 d && sql_like escape pattern'' stored'
            end
        end
      else if Ascii.eqb c "%" then
        (fix any (t : string) : bool :=
           sql_like escape pattern' t
           || match t with EmptyString => false | String _ t' => any t' end) stored
      else if Ascii.eqb c "_" then
        match stored with
        | EmptyString => false
        | String _ stored' => sql_like escape pattern' stored'
        end
      else
        match stored with
        | EmptyString => false
        | String d stored' => chr_eq c d && sql_like escape pattern' stored'
        end
  end.

(** [SourceName LIKE :sourcename ESCAPE '|'], the test of
    QUERY_SOURCE_LIKE_SOURCENAME_STATEMENT and of the other LIKE
    statements. *)
Definition LIKE_ESCAPE_pipe (stored pattern : string) : bool :=
  sql_like "|" pattern stored.

(** What "the literal's characters occur verbatim" means under [chr_eq]:
    [same_text literal s] holds when [s] spells [literal], character by
    character. *)
Fixpoint same_text (literal s : string) : Prop :=
  match literal, s with
  | EmptyString, EmptyString => True
  | String c literal', String d s' => chr_eq c d = true /\ same_text literal' s'
  | _, _ => False
  end.

(** Where a literal occurs in a stored string, per search mode. *)
Definition occurs_as (likeType : LikeType) (literal stored : string) : Prop :=
  match likeType with
  | StartsWith => exists mid post, stored = mid ++ post /\ same_text literal mid
  | EndsWith => exists pre mid, stored = pre ++ mid /\ same_text literal mid
  | Matches => exists pre mid post, stored = pre ++ mid ++ post /\ same_text literal mid
  | Raw => False
  end.

End Like.

(** The literal contains the character [c]. *)
Fixpoint contains_char (c : ascii) (s : string) : bool :=
  match s with
  | EmptyString => false
  | String d s' => Ascii.eqb d c || contains_char c s'
  end.

(** ASCII case folding, the store's default comparison for LIKE. *)
Definition ascii_lower (c : ascii) : ascii :=
  let n := nat_of_ascii c in
  if (Nat.leb 65 n && Nat.leb n 90)%bool then ascii_of_nat (n + 32) else c.

Definition chr_eq_nocase (a b : ascii) : bool :=
  Ascii.eqb (ascii_lower a) (ascii_lower b).

(** ** Comparing names *)

(** [AZStd::string::c_str()], as the callee reads it: the characters up to
    the first NUL. *)
Fixpoint c_str (s : string) : string :=
  match s with
  | EmptyString => EmptyString
  | String c rest => if Ascii.eqb c Ascii.zero then EmptyString else String c (c_str rest)
  end.

(** Modelled from the spec: [AzFramework::StringFunc::Equal] is not part of
    the sources at hand, and the spec does not describe it.  It is declared
    as [bool Equal(const char* inA, const char* inB,
    bool bCaseSensitive = false, size_t n = 0)]: called with two arguments,
    as [operator==] calls it, it compares the two C strings to their ends
    without regard to the case of the letters A to Z. *)
Fixpoint AzFramework_StringFunc_Equal (inA inB : string) : bool :=
  match inA, inB with
  | EmptyString, EmptyString => true
  | String a inA', String b inB' =>
      chr_eq_nocase a b && AzFramework_StringFunc_Equal inA' inB'
  | _, _ => false
  end.

(** [AzFramework::StringFunc::Equal(x.c_str(), y.c_str())], the call of
    [ProductDatabaseEntry::operator==]. *)
Definition StringFunc_Equal_c_str (x y : string) : bool :=
  AzFramework_StringFunc_Equal (c_str x) (c_str y).

(** A name with its letters A to Z replaced by a to z. *)
Fixpoint lower_case (s : string) : string :=
  match s with
  | EmptyString => EmptyString
  | String c rest => String (ascii_lower c) (lower_case rest)
  end.

(** ** Prepared statements and row stepping *)

Open Scope list_scope.

(** [Statement::SqlStatus] *)
Inductive SqlStatus := SqlOK | SqlDone | SqlError.

Definition SqlStatus_eqb (a b : SqlStatus) : bool :=
  match a, b with
  | SqlOK, SqlOK | SqlDone, SqlDone | SqlError, SqlError => true
  | _, _ => false
  end.

(** A bound statement: the rows on which successive calls of [Step] will
    position the cursor, and whether the store reports an error (rather
    than the end of the data) once they are used up. *)
Record Statement (Row : Type) := mkStatement {
  stmt_rows : list Row;
  stmt_fails : bool }.

(** The status [Step] reports when no row is left. *)
Definition end_status (fails : bool) : SqlStatus :=
  if fails then SqlError else SqlDone.

(** A row handler: the entry delivered, the state captured by the caller's
    lambda; the result is the "continue" flag and the new captured state. *)
Definition Handler (E St : Type) := E -> St -> bool * St.

(** What a query call leaves behind: the boolean it returns, the captured
    state of the handler, the entries handed to the handler (in order), and
    how many times [Step] was called on the statement. *)
Record Outcome (E St : Type) := mkOutcome {
  ret : bool;
  captured : St;
  delivered : list E;
  steps : nat }.

(** One more entry was handed to the handler before [o]. *)
Definition after_delivery {E St} (e : E) (o : Outcome E St) : Outcome E St :=
  mkOutcome (ret o) (captured o) (e :: delivered o) (steps o).

(** One more call of [Step] happened before [o]. *)
Definition after_step {E St} (o : Outcome E St) : Outcome E St :=
  mkOutcome (ret o) (captured o) (delivered o) (S (steps o)).

(** The code after the [while] loop of every result helper:
    [if (result == SqlError) return false; return validResult;] *)
Definition leave_loop {E St} (result : SqlStatus) (validResult : bool) (s : St)
  : Outcome E St :=
  match result with
  | SqlError => mkOutcome false s [] 0
  | _ => mkOutcome validResult s [] 0
  end.

(** [ResultMatchesJobCriteria]: should the handler be called, given the
    optional filtering criteria. *)
Definition ResultMatchesJobCriteria (jobKey : option string) (builderGuid : Uuid)
  (status : JobStatus) (savedJobKey : string) (savedBuilderGuid : Uuid)
  (savedJobStatus : JobStatus) : bool :=
  (match jobKey with Some k => String.eqb savedJobKey k | None => true end)
  && (if negb (Uuid_IsNull builderGuid) then N.eqb savedBuilderGuid builderGuid else true)
  && (if negb (Z.eqb status JobStatus_Any) then Z.eqb savedJobStatus status else true).

Section ResultHelpers.

Variables Row St : Type.

(** *** [GetResult<TEntry>] *)
Section GetResult.

Variable TEntry : Type.

(** [boundColumns.Fetch(statement)] on the current row: [None] when a bound
    column cannot be read. *)
Variable Fetch : Row -> option TEntry.

(** The [while (result == SqlOK)] loop, entered with the cursor on
    [current] and [pending] rows still to come. *)
Fixpoint GetResult_while (fails : bool) (current : Row) (pending : list Row)
  (handler : Handler TEntry St) (s : St) {struct pending} : Outcome TEntry St :=
  match Fetch current with
  | None => mkOutcome false s [] 0
  | Some entry =>
      let '(continue, s') := handler entry s in
      after_delivery entry
        (if continue then
           (* result = statement->Step(); validResult = true; *)
           after_step
             match pending with
             | next :: pending' => GetResult_while fails next pending' handler s'
             | [] => leave_loop (end_status fails) true s'
             end
         else
           (* result = Statement::SqlDone; validResult = true; *)
           leave_loop SqlDone true s')
  end.

Definition GetResult (statement : Statement Row) (handler : Handler TEntry St) (s : St)
  : Outcome TEntry St :=
  (* Statement::SqlStatus result = statement->Step(); *)
  after_step
    match stmt_rows statement with
    | first :: pending => GetResult_while (stmt_fails statement) first pending handler s
    | [] =>
        let result := end_status (stmt_fails statement) in
        leave_loop result (SqlStatus_eqb result SqlDone) s
    end.

End GetResult.

(** *** [GetJobResult] *)
Section GetJobResult.

Variable Fetch : Row -> option JobDatabaseEntry.t.

Fixpoint GetJobResult_while (fails : bool) (current : Row) (pending : list Row)
  (handler : Handler JobDatabaseEntry.t St) (builderGuid : Uuid) (jobKey : option string)
  (status : JobStatus) (s : St) {struct pending} : Outcome JobDatabaseEntry.t St :=
  let next_step s' :=
    after_step
      match pending with
      | next :: pending' =>
          GetJobResult_while fails next pending' handler builderGuid jobKey status s'
      | [] => leave_loop (end_status fails) true s'
      end in
  match Fetch current with
  | None => mkOutcome false s [] 0
  | Some job =>
      if ResultMatchesJobCriteria jobKey builderGuid status
           (JobDatabaseEntry.m_jobKey job) (JobDatabaseEntry.m_builderGuid job)
           (JobDatabaseEntry.m_status job)
      then
        let '(continue, s') := handler job s in
        after_delivery job
          (if continue then next_step s' else leave_loop SqlDone true s')
      else next_step s
  end.

Definition GetJobResult (statement : Statement Row) (handler : Handler JobDatabaseEntry.t St)
  (builderGuid : Uuid) (jobKey : option string) (status : JobStatus) (s : St)
  : Outcome JobDatabaseEntry.t St :=
  after_step
    match stmt_rows statement with
    | first :: pending =>
        GetJobResult_while (stmt_fails statement) first pending handler builderGuid jobKey status s
    | [] =>
        let result := end_status (stmt_fails statement) in
        leave_loop result (SqlStatus_eqb result SqlDone) s
    end.

(** [GetJobResultSimple]: the criteria take the defaults of the
    declaration (null builder, no job key, any status). *)
Definition GetJobResultSimple (statement : Statement Row)
  (handler : Handler JobDatabaseEntry.t St) (s : St) : Outcome JobDatabaseEntry.t St :=
  GetJobResult statement handler 0%N None JobStatus_Any s.

End GetJobResult.

(** *** [GetProductResult] *)
Section GetProductResult.

(** [productColumns.Fetch], and the three single columns [JobKey],
    [BuilderGuid] and [Status] that are fetched only when the matching
    criterion is in use. *)
Variable Fetch_product : Row -> option ProductDatabaseEntry.t.
Variable Fetch_JobKey : Row -> option string.
Variable Fetch_BuilderGuid : Row -> option Uuid.
Variable Fetch_Status : Row -> option Z.

(** [savedJobKey], [savedBuilderGuid], [savedJobStatus]: locals of the
    function that keep their value from one row to the next. *)
Definition SavedCriteria := (string * Uuid * Z)%type.

Fixpoint GetProductResult_while (fails : bool) (current : Row) (pending : list Row)
  (saved : SavedCriteria) (handler : Handler ProductDatabaseEntry.t St)
  (builderGuid : Uuid) (jobKey : option string) (status : JobStatus) (s : St)
  {struct pending} : Outcome ProductDatabaseEntry.t St :=
  let '(savedJobKey, savedBuilderGuid, savedJobStatus) := saved in
  let fetchedJobKey :=
    match jobKey with Some _ => Fetch_JobKey current | None => Some savedJobKey end in
  let fetchedBuilderGuid :=
    if negb (Uuid_IsNull builderGuid) then Fetch_BuilderGuid current
    else Some savedBuilderGuid in
  let fetchedStatus :=
    if negb (Z.eqb status JobStatus_Any) then Fetch_Status current
    else Some savedJobStatus in
  match fetchedJobKey, fetchedBuilderGuid, fetchedStatus with
  | Some savedJobKey, Some savedBuilderGuid, Some savedJobStatus =>
      let next_step s' :=
        after_step
          match pending with
          | next :: pending' =>
              GetProductResult_while fails next pending'
                (savedJobKey, savedBuilderGuid, savedJobStatus)
                handler builderGuid jobKey status s'
          | [] => leave_loop (end_status fails) true s'
          end in
      if ResultMatchesJobCriteria jobKey builderGuid status
           savedJobKey savedBuilderGuid savedJobStatus
      then
        match Fetch_product current with
        | None => mkOutcome false s [] 0
        | Some product =>
            let '(continue, s') := handler product s in
            after_delivery product
              (if continue then next_step s' else leave_loop SqlDone true s')
        end
      else next_step s
  | _, _, _ => mkOutcome false s [] 0
  end.

(** [uninitialised] stands for the values the locals [savedBuilderGuid] and
    [savedJobStatus] hold before the first fetch. *)
Definition GetProductResult (uninitialised : Uuid * Z) (statement : Statement Row)
  (handler : Handler ProductDatabaseEntry.t St)
  (builderGuid : Uuid) (jobKey : option string) (status : JobStatus) (s : St)
  : Outcome ProductDatabaseEntry.t St :=
  after_step
    match stmt_rows statement with
    | first :: pending =>
        GetProductResult_while (stmt_fails statement) first pending
          ("", fst uninitialised, snd uninitialised)
          handler builderGuid jobKey status s
    | [] =>
        let result := end_status (stmt_fails statement) in
        leave_loop result (SqlStatus_eqb result SqlDone) s
    end.

(** [GetProductResultSimple] *)
Definition GetProductResultSimple (uninitialised : Uuid * Z) (statement : Statement Row)
  (handler : Handler ProductDatabaseEntry.t St) (s : St)
  : Outcome ProductDatabaseEntry.t St :=
  GetProductResult uninitialised statement handler 0%N None JobStatus_Any s.

End GetProductResult.

(** *** [AssetDatabaseConnection::GetCombinedResult] *)
Section GetCombinedResult.

(** The bound columns of a [CombinedDatabaseEntry]: those of the scan
    folder, the source, the job and the product. *)
Definition CombinedColumns :=
  (ScanFolderDatabaseEntry.t * SourceDatabaseEntry.t
   * JobDatabaseEntry.t * ProductDatabaseEntry.t)%type.

Variable Fetch : Row -> option CombinedColumns.

(** The entries that [QueryLegacySubIdsByProductID] hands to its handler
    for a product id (the handler appended by [GetCombinedResult] accepts
    every one of them, and the result of the call is ignored). *)
Variable LegacySubIds_of : Z -> list LegacySubIDsEntry.t.

(** [combined] is declared outside the loop: [Fetch] overwrites its bound
    columns, [m_legacySubIDs] keeps growing. *)
Definition fill_combined (columns : CombinedColumns) (legacy : list LegacySubIDsEntry.t)
  : CombinedDatabaseEntry.t :=
  let '(sf, src, j, p) := columns in CombinedDatabaseEntry.Build sf src j p legacy.

Fixpoint GetCombinedResult_while (fails : bool) (current : Row) (pending : list Row)
  (legacy : list LegacySubIDsEntry.t) (handler : Handler CombinedDatabaseEntry.t St)
  (builderGuid : Uuid) (jobKey : option string) (status : JobStatus)
  (includeLegacySubIDs : bool) (s : St) {struct pending}
  : Outcome CombinedDatabaseEntry.t St :=
  let next_step legacy' s' :=
    after_step
      match pending with
      | next :: pending' =>
          GetCombinedResult_while fails next pending' legacy' handler
            builderGuid jobKey status includeLegacySubIDs s'
      | [] => leave_loop (end_status fails) true s'
      end in
  match Fetch current with
  | None => mkOutcome false s [] 0
  | Some columns =>
      let '(_, _, j, p) := columns in
      if ResultMatchesJobCriteria jobKey builderGuid status
           (JobDatabaseEntry.m_jobKey j) (JobDatabaseEntry.m_builderGuid j)
           (JobDatabaseEntry.m_status j)
      then
        let legacy' :=
          if includeLegacySubIDs
          then legacy ++ LegacySubIds_of (ProductDatabaseEntry.m_productID p)
          else legacy in
        let combined := fill_combined columns legacy' in
        let '(continue, s') := handler combined s in
        after_delivery combined
          (if continue then next_step legacy' s' else leave_loop SqlDone true s')
      else next_step legacy s
  end.

Definition GetCombinedResult (statement : Statement Row)
  (handler : Handler CombinedDatabaseEntry.t St)
  (builderGuid : Uuid) (jobKey : option string) (status : JobStatus)
  (includeLegacySubIDs : bool) (s : St) : Outcome CombinedDatabaseEntry.t St :=
  after_step
    match stmt_rows statement with
    | first :: pending =>
        GetCombinedResult_while (stmt_fails statement) first pending [] handler
          builderGuid jobKey status includeLegacySubIDs s
    | [] =>
        let result := end_status (stmt_fails statement) in
        leave_loop result (SqlStatus_eqb result SqlDone) s
    end.

End GetCombinedResult.

End ResultHelpers.

(** *** [GetCombinedDependencyResult] and the loop of [QueryBuilderInfoTable] *)
Section OtherResultHelpers.

Variables Row St : Type.

(** [AZ::Data::AssetId]: a source guid and a sub id. *)
Definition AssetId := (Uuid * Z)%type.

Section GetCombinedDependencyResult.

Variable Fetch : Row -> option ProductDependencyDatabaseEntry.t.
Variable Fetch_SourceGuid : Row -> option Uuid.
Variable Fetch_SubID : Row -> option Z.

Fixpoint GetCombinedDependencyResult_while (fails : bool) (current : Row)
  (pending : list Row)
  (handler : Handler (AssetId * ProductDependencyDatabaseEntry.t) St) (s : St)
  {struct pending} : Outcome (AssetId * ProductDependencyDatabaseEntry.t) St :=
  match Fetch current, Fetch_SourceGuid current, Fetch_SubID current with
  | Some entry, Some sourceGuid, Some subId =>
      let assetId : AssetId := (sourceGuid, subId) in
      let '(continue, s') := handler (assetId, entry) s in
      after_delivery (assetId, entry)
        (if continue then
           after_step
             match pending with
             | next :: pending' =>
                 GetCombinedDependencyResult_while fails next pending' handler s'
             | [] => leave_loop (end_status fails) true s'
             end
         else leave_loop SqlDone true s')
  | _, _, _ => mkOutcome false s [] 0
  end.

Definition GetCombinedDependencyResult (statement : Statement Row)
  (handler : Handler (AssetId * ProductDependencyDatabaseEntry.t) St) (s : St)
  : Outcome (AssetId * ProductDependencyDatabaseEntry.t) St :=
  after_step
    match stmt_rows statement with
    | first :: pending =>
        GetCombinedDependencyResult_while (stmt_fails statement) first pending handler s
    | [] =>
        let result := end_status (stmt_fails statement) in
        leave_loop result (SqlStatus_eqb result SqlDone) s
    end.

End GetCombinedDependencyResult.

Section QueryBuilderInfoTable.

Variable Fetch : Row -> option BuilderInfoEntry.t.

(** The [while (result == Statement::SqlOK)] loop of
    [QueryBuilderInfoTable]; a handler that returns false breaks out of it
    with [result] still [SqlOK]. *)
Fixpoint QueryBuilderInfoTable_while (fails : bool) (current : Row) (pending : list Row)
  (handler : Handler BuilderInfoEntry.t St) (s : St) {struct pending}
  : Outcome BuilderInfoEntry.t St :=
  match Fetch current with
  | None => mkOutcome false s [] 0
  | Some entry =>
      let '(continue, s') := handler entry s in
      after_delivery entry
        (if continue then
           after_step
             match pending with
             | next :: pending' => QueryBuilderInfoTable_while fails next pending' handler s'
             | [] => leave_loop (end_status fails) true s'
             end
         else leave_loop SqlOK true s')
  end.

(** [AssetDatabaseConnection::QueryBuilderInfoTable], from the point where
    the statement is bound ([bound] is [None] when binding fails). *)
Definition QueryBuilderInfoTable (bound : option (Statement Row))
  (handler : Handler BuilderInfoEntry.t St) (s : St) : Outcome BuilderInfoEntry.t St :=
  match bound with
  | None => mkOutcome false s [] 0
  | Some statement =>
      after_step
        match stmt_rows statement with
        | first :: pending =>
            QueryBuilderInfoTable_while (stmt_fails statement) first pending handler s
        | [] => leave_loop (end_status (stmt_fails statement)) true s
        end
  end.

End QueryBuilderInfoTable.

End OtherResultHelpers.

(** Modelled from the spec: [SqlQuery::BindAndQuery] and
    [SqlQuery::BindAndThen(...).Query(...)] belong to the SQLite wrapper,
    which is not part of the sources at hand.  They bind the parameters to
    the prepared statement and pass it to the callback; a statement-bind
    error is "surfaced as a false return from the originating query call".
    [bound] is [None] when binding fails. *)
Definition BindAndQuery {Row E St : Type} (bound : option (Statement Row))
  (callback : Statement Row -> Handler E St -> St -> Outcome E St)
  (handler : Handler E St) (s : St) : Outcome E St :=
  match bound with
  | None => mkOutcome false s [] 0
  | Some statement => callback statement handler s
  end.

(** ** The store *)

(** The persisted tables that the statements below read; each is the list
    of its rows in row order. *)
Record Database := mkDatabase {
  dbinfo : list DatabaseInfoEntry.t;
  ScanFolders : list ScanFolderDatabaseEntry.t;
  Sources : list SourceDatabaseEntry.t;
  Jobs : list JobDatabaseEntry.t;
  Products : list ProductDatabaseEntry.t;
  ProductDependencies : list ProductDependencyDatabaseEntry.t;
  LegacySubIDs : list LegacySubIDsEntry.t }.

(** How the store may fail on a statement: binding fails, or stepping
    reports [SqlError] after [n] rows have been produced. *)
Inductive Fault := NoFault | BindFails | StepFailsAfter (n : nat).

(** Modelled from the spec: the storage engine is "a black-box capable of
    transactions, indexed lookups, and recursive queries"; it is not part
    of the sources.  An open store holds the tables, the names of the
    tables that exist, and, per statement name, the fault it will report. *)
Record Store := mkStore {
  tables : Database;
  table_names : list string;
  fault : string -> Fault }.

(** Modelled from the spec: binding the prepared statement called [name]
    (the SQLite wrapper is not part of the sources).  [rows] is the result
    set of the statement over the tables; what the cursor yields of it
    depends on the fault the store reports for the statement. *)
Definition Bind {Row : Type} (c : Store) (name : string) (rows : list Row)
  : option (Statement Row) :=
  match fault c name with
  | NoFault => Some (mkStatement rows false)
  | BindFails => None
  | StepFailsAfter n => Some (mkStatement (firstn n rows) true)
  end.

(** Modelled from the spec: [SQLite::Connection::DoesTableExist] belongs to
    the SQLite wrapper, which is not part of the sources; post-open
    validation "confirms every expected table name exists". *)
Definition DoesTableExist (c : Store) (tableName : string) : bool :=
  existsb (String.eqb tableName) (table_names c).

(** *** Joins *)

(** [FROM a INNER JOIN b ON on] *)
Definition inner_join {A B : Type} (a : list A) (b : list B) (on : A -> B -> bool)
  : list (A * B) :=
  flat_map (fun x => map (pair x) (filter (on x) b)) a.

(** [FROM a LEFT OUTER JOIN b ON on]: a row of [a] without a partner is
    kept, with NULL ([None]) for the columns of [b]. *)
Definition left_join {A B : Type} (a : list A) (b : list B) (on : A -> B -> bool)
  : list (A * option B) :=
  flat_map (fun x =>
              match filter (on x) b with
              | [] => [(x, None)]
              | partners => map (fun y => (x, Some y)) partners
              end) a.

(** A comparison in which one side is a column of a NULL row is not true. *)
Definition on_some {B : Type} (y : option B) (test : B -> bool) : bool :=
  match y with Some b => test b | None => false end.

Section Statements.

Import ScanFolderDatabaseEntry SourceDatabaseEntry JobDatabaseEntry ProductDatabaseEntry.

Variable db : Database.

(** *** The named statements *)

Definition QUERY_DATABASEINFO_TABLE := "AzToolsFramework::AssetDatabase::QueryDatabaseInfoTable".
(** [SELECT * from dbinfo;] *)
Definition QUERY_DATABASEINFO_TABLE_STATEMENT : list DatabaseInfoEntry.t := dbinfo db.

Definition QUERY_LEGACYSUBIDSBYPRODUCTID := "AzToolsFramework::AssetDatabase::QueryLegacySubIDsByProductID".
(** [SELECT * from LegacySubIDs WHERE LegacySubIDs.ProductPK = :productId;] *)
Definition QUERY_LEGACYSUBIDSBYPRODUCTID_STATEMENT (productId : Z) : list LegacySubIDsEntry.t :=
  filter (fun l => Z.eqb (LegacySubIDsEntry.m_productPK l) productId) (LegacySubIDs db).

Definition QUERY_SOURCE_BY_SOURCEID := "AzToolsFramework::AssetDatabase::QuerySourceBySourceID".
(** [SELECT * FROM Sources WHERE SourceID = :sourceid;] *)
Definition QUERY_SOURCE_BY_SOURCEID_STATEMENT (sourceid : Z) : list SourceDatabaseEntry.t :=
  filter (fun s => Z.eqb (m_sourceID s) sourceid) (Sources db).

Definition QUERY_SOURCE_BY_SOURCENAME := "AzToolsFramework::AssetDatabase::QuerySourceBySourceName".
(** [SELECT * FROM Sources WHERE SourceName = :sourcename;] *)
Definition QUERY_SOURCE_BY_SOURCENAME_STATEMENT (sourcename : string) : list SourceDatabaseEntry.t :=
  filter (fun s => String.eqb (m_sourceName s) sourcename) (Sources db).

Definition QUERY_SOURCE_LIKE_SOURCENAME := "AzToolsFramework::AssetDatabase::QuerySourceLikeSourceName".
(** [SELECT * FROM Sources WHERE SourceName LIKE :sourcename ESCAPE '|';] *)
Definition QUERY_SOURCE_LIKE_SOURCENAME_STATEMENT (chr_eq : ascii -> ascii -> bool)
  (sourcename : string) : list SourceDatabaseEntry.t :=
  filter (fun s => LIKE_ESCAPE_pipe chr_eq (m_sourceName s) sourcename) (Sources db).

Definition QUERY_JOB_BY_JOBID := "AzToolsFramework::AssetDatabase::QueryJobByJobID".
(** [SELECT * FROM Jobs WHERE JobID = :jobid;] *)
Definition QUERY_JOB_BY_JOBID_STATEMENT (jobid : Z) : list JobDatabaseEntry.t :=
  filter (fun j => Z.eqb (m_jobID j) jobid) (Jobs db).

Definition QUERY_JOB_BY_JOBKEY := "AzToolsFramework::AssetDatabase::QueryJobByJobKey".
(** [SELECT * FROM Jobs WHERE JobKey = :jobKey;] *)
Definition QUERY_JOB_BY_JOBKEY_STATEMENT (jobKey : string) : list JobDatabaseEntry.t :=
  filter (fun j => String.eqb (m_jobKey j) jobKey) (Jobs db).

Definition QUERY_JOB_BY_JOBRUNKEY := "AzToolsFramework::AssetDatabase::QueryJobByJobRunKey".
(** [SELECT * FROM Jobs WHERE JobRunKey = :jobrunkey;] *)
Definition QUERY_JOB_BY_JOBRUNKEY_STATEMENT (jobrunkey : Z) : list JobDatabaseEntry.t :=
  filter (fun j => Z.eqb (m_jobRunKey j) jobrunkey) (Jobs db).

Definition QUERY_JOB_BY_SOURCEID := "AzToolsFramework::AssetDatabase::QueryJobBySourceID".
(** [SELECT * FROM Jobs WHERE SourcePK = :sourceid;] *)
Definition QUERY_JOB_BY_SOURCEID_STATEMENT (sourceid : Z) : list JobDatabaseEntry.t :=
  filter (fun j => Z.eqb (m_sourcePK j) sourceid) (Jobs db).

Definition QUERY_JOB_BY_SOURCEID_PLATFORM := "AzToolsFramework::AssetDatabase::QueryJobBySourceIDPlatform".
(** [SELECT * FROM Jobs WHERE SourcePK = :sourceid AND Platform = :platform;] *)
Definition QUERY_JOB_BY_SOURCEID_PLATFORM_STATEMENT (sourceid : Z) (platform : string)
  : list JobDatabaseEntry.t :=
  filter (fun j => Z.eqb (m_sourcePK j) sourceid && String.eqb (JobDatabaseEntry.m_platform j) platform)
         (Jobs db).

(** The rows of the combined statements, with the columns of [Jobs] or of
    [Sources] still nullable. *)
Definition combined_of_nullable_job
  (row : SourceDatabaseEntry.t * option JobDatabaseEntry.t
         * ScanFolderDatabaseEntry.t * ProductDatabaseEntry.t)
  : list (CombinedColumns) :=
  let '(s, oj, sf, p) := row in
  match oj with Some j => [(sf, s, j, p)] | None => [] end.

(** [FROM Sources LEFT JOIN Jobs ON Sources.SourceID = Jobs.SourcePK
     INNER JOIN ScanFolders ON ScanFolders.ScanFolderID = Sources.ScanFolderPK
     INNER JOIN Products ON Jobs.JobID = Products.JobPK] *)
Definition from_Sources_Jobs_ScanFolders_Products :=
  inner_join
    (inner_join
       (left_join (Sources db) (Jobs db)
          (fun s j => Z.eqb (m_sourceID s) (m_sourcePK j)))
       (ScanFolders db)
       (fun '(s, _) sf => Z.eqb (m_scanFolderID sf) (m_scanFolderPK s)))
    (Products db)
    (fun '(_, oj, _) p => on_some oj (fun j => Z.eqb (m_jobID j) (m_jobPK p))).

Definition QUERY_COMBINED_BY_SOURCEID := "AzToolsFramework::AssetDatabase::QueryCombinedBySourceID".
(** [SELECT * FROM Sources LEFT JOIN Jobs ... INNER JOIN ScanFolders ...
     INNER JOIN Products ... WHERE Sources.SourceID = :sourceid;] *)
Definition QUERY_COMBINED_BY_SOURCEID_STATEMENT (sourceid : Z) : list CombinedColumns :=
  flat_map combined_of_nullable_job
    (filter (fun '(s, _, _, _) => Z.eqb (m_sourceID s) sourceid)
       from_Sources_Jobs_ScanFolders_Products).

Definition QUERY_COMBINED_BY_SOURCEID_PLATFORM := "AzToolsFramework::AssetDatabase::QueryCombinedBySourceIDPlatform".
(** [... WHERE Sources.SourceID = :sourceid AND Jobs.Platform = :platform;] *)
Definition QUERY_COMBINED_BY_SOURCEID_PLATFORM_STATEMENT (sourceid : Z) (platform : string)
  : list CombinedColumns :=
  flat_map combined_of_nullable_job
    (filter (fun '(s, oj, _, _) =>
               Z.eqb (m_sourceID s) sourceid
               && on_some oj (fun j => String.eqb (JobDatabaseEntry.m_platform j) platform))
       from_Sources_Jobs_ScanFolders_Products).

(** [FROM Jobs LEFT JOIN Sources ON Sources.SourceID = Jobs.SourcePK
     INNER JOIN ScanFolders ON ScanFolders.ScanFolderID = Sources.ScanFolderPK
     INNER JOIN Products ON Jobs.JobID = Products.JobPK] *)
Definition from_Jobs_Sources_ScanFolders_Products :=
  inner_join
    (inner_join
       (left_join (Jobs db) (Sources db)
          (fun j s => Z.eqb (m_sourceID s) (m_sourcePK j)))
       (ScanFolders db)
       (fun '(_, os) sf =>
          on_some os (fun s => Z.eqb (m_scanFolderID sf) (m_scanFolderPK s))))
    (Products db)
    (fun '(j, _, _) p => Z.eqb (m_jobID j) (m_jobPK p)).

Definition combined_of_nullable_source
  (row : JobDatabaseEntry.t * option SourceDatabaseEntry.t
         * ScanFolderDatabaseEntry.t * ProductDatabaseEntry.t)
  : list (CombinedColumns) :=
  let '(j, os, sf, p) := row in
  match os with Some s => [(sf, s, j, p)] | None => [] end.

Definition QUERY_COMBINED_BY_JOBID := "AzToolsFramework::AssetDatabase::QueryCombinedByJobID".
(** [SELECT * FROM Jobs LEFT JOIN Sources ... INNER JOIN ScanFolders ...
     INNER JOIN Products ... WHERE Jobs.JobID = :jobid;] *)
Definition QUERY_COMBINED_BY_JOBID_STATEMENT (jobid : Z) : list CombinedColumns :=
  flat_map combined_of_nullable_source
    (filter (fun '(j, _, _, _) => Z.eqb (m_jobID j) jobid)
       from_Jobs_Sources_ScanFolders_Products).

Definition QUERY_COMBINED_BY_JOBID_PLATFORM := "AzToolsFramework::AssetDatabase::QueryCombinedByJobIDPlatform".
(** [... WHERE Jobs.JobID = :jobid AND Jobs.Platform = :platform;] *)
Definition QUERY_COMBINED_BY_JOBID_PLATFORM_STATEMENT (jobid : Z) (platform : string)
  : list CombinedColumns :=
  flat_map combined_of_nullable_source
    (filter (fun '(j, _, _, _) =>
               Z.eqb (m_jobID j) jobid && String.eqb (JobDatabaseEntry.m_platform j) platform)
       from_Jobs_Sources_ScanFolders_Products).

(** [FROM Products LEFT JOIN Jobs ON Jobs.JobID = Products.JobPK
     INNER JOIN Sources ON Sources.SourceID = Jobs.SourcePK
     INNER JOIN ScanFolders ON ScanFolders.ScanFolderID = Sources.ScanFolderPK] *)
Definition from_Products_Jobs_Sources_ScanFolders :=
  inner_join
    (inner_join
       (left_join (Products db) (Jobs db)
          (fun p j => Z.eqb (m_jobID j) (m_jobPK p)))
       (Sources db)
       (fun '(_, oj) s => on_some oj (fun j => Z.eqb (m_sourceID s) (m_sourcePK j))))
    (ScanFolders db)
    (fun '(_, _, s) sf => Z.eqb (m_scanFolderID sf) (m_scanFolderPK s)).

Definition combined_of_product_row
  (row : ProductDatabaseEntry.t * option JobDatabaseEntry.t
         * SourceDatabaseEntry.t * ScanFolderDatabaseEntry.t)
  : list (CombinedColumns) :=
  let '(p, oj, s, sf) := row in
  match oj with Some j => [(sf, s, j, p)] | None => [] end.

Definition QUERY_COMBINED_BY_PRODUCTID := "AzToolsFramework::AssetDatabase::QueryCombinedByProcductID".
(** [SELECT * FROM Products LEFT JOIN Jobs ... INNER JOIN Sources ...
     INNER JOIN ScanFolders ... WHERE Products.ProductID = :productid;] *)
Definition QUERY_COMBINED_BY_PRODUCTID_STATEMENT (productid : Z) : list CombinedColumns :=
  flat_map combined_of_product_row
    (filter (fun '(p, _, _, _) => Z.eqb (m_productID p) productid)
       from_Products_Jobs_Sources_ScanFolders).

Definition QUERY_COMBINED_BY_PRODUCTID_PLATFORM := "AzToolsFramework::AssetDatabase::QueryCombinedByProductIDPlatform".
(** [... WHERE Products.ProductID = :productid AND Jobs.Platform = :platform;] *)
Definition QUERY_COMBINED_BY_PRODUCTID_PLATFORM_STATEMENT (productid : Z) (platform : string)
  : list CombinedColumns :=
  flat_map combined_of_product_row
    (filter (fun '(p, oj, _, _) =>
               Z.eqb (m_productID p) productid
               && on_some oj (fun j => String.eqb (JobDatabaseEntry.m_platform j) platform))
       from_Products_Jobs_Sources_ScanFolders).

Definition GET_UNRESOLVED_PRODUCT_DEPENDENCIES := "AssetProcessor::GetUnresolvedProductDependencies".
(** [SELECT * FROM ProductDependencies where UnresolvedPath != ''] *)
Definition GET_UNRESOLVED_PRODUCT_DEPENDENCIES_STATEMENT
  : list ProductDependencyDatabaseEntry.t :=
  filter (fun d => negb (String.eqb (ProductDependencyDatabaseEntry.m_unresolvedPath d) ""))
         (ProductDependencies db).

End Statements.

(** *** The recursive query *)

Section RecursiveQuery.

Variable Row : Type.
Variable Row_eq_dec : forall a b : Row, {a = b} + {a <> b}.

(** The recursive select, run with [current] as the only row of the
    recursive table. *)
Variable recursive_select : Row -> list Row.

(** [UNION]: a produced row is added to the queue only if no identical row
    has been added before (whether or not that row has already left the
    queue).  [distinct] holds the rows added so far; the result lists the
    rows that are new, in the order they were produced. *)
Fixpoint union_add (distinct : list Row) (produced : list Row) : list Row :=
  match produced with
  | [] => []
  | r :: rest =>
      if in_dec Row_eq_dec r distinct
      then union_add distinct rest
      else r :: union_add (r :: distinct) rest
  end.

(** Modelled from the spec: the store's recursive-query construct
    ([WITH RECURSIVE t AS (initial UNION recursive LIMIT -1 OFFSET n)
    SELECT * FROM t]), which "naturally deduplicates via its union
    semantics".  While the queue is not empty one row is extracted from it;
    it becomes a row of the result unless it is one of the first [offset]
    rows extracted; then the recursive select is run on it and the rows it
    produces are queued if they are new.  The construct need not
    terminate in general, hence the [fuel]: [None] means that the queue was
    not yet empty after [fuel] extractions. *)
Fixpoint recursive_loop (fuel : nat) (queue distinct : list Row) (offset : nat)
  : option (list Row) :=
  match queue with
  | [] => Some []
  | current :: rest =>
      match fuel with
      | O => None
      | S fuel' =>
          let fresh := union_add distinct (recursive_select current) in
          let later := recursive_loop fuel' (rest ++ fresh) (distinct ++ fresh) (pred offset) in
          match offset with
          | O => option_map (cons current) later
          | S _ => later
          end
      end
  end.

Definition with_recursive_union (fuel : nat) (initial_select : list Row) (offset : nat)
  : option (list Row) :=
  let queue := union_add [] initial_select in
  recursive_loop fuel queue queue offset.

End RecursiveQuery.

Section DependencyStatements.

Import SourceDatabaseEntry JobDatabaseEntry ProductDatabaseEntry ProductDependencyDatabaseEntry.

Variable db : Database.

(** The recursive select of QUERY_ALL_PRODUCTDEPENDENCIES_STATEMENT:
    [SELECT P.ProductID, P.JobPK, P.ProductName, P.SubID, P.AssetType, P.LegacyGuid
     FROM Products P, allProductDeps
     LEFT OUTER JOIN Jobs ON Jobs.JobID = P.JobPK
     LEFT OUTER JOIN Sources ON Sources.SourceID = Jobs.SourcePK
     LEFT OUTER JOIN ProductDependencies
       ON Sources.SourceGuid = ProductDependencies.DependencySourceGuid
       AND P.SubID = ProductDependencies.DependencySubID
     WHERE ProductDependencies.ProductPK = allProductDeps.ProductID] *)
Definition allProductDeps_recursive_select (allProductDeps : ProductDatabaseEntry.t)
  : list ProductDatabaseEntry.t :=
  let from :=
    left_join
      (left_join
         (left_join
            (inner_join (Products db) [allProductDeps] (fun _ _ => true))
            (Jobs db)
            (fun '(P, _) j => Z.eqb (m_jobID j) (m_jobPK P)))
         (Sources db)
         (fun '(_, _, oj) s => on_some oj (fun j => Z.eqb (m_sourceID s) (m_sourcePK j))))
      (ProductDependencies db)
      (fun '(P, _, _, os) d =>
         on_some os (fun s => N.eqb (m_sourceGuid s) (m_dependencySourceGuid d))
         && Z.eqb (ProductDatabaseEntry.m_subID P) (m_dependencySubID d)) in
  map (fun '(P, _, _, _, _) => P)
    (filter (fun '(_, deps, _, _, od) =>
               on_some od (fun d => Z.eqb (m_productPK d) (m_productID deps)))
       from).

Definition QUERY_ALL_PRODUCTDEPENDENCIES := "AzToolsFramework::AssetDatabase::QueryAllProductDependencies".
(** [WITH RECURSIVE allProductDeps(...) AS (
       SELECT * FROM Products WHERE ProductID = :productid
       UNION <the recursive select> LIMIT -1 OFFSET 1)
     SELECT * FROM allProductDeps;]
    The offset "will ignore the first Product selected which is not a
    dependency but the root of the tree". *)
Definition QUERY_ALL_PRODUCTDEPENDENCIES_STATEMENT (fuel : nat) (productid : Z)
  : option (list ProductDatabaseEntry.t) :=
  with_recursive_union ProductDatabaseEntry.eq_dec allProductDeps_recursive_select fuel
    (filter (fun P => Z.eqb (m_productID P) productid) (Products db))
    1%nat.

(** One hop of the dependency graph: [q] is a product whose job belongs to
    a source with the guid, and which has the sub id, named by a
    dependency that [p] owns. *)
Definition depends_on (p q : ProductDatabaseEntry.t) : Prop :=
  In q (Products db) /\
  exists d j s,
    In d (ProductDependencies db) /\ In j (Jobs db) /\ In s (Sources db) /\
    m_productPK d = m_productID p /\
    m_jobID j = m_jobPK q /\
    m_sourceID s = m_sourcePK j /\
    m_sourceGuid s = m_dependencySourceGuid d /\
    ProductDatabaseEntry.m_subID q = m_dependencySubID d.

(** [q] is reachable from the product with id [root] by following one or
    more dependency edges. *)
Definition reachable_from (root : Z) (q : ProductDatabaseEntry.t) : Prop :=
  exists r, In r (Products db) /\ m_productID r = root /\
            clos_trans _ depends_on r q.

(** [ProductID] is the primary key of [Products]. *)
Definition ProductID_is_key : Prop :=
  forall p q, In p (Products db) -> In q (Products db) ->
              m_productID p = m_productID q -> p = q.

End DependencyStatements.

(** ** The connection manager *)

(** [SQLite::Connection]: the store it is attached to and its open flag. *)
Record SQLiteConnection := mkSQLiteConnection {
  conn_store : Store;
  conn_IsOpen : bool }.

(** The data members of [AssetDatabaseConnection]. *)
Record AssetDatabaseConnection := mkAssetDatabaseConnection {
  m_databaseConnection : option SQLiteConnection;
  m_validatedTables : list string }.

(** What the connection manager asks of its collaborators: the location
    provider on the request bus, the file system, and the storage engine. *)
Record Environment := mkEnvironment {
  GetAssetDatabaseLocation : string;
  SystemFile_Exists : string -> bool;
  SystemFile_IsWritable : string -> bool;
  SQLite_Open : string -> bool -> option Store }.

(** The calls made on the file system and on the storage engine. *)
Inductive Event :=
| CreateDir (path : string)
| ConnectionOpen (path : string) (readOnly : bool)
| ConnectionClose.

Definition is_ConnectionOpen (e : Event) : bool :=
  match e with ConnectionOpen _ _ => true | _ => false end.

(** when you add a table, be sure to add it here to check the database for
    corruption *)
Definition EXPECTED_TABLES : list string :=
  [ "BuilderInfo"; "Files"; "Jobs"; "LegacySubIDs"; "ProductDependencies";
    "Products"; "ScanFolders"; "SourceDependency"; "Sources"; "dbinfo" ].

(** [AssetDatabaseConnection::CloseDatabase] *)
Definition CloseDatabase (this : AssetDatabaseConnection)
  : AssetDatabaseConnection * list Event :=
  (mkAssetDatabaseConnection None [],
   match m_databaseConnection this with
   | Some _ => [ConnectionClose]
   | None => []
   end).

(** [AssetDatabaseConnection::GetAssetDatabaseFilePath] *)
Definition GetAssetDatabaseFilePath (env : Environment) : string :=
  let databaseLocation := GetAssetDatabaseLocation env in
  if String.eqb databaseLocation "" then "assetdb.sqlite" else databaseLocation.

(** [AssetDatabaseConnection::ValidateDatabaseTable] *)
Definition ValidateDatabaseTable (this : AssetDatabaseConnection) (tableName : string)
  : bool * AssetDatabaseConnection :=
  if existsb (String.eqb tableName) (m_validatedTables this)
  then (true, this) (* already validated. *)
  else
    match m_databaseConnection this with
    | None => (false, this)
    | Some connection =>
        if negb (conn_IsOpen connection) then (false, this)
        else if negb (DoesTableExist (conn_store connection) tableName) then (false, this)
        else (true,
              mkAssetDatabaseConnection (m_databaseConnection this)
                (tableName :: m_validatedTables this))
    end.

Section QueryMethods.

(** The store behind [*m_databaseConnection]. *)
Variable c : Store.

(** The values of the locals [savedBuilderGuid] and [savedJobStatus] of
    [GetProductResult] before anything is fetched into them. *)
Variable uninitialised_criteria : Uuid * Z.

Variable St : Type.

(** *** Table queries *)

(** [AssetDatabaseConnection::QueryDatabaseInfoTable] *)
Definition QueryDatabaseInfoTable (handler : Handler DatabaseInfoEntry.t St) (s : St)
  : Outcome DatabaseInfoEntry.t St :=
  BindAndQuery
    (Bind c QUERY_DATABASEINFO_TABLE (QUERY_DATABASEINFO_TABLE_STATEMENT (tables c)))
    (GetResult (@Some _)) handler s.

(** *** Lookups that return the helper's result *)

(** [AssetDatabaseConnection::QuerySourceBySourceID] *)
Definition QuerySourceBySourceID (sourceid : Z) (handler : Handler SourceDatabaseEntry.t St)
  (s : St) : Outcome SourceDatabaseEntry.t St :=
  BindAndQuery
    (Bind c QUERY_SOURCE_BY_SOURCEID (QUERY_SOURCE_BY_SOURCEID_STATEMENT (tables c) sourceid))
    (GetResult (@Some _)) handler s.

(** [AssetDatabaseConnection::QuerySourceBySourceName] *)
Definition QuerySourceBySourceName (exactSourceName : string)
  (handler : Handler SourceDatabaseEntry.t St) (s : St) : Outcome SourceDatabaseEntry.t St :=
  BindAndQuery
    (Bind c QUERY_SOURCE_BY_SOURCENAME
       (QUERY_SOURCE_BY_SOURCENAME_STATEMENT (tables c) exactSourceName))
    (GetResult (@Some _)) handler s.

(** [AssetDatabaseConnection::QuerySourceLikeSourceName]; [chr_eq] is the
    character comparison the store uses for LIKE. *)
Definition QuerySourceLikeSourceName (chr_eq : ascii -> ascii -> bool)
  (likeSourceName : string) (likeType : LikeType)
  (handler : Handler SourceDatabaseEntry.t St) (s : St) : Outcome SourceDatabaseEntry.t St :=
  let actualSearchTerm := GetLikeActualSearchTerm likeSourceName likeType in
  BindAndQuery
    (Bind c QUERY_SOURCE_LIKE_SOURCENAME
       (QUERY_SOURCE_LIKE_SOURCENAME_STATEMENT (tables c) chr_eq actualSearchTerm))
    (GetResult (@Some _)) handler s.

(** [AssetDatabaseConnection::QueryJobByJobID] *)
Definition QueryJobByJobID (jobid : Z) (handler : Handler JobDatabaseEntry.t St) (s : St)
  : Outcome JobDatabaseEntry.t St :=
  BindAndQuery
    (Bind c QUERY_JOB_BY_JOBID (QUERY_JOB_BY_JOBID_STATEMENT (tables c) jobid))
    (GetJobResultSimple (@Some _)) handler s.

(** [AssetDatabaseConnection::QueryJobByJobKey] *)
Definition QueryJobByJobKey (jobKey : string) (handler : Handler JobDatabaseEntry.t St) (s : St)
  : Outcome JobDatabaseEntry.t St :=
  BindAndQuery
    (Bind c QUERY_JOB_BY_JOBKEY (QUERY_JOB_BY_JOBKEY_STATEMENT (tables c) jobKey))
    (GetJobResultSimple (@Some _)) handler s.

(** [AssetDatabaseConnection::QueryJobByJobRunKey] *)
Definition QueryJobByJobRunKey (jobrunkey : Z) (handler : Handler JobDatabaseEntry.t St) (s : St)
  : Outcome JobDatabaseEntry.t St :=
  BindAndQuery
    (Bind c QUERY_JOB_BY_JOBRUNKEY (QUERY_JOB_BY_JOBRUNKEY_STATEMENT (tables c) jobrunkey))
    (GetJobResultSimple (@Some _)) handler s.

(** [platform && strlen(platform)] *)
Definition has_platform (platform : option string) : option string :=
  match platform with
  | Some p => if String.eqb p "" then None else Some p
  | None => None
  end.

(** [AssetDatabaseConnection::QueryJobBySourceID] *)
Definition QueryJobBySourceID (sourceID : Z) (handler : Handler JobDatabaseEntry.t St)
  (builderGuid : Uuid) (jobKey : option string) (platform : option string)
  (status : JobStatus) (s : St) : Outcome JobDatabaseEntry.t St :=
  match has_platform platform with
  | Some platform =>
      BindAndQuery
        (Bind c QUERY_JOB_BY_SOURCEID_PLATFORM
           (QUERY_JOB_BY_SOURCEID_PLATFORM_STATEMENT (tables c) sourceID platform))
        (fun statement handler => GetJobResult (@Some _) statement handler builderGuid jobKey status)
        handler s
  | None =>
      BindAndQuery
        (Bind c QUERY_JOB_BY_SOURCEID (QUERY_JOB_BY_SOURCEID_STATEMENT (tables c) sourceID))
        (fun statement handler => GetJobResult (@Some _) statement handler builderGuid jobKey status)
        handler s
  end.

(** [AssetDatabaseConnection::QueryLegacySubIdsByProductID] *)
Definition QueryLegacySubIdsByProductID (productId : Z)
  (handler : Handler LegacySubIDsEntry.t St) (s : St) : Outcome LegacySubIDsEntry.t St :=
  BindAndQuery
    (Bind c QUERY_LEGACYSUBIDSBYPRODUCTID
       (QUERY_LEGACYSUBIDSBYPRODUCTID_STATEMENT (tables c) productId))
    (GetResult (@Some _)) handler s.

(** [AssetDatabaseConnection::QueryUnresolvedProductDependencies] *)
Definition QueryUnresolvedProductDependencies
  (handler : Handler ProductDependencyDatabaseEntry.t St) (s : St)
  : Outcome ProductDependencyDatabaseEntry.t St :=
  BindAndQuery
    (Bind c GET_UNRESOLVED_PRODUCT_DEPENDENCIES
       (GET_UNRESOLVED_PRODUCT_DEPENDENCIES_STATEMENT (tables c)))
    (GetResult (@Some _)) handler s.

(** [AssetDatabaseConnection::QueryAllProductDependencies].  The rows of
    the recursive statement carry the product columns only; the optional
    job criteria are not in use, so no job column is fetched.  The result
    is [None] when the store has not finished the recursion within [fuel]
    extractions. *)
Definition QueryAllProductDependencies (fuel : nat) (productID : Z)
  (handler : Handler ProductDatabaseEntry.t St) (s : St)
  : option (Outcome ProductDatabaseEntry.t St) :=
  match QUERY_ALL_PRODUCTDEPENDENCIES_STATEMENT (tables c) fuel productID with
  | None => None
  | Some rows =>
      Some (BindAndQuery
              (Bind c QUERY_ALL_PRODUCTDEPENDENCIES rows)
              (GetProductResultSimple (@Some _)
                 (fun _ => None) (fun _ => None) (fun _ => None)
                 uninitialised_criteria)
              handler s)
  end.

End QueryMethods.

(** *** Combined queries *)

Section CombinedQueries.

Variable c : Store.

(** The legacy sub ids that [GetCombinedResult] attaches to a row: what
    [QueryLegacySubIdsByProductID] delivers to a handler that takes them
    all. *)
Definition LegacySubIds_of (productId : Z) : list LegacySubIDsEntry.t :=
  delivered (QueryLegacySubIdsByProductID c productId (fun _ (u : unit) => (true, u)) tt).

(** [GetCombinedResultAsLambda]: [GetCombinedResult] with
    [includeLegacySubIDs] left at the default of its declaration, false. *)
Definition GetCombinedResultAsLambda {St : Type} (statement : Statement CombinedColumns)
  (handler : Handler CombinedDatabaseEntry.t St)
  (builderGuid : Uuid) (jobKey : option string) (status : JobStatus) (s : St)
  : Outcome CombinedDatabaseEntry.t St :=
  GetCombinedResult (@Some _) LegacySubIds_of statement handler builderGuid jobKey status false s.

(** [AssetDatabaseConnection::QueryCombinedBySourceID] *)
Definition QueryCombinedBySourceID {St : Type} (sourceID : Z)
  (handler : Handler CombinedDatabaseEntry.t St)
  (builderGuid : Uuid) (jobKey : option string) (platform : option string)
  (status : JobStatus) (s : St) : Outcome CombinedDatabaseEntry.t St :=
  match has_platform platform with
  | Some platform =>
      BindAndQuery
        (Bind c QUERY_COMBINED_BY_SOURCEID_PLATFORM
           (QUERY_COMBINED_BY_SOURCEID_PLATFORM_STATEMENT (tables c) sourceID platform))
        (fun statement handler => GetCombinedResultAsLambda statement handler builderGuid jobKey status)
        handler s
  | None =>
      BindAndQuery
        (Bind c QUERY_COMBINED_BY_SOURCEID
           (QUERY_COMBINED_BY_SOURCEID_STATEMENT (tables c) sourceID))
        (fun statement handler => GetCombinedResultAsLambda statement handler builderGuid jobKey status)
        handler s
  end.

(** [AssetDatabaseConnection::QueryCombinedByJobID] *)
Definition QueryCombinedByJobID {St : Type} (jobID : Z)
  (handler : Handler CombinedDatabaseEntry.t St)
  (builderGuid : Uuid) (jobKey : option string) (platform : option string)
  (status : JobStatus) (s : St) : Outcome CombinedDatabaseEntry.t St :=
  match has_platform platform with
  | Some platform =>
      BindAndQuery
        (Bind c QUERY_COMBINED_BY_JOBID_PLATFORM
           (QUERY_COMBINED_BY_JOBID_PLATFORM_STATEMENT (tables c) jobID platform))
        (fun statement handler => GetCombinedResultAsLambda statement handler builderGuid jobKey status)
        handler s
  | None =>
      BindAndQuery
        (Bind c QUERY_COMBINED_BY_JOBID
           (QUERY_COMBINED_BY_JOBID_STATEMENT (tables c) jobID))
        (fun statement handler => GetCombinedResultAsLambda statement handler builderGuid jobKey status)
        handler s
  end.

(** [AssetDatabaseConnection::QueryCombinedByProductID] *)
Definition QueryCombinedByProductID {St : Type} (productID : Z)
  (handler : Handler CombinedDatabaseEntry.t St)
  (builderGuid : Uuid) (jobKey : option string) (platform : option string)
  (status : JobStatus) (s : St) : Outcome CombinedDatabaseEntry.t St :=
  match has_platform platform with
  | Some platform =>
      BindAndQuery
        (Bind c QUERY_COMBINED_BY_PRODUCTID_PLATFORM
           (QUERY_COMBINED_BY_PRODUCTID_PLATFORM_STATEMENT (tables c) productID platform))
        (fun statement handler => GetCombinedResultAsLambda statement handler builderGuid jobKey status)
        handler s
  | None =>
      BindAndQuery
        (Bind c QUERY_COMBINED_BY_PRODUCTID
           (QUERY_COMBINED_BY_PRODUCTID_STATEMENT (tables c) productID))
        (fun statement handler => GetCombinedResultAsLambda statement handler builderGuid jobKey status)
        handler s
  end.

End CombinedQueries.

(** *** Projections *)

(** The defaults that the declarations give to the optional criteria:
    a null builder guid, no job key, no platform, any status. *)
Definition default_builderGuid : Uuid := 0%N.
Definition default_jobKey : option string := None.
Definition default_platform : option string := None.
Definition default_status : JobStatus := JobStatus_Any.

(** A default constructed [SourceDatabaseEntry]. *)
Definition SourceDatabaseEntry_default : SourceDatabaseEntry.t :=
  SourceDatabaseEntry.Build (-1) (-1) "" 0%N "".

Definition JobInfo_with_sourceFile (jobinfo : JobInfo.t) (sourceFile : string) : JobInfo.t :=
  JobInfo.Build sourceFile (JobInfo.m_watchFolder jobinfo)
    (JobInfo.m_platform jobinfo) (JobInfo.m_builderGuid jobinfo) (JobInfo.m_jobKey jobinfo)
    (JobInfo.m_status jobinfo) (JobInfo.m_jobRunKey jobinfo)
    (JobInfo.m_firstFailLogTime jobinfo) (JobInfo.m_firstFailLogFile jobinfo)
    (JobInfo.m_lastFailLogTime jobinfo) (JobInfo.m_lastFailLogFile jobinfo)
    (JobInfo.m_lastLogTime jobinfo) (JobInfo.m_lastLogFile jobinfo) (JobInfo.m_jobID jobinfo).

Definition JobInfo_with_watchFolder (jobinfo : JobInfo.t) (watchFolder : string) : JobInfo.t :=
  JobInfo.Build (JobInfo.m_sourceFile jobinfo) watchFolder
    (JobInfo.m_platform jobinfo) (JobInfo.m_builderGuid jobinfo) (JobInfo.m_jobKey jobinfo)
    (JobInfo.m_status jobinfo) (JobInfo.m_jobRunKey jobinfo)
    (JobInfo.m_firstFailLogTime jobinfo) (JobInfo.m_firstFailLogFile jobinfo)
    (JobInfo.m_lastFailLogTime jobinfo) (JobInfo.m_lastFailLogFile jobinfo)
    (JobInfo.m_lastLogTime jobinfo) (JobInfo.m_lastLogFile jobinfo) (JobInfo.m_jobID jobinfo).

Section ScanFolderProjections.

Variable c : Store.
Variable St : Type.

(** The lambda shared by the three scan folder projections:
    [found = true; ScanFolderDatabaseEntry scanFolder = AZStd::move(combined);
     return handler(scanFolder);]  Its captured state is [found] and the
    state of the caller's handler. *)
Definition scanFolder_lambda (handler : Handler ScanFolderDatabaseEntry.t St)
  : Handler CombinedDatabaseEntry.t (bool * St) :=
  fun combined '(_, s) =>
    let found := true in
    let scanFolder := CombinedDatabaseEntry.scanFolder combined in
    let '(continue, s) := handler scanFolder s in
    (continue, (found, s)).

(** [return found && succeeded;] *)
Definition found_and_succeeded (o : Outcome CombinedDatabaseEntry.t (bool * St))
  : Outcome ScanFolderDatabaseEntry.t St :=
  let succeeded := ret o in
  let '(found, s) := captured o in
  mkOutcome (found && succeeded) s
    (map CombinedDatabaseEntry.scanFolder (delivered o)) (steps o).

(** [AssetDatabaseConnection::QueryScanFolderBySourceID] *)
Definition QueryScanFolderBySourceID (sourceID : Z)
  (handler : Handler ScanFolderDatabaseEntry.t St) (s : St)
  : Outcome ScanFolderDatabaseEntry.t St :=
  let found := false in
  found_and_succeeded
    (QueryCombinedBySourceID c sourceID (scanFolder_lambda handler)
       default_builderGuid default_jobKey default_platform default_status (found, s)).

(** [AssetDatabaseConnection::QueryScanFolderByJobID] *)
Definition QueryScanFolderByJobID (jobID : Z)
  (handler : Handler ScanFolderDatabaseEntry.t St) (s : St)
  : Outcome ScanFolderDatabaseEntry.t St :=
  let found := false in
  found_and_succeeded
    (QueryCombinedByJobID c jobID (scanFolder_lambda handler)
       default_builderGuid default_jobKey default_platform default_status (found, s)).

(** [AssetDatabaseConnection::QueryScanFolderByProductID]: the source calls
    [QueryCombinedBySourceID(productID, ...)]. *)
Definition QueryScanFolderByProductID (productID : Z)
  (handler : Handler ScanFolderDatabaseEntry.t St) (s : St)
  : Outcome ScanFolderDatabaseEntry.t St :=
  let found := false in
  found_and_succeeded
    (QueryCombinedBySourceID c productID (scanFolder_lambda handler)
       default_builderGuid default_jobKey default_platform default_status (found, s)).

(** [AssetDatabaseConnection::QuerySourceByJobID]: the lambda hands the
    source of the first combined row to the handler and stops
    ([handler(source); return false;//one]). *)
Definition QuerySourceByJobID (jobid : Z) (handler : Handler SourceDatabaseEntry.t St) (s : St)
  : Outcome SourceDatabaseEntry.t St :=
  let o :=
    QueryCombinedByJobID c jobid
      (fun combined s =>
         let source := CombinedDatabaseEntry.source combined in
         let '(_, s) := handler source s in
         (false, s))
      0%N None default_platform default_status s in
  mkOutcome (ret o) (captured o) (map CombinedDatabaseEntry.source (delivered o)) (steps o).

(** [AssetDatabaseConnection::QuerySourceByProductID] *)
Definition QuerySourceByProductID (productid : Z) (handler : Handler SourceDatabaseEntry.t St)
  (s : St) : Outcome SourceDatabaseEntry.t St :=
  let o :=
    QueryCombinedByProductID c productid
      (fun combined s =>
         let source := CombinedDatabaseEntry.source combined in
         let '(_, s) := handler source s in
         (false, s))
      0%N default_jobKey default_platform default_status s in
  mkOutcome (ret o) (captured o) (map CombinedDatabaseEntry.source (delivered o)) (steps o).

End ScanFolderProjections.

Section JobInfoProjections.

Variable c : Store.
Variable St : Type.

(** The captured state of the lambdas below: the local [found], the state
    of the caller's handler, and the job infos handed to it so far. *)
Definition JobInfoState := (bool * St * list JobInfo.t)%type.

(** [return found && succeeded;] for the job info projections; [o] is the
    outcome of the query whose rows drive the caller's handler. *)
Definition jobInfo_result {E : Type} (o : Outcome E JobInfoState) : Outcome JobInfo.t St :=
  let succeeded := ret o in
  let '(found, s, log) := captured o in
  mkOutcome (found && succeeded) s log (steps o).

(** [AssetDatabaseConnection::QueryJobInfoByJobID] *)
Definition QueryJobInfoByJobID (jobID : Z) (handler : Handler JobInfo.t St) (s : St)
  : Outcome JobInfo.t St :=
  let source := SourceDatabaseEntry_default in
  let found := false in
  let o1 :=
    QuerySourceByJobID c jobID
      (fun entry (_ : bool * SourceDatabaseEntry.t) =>
         let found := true in
         let source := entry in
         (false, (found, source))) (* one *)
      (found, source) in
  let succeeded := ret o1 in
  let '(found, source) := captured o1 in
  if negb found || negb succeeded then mkOutcome false s [] (steps o1)
  else
    let found := false in
    jobInfo_result
      (QueryJobByJobID c jobID
         (fun entry '(_, s, log) =>
            let found := true in
            let jobinfo := JobInfo.empty in
            let jobinfo := JobInfo_with_sourceFile jobinfo (SourceDatabaseEntry.m_sourceName source) in
            let jobinfo := PopulateJobInfo jobinfo entry in
            let '(continue, s) := handler jobinfo s in
            (continue, (found, s, log ++ [jobinfo])))
         (found, s, [])).

(** [AssetDatabaseConnection::QueryJobInfoByJobRunKey].  The assignment to
    [succeeded] inside the lambda is overwritten by the result of the outer
    call. *)
Definition QueryJobInfoByJobRunKey (jobRunKey : Z) (handler : Handler JobInfo.t St) (s : St)
  : Outcome JobInfo.t St :=
  let found := false in
  jobInfo_result
    (QueryJobByJobRunKey c jobRunKey
       (fun entry '(found, s, log) =>
          let jobinfo := JobInfo.empty in
          let inner :=
            QuerySourceBySourceID c (JobDatabaseEntry.m_sourcePK entry)
              (fun sourceEntry '(_, jobinfo) =>
                 let found := true in
                 let jobinfo :=
                   JobInfo_with_sourceFile jobinfo (SourceDatabaseEntry.m_sourceName sourceEntry) in
                 (true, (found, jobinfo)))
              (found, jobinfo) in
          let '(found, jobinfo) := captured inner in
          if negb found then (false, (found, s, log))
          else
            let jobinfo := PopulateJobInfo jobinfo entry in
            let '(continue, s) := handler jobinfo s in
            (continue, (found, s, log ++ [jobinfo])))
       (found, s, [])).

(** [AssetDatabaseConnection::QueryJobInfoByJobKey] *)
Definition QueryJobInfoByJobKey (jobKey : string) (handler : Handler JobInfo.t St) (s : St)
  : Outcome JobInfo.t St :=
  let found := false in
  jobInfo_result
    (QueryJobByJobKey c jobKey
       (fun entry '(found, s, log) =>
          let jobinfo := JobInfo.empty in
          let inner :=
            QuerySourceBySourceID c (JobDatabaseEntry.m_sourcePK entry)
              (fun sourceEntry '(found, jobinfo) =>
                 let jobinfo :=
                   JobInfo_with_sourceFile jobinfo (SourceDatabaseEntry.m_sourceName sourceEntry) in
                 let scan :=
                   QueryScanFolderBySourceID c (SourceDatabaseEntry.m_sourceID sourceEntry)
                     (fun scanFolderEntry '(_, jobinfo) =>
                        let found := true in
                        let jobinfo :=
                          JobInfo_with_watchFolder jobinfo
                            (ScanFolderDatabaseEntry.m_scanFolder scanFolderEntry) in
                        (false, (found, jobinfo)))
                     (found, jobinfo) in
                 (true, captured scan))
              (found, jobinfo) in
          let '(found, jobinfo) := captured inner in
          if negb found then (false, (found, s, log))
          else
            let jobinfo := PopulateJobInfo jobinfo entry in
            let '(continue, s) := handler jobinfo s in
            (continue, (found, s, log ++ [jobinfo])))
       (found, s, [])).

(** [AssetDatabaseConnection::QueryJobInfoBySourceName] *)
Definition QueryJobInfoBySourceName (sourceName : string) (handler : Handler JobInfo.t St)
  (builderGuid : Uuid) (jobKey : option string) (platform : option string)
  (status : JobStatus) (s : St) : Outcome JobInfo.t St :=
  let source := SourceDatabaseEntry_default in
  let found := false in
  let o1 :=
    QuerySourceBySourceName c sourceName
      (fun entry (_ : bool * SourceDatabaseEntry.t) =>
         let found := true in
         let source := entry in
         (false, (found, source))) (* one *)
      (found, source) in
  let succeeded := ret o1 in
  let '(found, source) := captured o1 in
  if negb found || negb succeeded then mkOutcome false s [] (steps o1)
  else
    let found := false in
    jobInfo_result
      (QueryJobBySourceID c (SourceDatabaseEntry.m_sourceID source)
         (fun entry '(found, s, log) =>
            let jobinfo := JobInfo.empty in
            (* dont move, we may have many that need this name *)
            let jobinfo := JobInfo_with_sourceFile jobinfo (SourceDatabaseEntry.m_sourceName source) in
            let scan :=
              QueryScanFolderBySourceID c (SourceDatabaseEntry.m_sourceID source)
                (fun scanFolderEntry '(_, jobinfo) =>
                   let found := true in
                   let jobinfo :=
                     JobInfo_with_watchFolder jobinfo
                       (ScanFolderDatabaseEntry.m_scanFolder scanFolderEntry) in
                   (false, (found, jobinfo)))
                (found, jobinfo) in
            let '(found, jobinfo) := captured scan in
            let jobinfo := PopulateJobInfo jobinfo entry in
            let '(continue, s) := handler jobinfo s in
            (continue, (found, s, log ++ [jobinfo])))
         builderGuid jobKey platform status
         (found, s, [])).

End JobInfoProjections.

(** ** Opening and closing *)

Section OpenDatabase.

(** [IsReadOnly()], a virtual member function of the connection class. *)
Variable IsReadOnly : bool.

(** [CurrentDatabaseVersion()] and [DatabaseVersion::DatabaseDoesNotExist],
    both declared in the class header. *)
Variable CurrentDatabaseVersion : DatabaseVersion.
Variable DatabaseDoesNotExist : DatabaseVersion.

(** The value that the local [dbVersion] of [QueryDatabaseVersion] holds
    before the handler has assigned to it. *)
Variable uninitialised_dbVersion : DatabaseVersion.

(** [AzFramework::StringFunc::Path::StripFullName] *)
Variable StripFullName : string -> string.

(** [AssetDatabaseConnection::QueryDatabaseVersion] *)
Definition QueryDatabaseVersion (c : Store) : DatabaseVersion :=
  let dbVersion := uninitialised_dbVersion in
  let o :=
    QueryDatabaseInfoTable c
      (fun entry (_ : DatabaseVersion) =>
         let dbVersion := DatabaseInfoEntry.m_version entry in
         (true, dbVersion)) (* see all of them *)
      dbVersion in
  let res := ret o in
  let dbVersion := captured o in
  if res then dbVersion else DatabaseDoesNotExist.

(** The loop of [PostOpenDatabase] over [EXPECTED_TABLES]. *)
Fixpoint validate_tables (this : AssetDatabaseConnection) (expected : list string)
  : bool * AssetDatabaseConnection :=
  match expected with
  | [] => (true, this)
  | tableName :: rest =>
      let '(ok, this) := ValidateDatabaseTable this tableName in
      if negb ok then (false, this) else validate_tables this rest
  end.

(** [AssetDatabaseConnection::PostOpenDatabase]; it is called with the
    connection pointer set. *)
Definition PostOpenDatabase (this : AssetDatabaseConnection)
  : bool * AssetDatabaseConnection :=
  match m_databaseConnection this with
  | None => (false, this)
  | Some connection =>
      if negb (Z.eqb (QueryDatabaseVersion (conn_store connection)) CurrentDatabaseVersion)
      then (false, this)
      else
        (* make sure that we can see all required tables. *)
        validate_tables this EXPECTED_TABLES
  end.

(** [AssetDatabaseConnection::OpenDatabase]: the result, the connection
    object afterwards, and the calls made on the collaborators.  The source
    asserts that no connection is open on entry ([is_closed] below), and
    after a successful [Open] it registers the named statements
    ([CreateStatements]), which changes neither the connection object nor
    the store. *)
Definition OpenDatabase (env : Environment) (this : AssetDatabaseConnection)
  : bool * AssetDatabaseConnection * list Event :=
  let assetDatabaseLocation := GetAssetDatabaseFilePath env in
  let parentFolder := StripFullName assetDatabaseLocation in
  let created :=
    if negb (String.eqb parentFolder "") then [CreateDir parentFolder] else [] in
  if IsReadOnly && negb (SystemFile_Exists env assetDatabaseLocation)
  then (false, this, created)
  else if negb IsReadOnly && SystemFile_Exists env assetDatabaseLocation
          && negb (SystemFile_IsWritable env assetDatabaseLocation)
  then (false, this, created)
  else
    let opening := created ++ [ConnectionOpen assetDatabaseLocation IsReadOnly] in
    match SQLite_Open env assetDatabaseLocation IsReadOnly with
    | None =>
        (false, mkAssetDatabaseConnection None (m_validatedTables this), opening)
    | Some store =>
        let this :=
          mkAssetDatabaseConnection (Some (mkSQLiteConnection store true)) [] in
        let '(ok, this) := PostOpenDatabase this in
        if negb ok then
          let '(this, closing) := CloseDatabase this in
          (false, this, opening ++ closing)
        else (true, this, opening)
    end.

(** A connection on which [OpenDatabase] may be called: freshly
    constructed, or closed by [CloseDatabase]. *)
Definition is_closed (this : AssetDatabaseConnection) : Prop :=
  m_databaseConnection this = None /\ m_validatedTables this = [].

End OpenDatabase.

(** ** Vocabulary of the specification *)

(** A helper "returns false only on a genuine store error": stepping
    reported [SqlError], or a bound column could not be read on some row. *)
Definition false_only_on_store_error {Row E St : Type}
  (helper : Statement Row -> Handler E St -> St -> Outcome E St)
  (fetch_fails : Row -> Prop) : Prop :=
  forall stm h s,
    ret (helper stm h s) = false ->
    stmt_fails stm = true \/ exists r, In r (stmt_rows stm) /\ fetch_fails r.

(** "Zero rows found is a successful call with no handler invocations". *)
Definition no_rows_is_success {Row E St : Type}
  (helper : Statement Row -> Handler E St -> St -> Outcome E St) : Prop :=
  forall stm h s,
    stmt_rows stm = [] -> stmt_fails stm = false ->
    helper stm h s = mkOutcome true s [] 1.

(** Some column that [GetProductResult] may bind cannot be read on [r]. *)
Definition product_fetch_fails {Row : Type}
  (Fetch_product : Row -> option ProductDatabaseEntry.t)
  (Fetch_JobKey : Row -> option string)
  (Fetch_BuilderGuid : Row -> option Uuid)
  (Fetch_Status : Row -> option Z) (r : Row) : Prop :=
  Fetch_product r = None \/ Fetch_JobKey r = None
  \/ Fetch_BuilderGuid r = None \/ Fetch_Status r = None.

(** Some column that [GetCombinedDependencyResult] binds cannot be read. *)
Definition dependency_fetch_fails {Row : Type}
  (Fetch : Row -> option ProductDependencyDatabaseEntry.t)
  (Fetch_SourceGuid : Row -> option Uuid)
  (Fetch_SubID : Row -> option Z) (r : Row) : Prop :=
  Fetch r = None \/ Fetch_SourceGuid r = None \/ Fetch_SubID r = None.

(** The bound columns from which a combined entry was filled. *)
Definition columns_of (e : CombinedDatabaseEntry.t) : CombinedColumns :=
  (CombinedDatabaseEntry.scanFolder e, CombinedDatabaseEntry.source e,
   CombinedDatabaseEntry.job e, CombinedDatabaseEntry.product e).

(** What the two replacements of [GetLikeActualSearchTerm] do to one
    character, and to a literal. *)
Definition escaped_char (c : ascii) : string :=
  if Ascii.eqb c "%" then "|%"
  else if Ascii.eqb c "_" then "|_"
  else String c "".

Fixpoint escaped (literal : string) : string :=
  match literal with
  | EmptyString => EmptyString
  | String c rest => (escaped_char c ++ escaped rest)%string
  end.

(** ** Example data *)

(** A handler that takes every row. *)
Definition take_all {E : Type} : Handler E unit := fun _ u => (true, u).

(** A handler that counts its invocations and asks to stop. *)
Definition stop_at_once {E : Type} : Handler E nat := fun _ n => (false, S n).

Definition no_fault : string -> Fault := fun _ => NoFault.

Definition empty_Database : Database := mkDatabase [] [] [] [] [] [] [].
Definition empty_Store : Store := mkStore empty_Database EXPECTED_TABLES no_fault.

Definition example_scanFolder (id : Z) (path key : string) : ScanFolderDatabaseEntry.t :=
  ScanFolderDatabaseEntry.Build id path path key "" 0.
Definition example_source (id scanFolderPK : Z) (name : string) (guid : Uuid)
  : SourceDatabaseEntry.t :=
  SourceDatabaseEntry.Build id scanFolderPK name guid "".
Definition example_job (id sourcePK : Z) : JobDatabaseEntry.t :=
  JobDatabaseEntry.Build id sourcePK "compile" 0 "pc" 5%N 4 7 0 "" 0 "" 0 "".
Definition example_product (id jobPK subID : Z) : ProductDatabaseEntry.t :=
  ProductDatabaseEntry.Build id jobPK "out.bin" subID 0%N 0%N.
Definition example_dependency (id productPK : Z) (guid : Uuid) (subID : Z) (unresolved : string)
  : ProductDependencyDatabaseEntry.t :=
  ProductDependencyDatabaseEntry.Build id productPK guid subID 0%N "pc" unresolved 0.

(** Two scan folders; source 1 lives in the first, source 2 in the second;
    product 1 is an output of the job of source 2, product 2 of source 1. *)
Definition crossed_Database : Database :=
  mkDatabase []
    [example_scanFolder 1 "/dev/a" "a"; example_scanFolder 2 "/dev/b" "b"]
    [example_source 1 1 "one.txt" 11%N; example_source 2 2 "two.txt" 12%N]
    [example_job 1 1; example_job 2 2]
    [example_product 1 2 0; example_product 2 1 0]
    [] [].
Definition crossed_Store : Store := mkStore crossed_Database EXPECTED_TABLES no_fault.

(** A source whose only job has produced nothing. *)
Definition failed_job_Database : Database :=
  mkDatabase []
    [example_scanFolder 1 "/dev/a" "a"]
    [example_source 1 1 "a.txt" 11%N]
    [example_job 1 1]
    [] [] [].
Definition failed_job_Store : Store := mkStore failed_job_Database EXPECTED_TABLES no_fault.

(** The job info that the handler receives for the job of [a.txt]. *)
Definition failed_job_info : JobInfo.t :=
  PopulateJobInfo (JobInfo_with_sourceFile JobInfo.empty "a.txt") (example_job 1 1).

(** Four dependencies, two of them still unresolved. *)
Definition worklist_Database : Database :=
  mkDatabase [] [] [] [] []
    [example_dependency 1 1 12%N 0 ""; example_dependency 2 1 0%N 0 "textures/*.dds";
     example_dependency 3 2 13%N 0 ""; example_dependency 4 2 0%N 0 "levels/start.xml"]
    [].
Definition worklist_Store : Store := mkStore worklist_Database EXPECTED_TABLES no_fault.

(** Products A, B, C (ids 1, 2, 3), each the output of the job of its own
    source, with the dependencies A -> B -> C and the back edge C -> A. *)
Definition cycle_Database : Database :=
  mkDatabase []
    [example_scanFolder 1 "/dev/a" "a"]
    [example_source 1 1 "a.txt" 11%N; example_source 2 1 "b.txt" 12%N;
     example_source 3 1 "c.txt" 13%N]
    [example_job 1 1; example_job 2 2; example_job 3 3]
    [example_product 1 1 0; example_product 2 2 0; example_product 3 3 0]
    [example_dependency 1 1 12%N 0 ""; example_dependency 2 2 13%N 0 "";
     example_dependency 3 3 11%N 0 ""]
    [].
Definition cycle_Store : Store := mkStore cycle_Database EXPECTED_TABLES no_fault.

(** A store written by an older version (schema version 5), behind a file
    that exists and is writable. *)
Definition stale_Store : Store :=
  mkStore (mkDatabase [DatabaseInfoEntry.Build 1 5] [] [] [] [] [] [])
    EXPECTED_TABLES no_fault.
Definition stale_Environment : Environment :=
  mkEnvironment "cache/assetdb.sqlite" (fun _ => true) (fun _ => true)
    (fun _ _ => Some stale_Store).

(** An environment in which the database file does not exist. *)
Definition missing_file_Environment : Environment :=
  mkEnvironment "cache/assetdb.sqlite" (fun _ => false) (fun _ => false)
    (fun _ _ => Some empty_Store).

(** A freshly constructed connection. *)
Definition fresh_connection : AssetDatabaseConnection :=
  mkAssetDatabaseConnection None [].

(** ** The remaining entities *)

(** [FileDatabaseEntry]: its members are declared in the header; the file
    at hand names them in [GetColumns], and compares and prints
    [m_isFolder] and [m_modTime] as integers. *)
Module FileDatabaseEntry.
Record t := Build {
  m_fileID : Z;
  m_scanFolderPK : Z;
  m_fileName : string;
  m_isFolder : Z;
  m_modTime : Z }.

(** [FileDatabaseEntry::operator==] *)
Definition eqb (a other : t) : bool :=
  Z.eqb (m_scanFolderPK a) (m_scanFolderPK other)
  && String.eqb (m_fileName a) (m_fileName other)
  && Z.eqb (m_isFolder a) (m_isFolder other)
  && Z.eqb (m_modTime a) (m_modTime other).
End FileDatabaseEntry.

(** [if (p) { member = p; }] on a default constructed (empty) string
    member, [p] being a [const char*] that may be null. *)
Definition assign_if_not_null (p : option string) : string :=
  match p with Some s => s | None => "" end.

(** The two constructors of [JobDatabaseEntry]: the first takes the id of
    the row, the second sets it to -1. *)
Definition JobDatabaseEntry_with_jobID (jobID sourcePK : Z) (jobKey : option string)
  (fingerprint : Z) (platform : option string) (builderGuid : Uuid) (status : JobStatus)
  (jobRunKey firstFailLogTime : Z) (firstFailLogFile : option string)
  (lastFailLogTime : Z) (lastFailLogFile : option string)
  (lastLogTime : Z) (lastLogFile : option string) : JobDatabaseEntry.t :=
  JobDatabaseEntry.Build jobID sourcePK (assign_if_not_null jobKey) fingerprint
    (assign_if_not_null platform) builderGuid status jobRunKey
    firstFailLogTime (assign_if_not_null firstFailLogFile)
    lastFailLogTime (assign_if_not_null lastFailLogFile)
    lastLogTime (assign_if_not_null lastLogFile).

Definition JobDatabaseEntry_without_jobID (sourcePK : Z) (jobKey : option string)
  (fingerprint : Z) (platform : option string) (builderGuid : Uuid) (status : JobStatus)
  (jobRunKey firstFailLogTime : Z) (firstFailLogFile : option string)
  (lastFailLogTime : Z) (lastFailLogFile : option string)
  (lastLogTime : Z) (lastLogFile : option string) : JobDatabaseEntry.t :=
  JobDatabaseEntry.Build (-1) sourcePK (assign_if_not_null jobKey) fingerprint
    (assign_if_not_null platform) builderGuid status jobRunKey
    firstFailLogTime (assign_if_not_null firstFailLogFile)
    lastFailLogTime (assign_if_not_null lastFailLogFile)
    lastLogTime (assign_if_not_null lastLogFile).

Section JobEquality.

Import JobDatabaseEntry.

(** [AzFramework::StringFunc::Equal], as for the products. *)
Variable StringFunc_Equal : string -> string -> bool.

(** [JobDatabaseEntry::operator==]: equivalence is when everything but the
    id is the same. *)
Definition JobDatabaseEntry_eqb (a other : JobDatabaseEntry.t) : bool :=
  Z.eqb (m_sourcePK a) (m_sourcePK other) &&
  Z.eqb (m_fingerprint a) (m_fingerprint other) &&
  StringFunc_Equal (m_jobKey a) (m_jobKey other) &&
  StringFunc_Equal (m_platform a) (m_platform other) &&
  N.eqb (m_builderGuid a) (m_builderGuid other) &&
  Z.eqb (m_status a) (m_status other) &&
  Z.eqb (m_jobRunKey a) (m_jobRunKey other) &&
  Z.eqb (m_firstFailLogTime a) (m_firstFailLogTime other) &&
  StringFunc_Equal (m_firstFailLogFile a) (m_firstFailLogFile other) &&
  Z.eqb (m_lastFailLogTime a) (m_lastFailLogTime other) &&
  StringFunc_Equal (m_lastFailLogFile a) (m_lastFailLogFile other) &&
  Z.eqb (m_lastLogTime a) (m_lastLogTime other) &&
  StringFunc_Equal (m_lastLogFile a) (m_lastLogFile other).

End JobEquality.

(** The two constructors of [ProductDependencyDatabaseEntry]. *)
Definition ProductDependencyDatabaseEntry_with_productDependencyID
  (productDependencyID productPK : Z) (dependencySourceGuid : Uuid) (dependencySubID : Z)
  (dependencyFlags : N) (platform unresolvedPath : string) (dependencyType : Z)
  : ProductDependencyDatabaseEntry.t :=
  ProductDependencyDatabaseEntry.Build productDependencyID productPK dependencySourceGuid
    dependencySubID dependencyFlags platform unresolvedPath dependencyType.

Definition ProductDependencyDatabaseEntry_without_productDependencyID
  (productPK : Z) (dependencySourceGuid : Uuid) (dependencySubID : Z)
  (dependencyFlags : N) (platform unresolvedPath : string) (dependencyType : Z)
  : ProductDependencyDatabaseEntry.t :=
  ProductDependencyDatabaseEntry.Build (-1) productPK dependencySourceGuid
    dependencySubID dependencyFlags platform unresolvedPath dependencyType.

(** [ProductDependencyDatabaseEntry::operator==]: equivalence is when
    everything but the id is the same. *)
Definition ProductDependencyDatabaseEntry_eqb (a other : ProductDependencyDatabaseEntry.t)
  : bool :=
  let m_productPK := ProductDependencyDatabaseEntry.m_productPK in
  let m_dependencySourceGuid := ProductDependencyDatabaseEntry.m_dependencySourceGuid in
  let m_dependencySubID := ProductDependencyDatabaseEntry.m_dependencySubID in
  let m_dependencyFlags := ProductDependencyDatabaseEntry.m_dependencyFlags in
  let m_unresolvedPath := ProductDependencyDatabaseEntry.m_unresolvedPath in
  let m_dependencyType := ProductDependencyDatabaseEntry.m_dependencyType in
  let m_platform := ProductDependencyDatabaseEntry.m_platform in
  Z.eqb (m_productPK a) (m_productPK other) &&
  N.eqb (m_dependencySourceGuid a) (m_dependencySourceGuid other) &&
  Z.eqb (m_dependencySubID a) (m_dependencySubID other) &&
  N.eqb (m_dependencyFlags a) (m_dependencyFlags other) &&
  String.eqb (m_unresolvedPath a) (m_unresolvedPath other) &&
  Z.eqb (m_dependencyType a) (m_dependencyType other) &&
  String.eqb (m_platform a) (m_platform other).

(** ** The remaining statements *)

Section MoreStatements.

Import ScanFolderDatabaseEntry SourceDatabaseEntry JobDatabaseEntry ProductDatabaseEntry.

Variable db : Database.

Definition QUERY_SCANFOLDERS_TABLE := "AzToolsFramework::AssetDatabase::QueryScanFoldersTable".
(** [SELECT * from ScanFolders;] *)
Definition QUERY_SCANFOLDERS_TABLE_STATEMENT : list ScanFolderDatabaseEntry.t := ScanFolders db.

Definition QUERY_SOURCES_TABLE := "AzToolsFramework::AssetDatabase::QuerySourcesTable".
(** [SELECT * from Sources;] *)
Definition QUERY_SOURCES_TABLE_STATEMENT : list SourceDatabaseEntry.t := Sources db.

Definition QUERY_JOBS_TABLE := "AzToolsFramework::AssetDatabase::QueryJobsTable".
(** [SELECT * from Jobs;] *)
Definition QUERY_JOBS_TABLE_STATEMENT : list JobDatabaseEntry.t := Jobs db.

Definition QUERY_JOBS_TABLE_PLATFORM := "AzToolsFramework::AssetDatabase::QueryJobsTablePlatform".
(** [SELECT * from Jobs WHERE Platform = :platform;] *)
Definition QUERY_JOBS_TABLE_PLATFORM_STATEMENT (platform : string) : list JobDatabaseEntry.t :=
  filter (fun j => String.eqb (JobDatabaseEntry.m_platform j) platform) (Jobs db).

(** The rows of the product statements carry the columns of the product
    and of its job ([SELECT Products.*, Jobs.*]). *)
Definition ProductAndJob := (JobDatabaseEntry.t * ProductDatabaseEntry.t)%type.

(** [FROM Jobs INNER JOIN Products ON Jobs.JobID = Products.JobPK] *)
Definition from_Jobs_Products : list ProductAndJob :=
  inner_join (Jobs db) (Products db) (fun j p => Z.eqb (m_jobID j) (m_jobPK p)).

Definition QUERY_PRODUCTS_TABLE := "AzToolsFramework::AssetDatabase::QueryProductsTable".
(** [SELECT * from Products INNER JOIN Jobs ON Products.JobPK = Jobs.JobID;] *)
Definition QUERY_PRODUCTS_TABLE_STATEMENT : list ProductAndJob :=
  map (fun '(p, j) => (j, p))
    (inner_join (Products db) (Jobs db) (fun p j => Z.eqb (m_jobPK p) (m_jobID j))).

Definition QUERY_PRODUCTS_TABLE_PLATFORM := "AzToolsFramework::AssetDatabase::QueryProductsTablePlatform".
(** [SELECT * from Products INNER JOIN Jobs ON Products.JobPK = Jobs.JobID
     WHERE Jobs.Platform = :platform;] *)
Definition QUERY_PRODUCTS_TABLE_PLATFORM_STATEMENT (platform : string) : list ProductAndJob :=
  filter (fun '(j, _) => String.eqb (JobDatabaseEntry.m_platform j) platform)
    QUERY_PRODUCTS_TABLE_STATEMENT.

Definition QUERY_SOURCE_ANALYSISFINGERPRINT := "AzToolsFramework::AssetDatabase::QuerySourceFingerprint".
(** [SELECT AnalysisFingerprint FROM Sources WHERE SourceName = :sourcename
     AND ScanFolderPK = :scanfolderid;]  A row is its single text column. *)
Definition QUERY_SOURCE_ANALYSISFINGERPRINT_STATEMENT (sourcename : string)
  (scanfolderid : Z) : list string :=
  map SourceDatabaseEntry.m_analysisFingerprint
    (filter (fun s => String.eqb (m_sourceName s) sourcename
                      && Z.eqb (SourceDatabaseEntry.m_scanFolderPK s) scanfolderid)
       (Sources db)).

Definition QUERY_JOB_BY_PRODUCTID := "AzToolsFramework::AssetDatabase::QueryJobByProductID".
(** [SELECT Jobs.* FROM Jobs INNER JOIN Products
     ON Jobs.JobID = Products.JobPK WHERE Products.ProductID = :productid;] *)
Definition QUERY_JOB_BY_PRODUCTID_STATEMENT (productid : Z) : list JobDatabaseEntry.t :=
  map fst (filter (fun '(_, p) => Z.eqb (m_productID p) productid) from_Jobs_Products).

Definition QUERY_PRODUCT_BY_JOBID := "AzToolsFramework::AssetDatabase::QueryProductByJobID".
(** [SELECT Products.*, Jobs.* FROM Jobs INNER JOIN Products
     ON Jobs.JobID = Products.JobPK WHERE Products.JobPK = :jobid;]
    The statements below differ from this one in the test after WHERE. *)
Definition QUERY_PRODUCT_BY_JOBID_STATEMENT (jobid : Z) : list ProductAndJob :=
  filter (fun '(_, p) => Z.eqb (m_jobPK p) jobid) from_Jobs_Products.

Definition QUERY_PRODUCT_BY_JOBID_PLATFORM := "AzToolsFramework::AssetDatabase::QueryProductByJobIDPlatform".
(** [... WHERE Products.JobPK = :jobid AND Jobs.Platform = :platform;] *)
Definition QUERY_PRODUCT_BY_JOBID_PLATFORM_STATEMENT (jobid : Z) (platform : string)
  : list ProductAndJob :=
  filter (fun '(j, p) => Z.eqb (m_jobPK p) jobid
                         && String.eqb (JobDatabaseEntry.m_platform j) platform)
    from_Jobs_Products.

Definition QUERY_PRODUCT_BY_SOURCEID := "AzToolsFramework::AssetDatabase::QueryProductBySourceID".
(** [... WHERE Jobs.SourcePK = :sourceid;] *)
Definition QUERY_PRODUCT_BY_SOURCEID_STATEMENT (sourceid : Z) : list ProductAndJob :=
  filter (fun '(j, _) => Z.eqb (m_sourcePK j) sourceid) from_Jobs_Products.

Definition QUERY_PRODUCT_BY_SOURCEID_PLATFORM := "AzToolsFramework::AssetDatabase::QueryProductBySourceIDPlatform".
(** [... WHERE Jobs.SourcePK = :sourceid AND Platform = :platform;] *)
Definition QUERY_PRODUCT_BY_SOURCEID_PLATFORM_STATEMENT (sourceid : Z) (platform : string)
  : list ProductAndJob :=
  filter (fun '(j, _) => Z.eqb (m_sourcePK j) sourceid
                         && String.eqb (JobDatabaseEntry.m_platform j) platform)
    from_Jobs_Products.

Definition QUERY_PRODUCT_LIKE_PRODUCTNAME := "AzToolsFramework::AssetDatabase::QueryProductLikeProductName".
(** [... WHERE Products.ProductName LIKE :productname ESCAPE '|';] *)
Definition QUERY_PRODUCT_LIKE_PRODUCTNAME_STATEMENT (chr_eq : ascii -> ascii -> bool)
  (productname : string) : list ProductAndJob :=
  filter (fun '(_, p) => LIKE_ESCAPE_pipe chr_eq (m_productName p) productname)
    from_Jobs_Products.

Definition QUERY_PRODUCT_LIKE_PRODUCTNAME_PLATFORM := "AzToolsFramework::AssetDatabase::QueryProductLikeProductNamePlatform".
(** [... WHERE Jobs.Platform = :platform AND
     Products.ProductName LIKE :productname ESCAPE '|';] *)
Definition QUERY_PRODUCT_LIKE_PRODUCTNAME_PLATFORM_STATEMENT (chr_eq : ascii -> ascii -> bool)
  (productname platform : string) : list ProductAndJob :=
  filter (fun '(j, p) => String.eqb (JobDatabaseEntry.m_platform j) platform
                         && LIKE_ESCAPE_pipe chr_eq (m_productName p) productname)
    from_Jobs_Products.

Definition QUERY_PRODUCT_BY_SOURCEGUID_SUBID := "AzToolsFramework::AssetDatabase::QueryProductBySourceGuidSubid".
(** [SELECT Sources.SourceGuid, Products.* FROM Sources INNER JOIN Jobs
     ON Sources.SourceID = Jobs.SourcePK INNER JOIN Products
     ON Jobs.JobID = Products.JobPK WHERE
     Sources.SourceGuid = :sourceguid AND Products.SubID = :productsubid;] *)
Definition QUERY_PRODUCT_BY_SOURCEGUID_SUBID_STATEMENT (sourceguid : Uuid) (productsubid : Z)
  : list (Uuid * ProductDatabaseEntry.t) :=
  map (fun '(s, _, p) => (m_sourceGuid s, p))
    (filter (fun '(s, _, p) =>
               N.eqb (m_sourceGuid s) sourceguid
               && Z.eqb (ProductDatabaseEntry.m_subID p) productsubid)
       (inner_join
          (inner_join (Sources db) (Jobs db)
             (fun s j => Z.eqb (m_sourceID s) (m_sourcePK j)))
          (Products db)
          (fun '(_, j) p => Z.eqb (m_jobID j) (m_jobPK p)))).

Definition QUERY_COMBINED := "AzToolsFramework::AssetDatabase::QueryCombined".
(** [SELECT * FROM ScanFolders INNER JOIN Sources
     ON ScanFolders.ScanFolderID = Sources.ScanFolderPK INNER JOIN Jobs
     ON Sources.SourceID = Jobs.SourcePK INNER JOIN Products
     ON Jobs.JobID = Products.JobPK;] *)
Definition QUERY_COMBINED_STATEMENT : list CombinedColumns :=
  inner_join
    (inner_join
       (inner_join (ScanFolders db) (Sources db)
          (fun sf s => Z.eqb (m_scanFolderID sf) (SourceDatabaseEntry.m_scanFolderPK s)))
       (Jobs db)
       (fun '(_, s) j => Z.eqb (m_sourceID s) (m_sourcePK j)))
    (Products db)
    (fun '(_, _, j) p => Z.eqb (m_jobID j) (m_jobPK p)).

Definition QUERY_COMBINED_BY_PLATFORM := "AzToolsFramework::AssetDatabase::QueryCombinedByPlatform".
(** [SELECT * FROM Jobs LEFT JOIN Sources ... INNER JOIN ScanFolders ...
     INNER JOIN Products ... WHERE Jobs.Platform = :platform;] *)
Definition QUERY_COMBINED_BY_PLATFORM_STATEMENT (platform : string) : list CombinedColumns :=
  flat_map combined_of_nullable_source
    (filter (fun '(j, _, _, _) => String.eqb (JobDatabaseEntry.m_platform j) platform)
       (from_Jobs_Sources_ScanFolders_Products db)).

Definition QUERY_PRODUCTDEPENDENCY_BY_PRODUCTID := "AzToolsFramework::AssetDatabase::QueryProductDependencyByProductID".
(** [SELECT * FROM ProductDependencies WHERE ProductPK = :productid;] *)
Definition QUERY_PRODUCTDEPENDENCY_BY_PRODUCTID_STATEMENT (productid : Z)
  : list ProductDependencyDatabaseEntry.t :=
  filter (fun d => Z.eqb (ProductDependencyDatabaseEntry.m_productPK d) productid)
    (ProductDependencies db).

Definition QUERY_DIRECT_PRODUCTDEPENDENCIES := "AzToolsFramework::AssetDatabase::QueryDirectProductDependencies".
(** [SELECT * FROM Products
     LEFT OUTER JOIN Jobs ON Jobs.JobID = Products.JobPK
     LEFT OUTER JOIN Sources ON Sources.SourceID = Jobs.SourcePK
     LEFT OUTER JOIN ProductDependencies
       ON Sources.SourceGuid = ProductDependencies.DependencySourceGuid
       AND Products.SubID = ProductDependencies.DependencySubID
     WHERE ProductDependencies.ProductPK = :productid;]
    The rows that pass the test have no NULL column; the columns read from
    them are those of the product. *)
Definition QUERY_DIRECT_PRODUCTDEPENDENCIES_STATEMENT (productid : Z)
  : list ProductDatabaseEntry.t :=
  let from :=
    left_join
      (left_join
         (left_join (Products db) (Jobs db)
            (fun p j => Z.eqb (m_jobID j) (m_jobPK p)))
         (Sources db)
         (fun '(_, oj) s => on_some oj (fun j => Z.eqb (m_sourceID s) (m_sourcePK j))))
      (ProductDependencies db)
      (fun '(p, _, os) d =>
         on_some os (fun s => N.eqb (m_sourceGuid s)
                                (ProductDependencyDatabaseEntry.m_dependencySourceGuid d))
         && Z.eqb (ProductDatabaseEntry.m_subID p)
              (ProductDependencyDatabaseEntry.m_dependencySubID d)) in
  map (fun '(p, _, _, _) => p)
    (filter (fun '(_, _, _, od) =>
               on_some od (fun d => Z.eqb (ProductDependencyDatabaseEntry.m_productPK d)
                                      productid))
       from).

End MoreStatements.

(** The statements over [Files]: the table is passed as the list of its
    rows. *)
Section FileStatements.

Import FileDatabaseEntry.

Variable Files : list FileDatabaseEntry.t.

Definition QUERY_FILES_TABLE := "AzToolsFramework::AssetDatabase::QueryFilesTable".
(** [SELECT * from Files;] *)
Definition QUERY_FILES_TABLE_STATEMENT : list FileDatabaseEntry.t := Files.

Definition QUERY_FILES_LIKE_FILENAME := "AzToolsFramework::AssetDatabase::QueryFilesLikeFileName".
(** [SELECT * FROM Files WHERE FileName LIKE :filename ESCAPE '|';] *)
Definition QUERY_FILES_LIKE_FILENAME_STATEMENT (chr_eq : ascii -> ascii -> bool)
  (filename : string) : list FileDatabaseEntry.t :=
  filter (fun f => LIKE_ESCAPE_pipe chr_eq (m_fileName f) filename) Files.

End FileStatements.

(** ** The remaining query methods *)

(** What [Fetch] reads from a row of a product statement: the product
    columns, and the three job columns that [GetProductResult] binds. *)
Definition Fetch_product_columns (row : ProductAndJob) : option ProductDatabaseEntry.t :=
  Some (snd row).
Definition Fetch_JobKey_column (row : ProductAndJob) : option string :=
  Some (JobDatabaseEntry.m_jobKey (fst row)).
Definition Fetch_BuilderGuid_column (row : ProductAndJob) : option Uuid :=
  Some (JobDatabaseEntry.m_builderGuid (fst row)).
Definition Fetch_Status_column (row : ProductAndJob) : option Z :=
  Some (JobDatabaseEntry.m_status (fst row)).

Section MoreQueryMethods.

Variable c : Store.
Variable uninitialised_criteria : Uuid * Z.
Variable St : Type.

(** [AssetDatabaseConnection::QueryScanFoldersTable] *)
Definition QueryScanFoldersTable (handler : Handler ScanFolderDatabaseEntry.t St) (s : St)
  : Outcome ScanFolderDatabaseEntry.t St :=
  BindAndQuery
    (Bind c QUERY_SCANFOLDERS_TABLE (QUERY_SCANFOLDERS_TABLE_STATEMENT (tables c)))
    (GetResult (@Some _)) handler s.

(** [AssetDatabaseConnection::QuerySourcesTable] *)
Definition QuerySourcesTable (handler : Handler SourceDatabaseEntry.t St) (s : St)
  : Outcome SourceDatabaseEntry.t St :=
  BindAndQuery
    (Bind c QUERY_SOURCES_TABLE (QUERY_SOURCES_TABLE_STATEMENT (tables c)))
    (GetResult (@Some _)) handler s.

(** [AssetDatabaseConnection::QueryJobsTable] *)
Definition QueryJobsTable (handler : Handler JobDatabaseEntry.t St)
  (builderGuid : Uuid) (jobKey : option string) (platform : option string)
  (status : JobStatus) (s : St) : Outcome JobDatabaseEntry.t St :=
  match has_platform platform with
  | Some platform =>
      BindAndQuery
        (Bind c QUERY_JOBS_TABLE_PLATFORM
           (QUERY_JOBS_TABLE_PLATFORM_STATEMENT (tables c) platform))
        (fun statement handler => GetJobResult (@Some _) statement handler builderGuid jobKey status)
        handler s
  | None =>
      BindAndQuery
        (Bind c QUERY_JOBS_TABLE (QUERY_JOBS_TABLE_STATEMENT (tables c)))
        (fun statement handler => GetJobResult (@Some _) statement handler builderGuid jobKey status)
        handler s
  end.

(** [GetProductResult] on the rows of a product statement. *)
Definition GetProductResult_of_rows (statement : Statement ProductAndJob)
  (handler : Handler ProductDatabaseEntry.t St)
  (builderGuid : Uuid) (jobKey : option string) (status : JobStatus) (s : St)
  : Outcome ProductDatabaseEntry.t St :=
  GetProductResult Fetch_product_columns Fetch_JobKey_column Fetch_BuilderGuid_column
    Fetch_Status_column uninitialised_criteria statement handler builderGuid jobKey status s.

(** [AssetDatabaseConnection::QueryProductsTable] *)
Definition QueryProductsTable (handler : Handler ProductDatabaseEntry.t St)
  (builderGuid : Uuid) (jobKey : option string) (platform : option string)
  (status : JobStatus) (s : St) : Outcome ProductDatabaseEntry.t St :=
  match has_platform platform with
  | Some platform =>
      BindAndQuery
        (Bind c QUERY_PRODUCTS_TABLE_PLATFORM
           (QUERY_PRODUCTS_TABLE_PLATFORM_STATEMENT (tables c) platform))
        (fun statement handler => GetProductResult_of_rows statement handler builderGuid jobKey status)
        handler s
  | None =>
      BindAndQuery
        (Bind c QUERY_PRODUCTS_TABLE (QUERY_PRODUCTS_TABLE_STATEMENT (tables c)))
        (fun statement handler => GetProductResult_of_rows statement handler builderGuid jobKey status)
        handler s
  end.

(** [AssetDatabaseConnection::QueryJobByProductID] *)
Definition QueryJobByProductID (productid : Z) (handler : Handler JobDatabaseEntry.t St) (s : St)
  : Outcome JobDatabaseEntry.t St :=
  BindAndQuery
    (Bind c QUERY_JOB_BY_PRODUCTID (QUERY_JOB_BY_PRODUCTID_STATEMENT (tables c) productid))
    (GetJobResultSimple (@Some _)) handler s.

(** [AssetDatabaseConnection::QueryProductByJobID] *)
Definition QueryProductByJobID (jobid : Z) (handler : Handler ProductDatabaseEntry.t St)
  (builderGuid : Uuid) (jobKey : option string) (platform : option string)
  (status : JobStatus) (s : St) : Outcome ProductDatabaseEntry.t St :=
  match has_platform platform with
  | Some platform =>
      BindAndQuery
        (Bind c QUERY_PRODUCT_BY_JOBID_PLATFORM
           (QUERY_PRODUCT_BY_JOBID_PLATFORM_STATEMENT (tables c) jobid platform))
        (fun statement handler => GetProductResult_of_rows statement handler builderGuid jobKey status)
        handler s
  | None =>
      BindAndQuery
        (Bind c QUERY_PRODUCT_BY_JOBID (QUERY_PRODUCT_BY_JOBID_STATEMENT (tables c) jobid))
        (fun statement handler => GetProductResult_of_rows statement handler builderGuid jobKey status)
        handler s
  end.

(** [AssetDatabaseConnection::QueryProductBySourceID] *)
Definition QueryProductBySourceID (sourceid : Z) (handler : Handler ProductDatabaseEntry.t St)
  (builderGuid : Uuid) (jobKey : option string) (platform : option string)
  (status : JobStatus) (s : St) : Outcome ProductDatabaseEntry.t St :=
  match has_platform platform with
  | Some platform =>
      BindAndQuery
        (Bind c QUERY_PRODUCT_BY_SOURCEID_PLATFORM
           (QUERY_PRODUCT_BY_SOURCEID_PLATFORM_STATEMENT (tables c) sourceid platform))
        (fun statement handler => GetProductResult_of_rows statement handler builderGuid jobKey status)
        handler s
  | None =>
      BindAndQuery
        (Bind c QUERY_PRODUCT_BY_SOURCEID
           (QUERY_PRODUCT_BY_SOURCEID_STATEMENT (tables c) sourceid))
        (fun statement handler => GetProductResult_of_rows statement handler builderGuid jobKey status)
        handler s
  end.

(** [AssetDatabaseConnection::QueryProductBySourceGuidSubID]: the rows
    carry the guid of the source and the product columns; no job column is
    part of them, and none is read. *)
Definition QueryProductBySourceGuidSubID (sourceGuid : Uuid) (productSubID : Z)
  (handler : Handler ProductDatabaseEntry.t St) (s : St) : Outcome ProductDatabaseEntry.t St :=
  BindAndQuery
    (Bind c QUERY_PRODUCT_BY_SOURCEGUID_SUBID
       (QUERY_PRODUCT_BY_SOURCEGUID_SUBID_STATEMENT (tables c) sourceGuid productSubID))
    (GetProductResultSimple (fun row => Some (snd row))
       (fun _ => None) (fun _ => None) (fun _ => None) uninitialised_criteria)
    handler s.

(** [AssetDatabaseConnection::QueryProductLikeProductName] *)
Definition QueryProductLikeProductName (chr_eq : ascii -> ascii -> bool)
  (likeProductname : string) (likeType : LikeType)
  (handler : Handler ProductDatabaseEntry.t St)
  (builderGuid : Uuid) (jobKey : option string) (platform : option string)
  (status : JobStatus) (s : St) : Outcome ProductDatabaseEntry.t St :=
  let actualSearchTerm := GetLikeActualSearchTerm likeProductname likeType in
  match has_platform platform with
  | Some platform =>
      BindAndQuery
        (Bind c QUERY_PRODUCT_LIKE_PRODUCTNAME_PLATFORM
           (QUERY_PRODUCT_LIKE_PRODUCTNAME_PLATFORM_STATEMENT (tables c) chr_eq
              actualSearchTerm platform))
        (fun statement handler => GetProductResult_of_rows statement handler builderGuid jobKey status)
        handler s
  | None =>
      BindAndQuery
        (Bind c QUERY_PRODUCT_LIKE_PRODUCTNAME
           (QUERY_PRODUCT_LIKE_PRODUCTNAME_STATEMENT (tables c) chr_eq actualSearchTerm))
        (fun statement handler => GetProductResult_of_rows statement handler builderGuid jobKey status)
        handler s
  end.

(** [AssetDatabaseConnection::QueryCombined] *)
Definition QueryCombined (handler : Handler CombinedDatabaseEntry.t St)
  (builderGuid : Uuid) (jobKey : option string) (platform : option string)
  (status : JobStatus) (includeLegacySubIDs : bool) (s : St)
  : Outcome CombinedDatabaseEntry.t St :=
  let callback statement handler :=
    GetCombinedResult (@Some _) (LegacySubIds_of c) statement handler
      builderGuid jobKey status includeLegacySubIDs in
  match has_platform platform with
  | Some platform =>
      BindAndQuery
        (Bind c QUERY_COMBINED_BY_PLATFORM
           (QUERY_COMBINED_BY_PLATFORM_STATEMENT (tables c) platform))
        callback handler s
  | None =>
      BindAndQuery
        (Bind c QUERY_COMBINED (QUERY_COMBINED_STATEMENT (tables c)))
        callback handler s
  end.

(** [AssetDatabaseConnection::QueryProductDependencyByProductId] *)
Definition QueryProductDependencyByProductId (productID : Z)
  (handler : Handler ProductDependencyDatabaseEntry.t St) (s : St)
  : Outcome ProductDependencyDatabaseEntry.t St :=
  BindAndQuery
    (Bind c QUERY_PRODUCTDEPENDENCY_BY_PRODUCTID
       (QUERY_PRODUCTDEPENDENCY_BY_PRODUCTID_STATEMENT (tables c) productID))
    (GetResult (@Some _)) handler s.

(** [AssetDatabaseConnection::QueryDirectProductDependencies] *)
Definition QueryDirectProductDependencies (productID : Z)
  (handler : Handler ProductDatabaseEntry.t St) (s : St) : Outcome ProductDatabaseEntry.t St :=
  BindAndQuery
    (Bind c QUERY_DIRECT_PRODUCTDEPENDENCIES
       (QUERY_DIRECT_PRODUCTDEPENDENCIES_STATEMENT (tables c) productID))
    (GetProductResultSimple (@Some _) (fun _ => None) (fun _ => None) (fun _ => None)
       uninitialised_criteria)
    handler s.

(** The queries over [Files]. *)
Variable Files : list FileDatabaseEntry.t.

(** [AssetDatabaseConnection::QueryFilesTable] *)
Definition QueryFilesTable (handler : Handler FileDatabaseEntry.t St) (s : St)
  : Outcome FileDatabaseEntry.t St :=
  BindAndQuery
    (Bind c QUERY_FILES_TABLE (QUERY_FILES_TABLE_STATEMENT Files))
    (GetResult (@Some _)) handler s.

(** [AssetDatabaseConnection::QueryFilesLikeFileName] *)
Definition QueryFilesLikeFileName (chr_eq : ascii -> ascii -> bool)
  (likeFileName : string) (likeType : LikeType)
  (handler : Handler FileDatabaseEntry.t St) (s : St) : Outcome FileDatabaseEntry.t St :=
  let actualSearchTerm := GetLikeActualSearchTerm likeFileName likeType in
  BindAndQuery
    (Bind c QUERY_FILES_LIKE_FILENAME
       (QUERY_FILES_LIKE_FILENAME_STATEMENT Files chr_eq actualSearchTerm))
    (GetResult (@Some _)) handler s.

End MoreQueryMethods.

(** [AssetDatabaseConnection::QuerySourceAnalysisFingerprint].  The result
    is the boolean returned, the contents of [outFingerprint] afterwards,
    and the number of calls of [Step]. *)
Definition QuerySourceAnalysisFingerprint (c : Store) (exactSourceName : string)
  (scanFolderID : Z) (outFingerprint : string) : bool * string * nat :=
  let outFingerprint := "" in (* outFingerprint.clear(); *)
  match Bind c QUERY_SOURCE_ANALYSISFINGERPRINT
          (QUERY_SOURCE_ANALYSISFINGERPRINT_STATEMENT (tables c) exactSourceName scanFolderID)
  with
  | None => (false, outFingerprint, 0%nat)
  | Some statement =>
      (* Statement::SqlStatus result = statement->Step(); *)
      match stmt_rows statement with
      | row :: _ =>
          (* this means results, no error *)
          let outFingerprint := row in (* statement->GetColumnText(0) *)
          (true, outFingerprint, 1%nat)
      | [] =>
          let result := end_status (stmt_fails statement) in
          (* SqlDone means no results, but no error *)
          (SqlStatus_eqb result SqlDone, outFingerprint, 1%nat)
      end
  end.

(** ** Further vocabulary *)

(** What a caller can observe of a query call: the boolean returned, the
    state of its handler, and the entries the handler was given. *)
Definition observable {E St : Type} (o : Outcome E St) : bool * St * list E :=
  (ret o, captured o, delivered o).

(** The job [job] passes the optional criteria. *)
Definition job_matches (jobKey : option string) (builderGuid : Uuid) (status : JobStatus)
  (job : JobDatabaseEntry.t) : bool :=
  ResultMatchesJobCriteria jobKey builderGuid status
    (JobDatabaseEntry.m_jobKey job) (JobDatabaseEntry.m_builderGuid job)
    (JobDatabaseEntry.m_status job).

(** The platform test of the statements with a [:platform] parameter, for
    an optional platform: a null or empty platform selects every job. *)
Definition platform_matches (platform : option string) (job : JobDatabaseEntry.t) : bool :=
  match has_platform platform with
  | Some p => String.eqb (JobDatabaseEntry.m_platform job) p
  | None => true
  end.

(** ** Further example data *)

(** A store that reports no error on any statement. *)
Definition store_of (db : Database) : Store := mkStore db EXPECTED_TABLES no_fault.

(** One source with one job and two products; each product has one legacy
    sub id. *)
Definition legacy_Database : Database :=
  mkDatabase []
    [example_scanFolder 1 "/dev/a" "a"]
    [example_source 1 1 "a.txt" 11%N]
    [example_job 1 1]
    [example_product 1 1 0; example_product 2 1 1]
    []
    [LegacySubIDsEntry.Build 1 1 100; LegacySubIDsEntry.Build 2 2 200].

(** The combined entries of the two products of [legacy_Database], with
    the legacy sub ids they carry when they are handed over. *)
Definition legacy_first : CombinedDatabaseEntry.t :=
  CombinedDatabaseEntry.Build (example_scanFolder 1 "/dev/a" "a")
    (example_source 1 1 "a.txt" 11%N) (example_job 1 1) (example_product 1 1 0)
    [LegacySubIDsEntry.Build 1 1 100].
Definition legacy_second : CombinedDatabaseEntry.t :=
  CombinedDatabaseEntry.Build (example_scanFolder 1 "/dev/a" "a")
    (example_source 1 1 "a.txt" 11%N) (example_job 1 1) (example_product 2 1 1)
    [LegacySubIDsEntry.Build 1 1 100; LegacySubIDsEntry.Build 2 2 200].

(** Two sources of the same name in two scan folders, with their
    fingerprints. *)
Definition fingerprint_Database : Database :=
  mkDatabase []
    [example_scanFolder 1 "/dev/a" "a"; example_scanFolder 2 "/dev/b" "b"]
    [SourceDatabaseEntry.Build 1 1 "a.txt" 11%N "f00d";
     SourceDatabaseEntry.Build 2 2 "a.txt" 12%N "cafe"]
    [] [] [] [].

(** A store of the current version (6 in the examples) with every expected
    table, behind a file that exists and is writable. *)
Definition current_Store : Store :=
  mkStore (mkDatabase [DatabaseInfoEntry.Build 1 6] [] [] [] [] [] [])
    EXPECTED_TABLES no_fault.
Definition current_Environment : Environment :=
  mkEnvironment "cache/assetdb.sqlite" (fun _ => true) (fun _ => true)
    (fun _ _ => Some current_Store).
(** Product 1 depends on itself and on product 2. *)
Definition self_dependent_Database : Database :=
  mkDatabase []
    [example_scanFolder 1 "/dev/a" "a"]
    [example_source 1 1 "a.txt" 11%N; example_source 2 1 "b.txt" 12%N]
    [example_job 1 1; example_job 2 2]
    [example_product 1 1 0; example_product 2 2 0]
    [example_dependency 1 1 11%N 0 ""; example_dependency 2 1 12%N 0 ""]
    [].
Definition self_dependent_Store : Store := store_of self_dependent_Database.

(** Two files whose names differ in the two characters that LIKE reads as
    wildcards. *)
Definition example_Files : list FileDatabaseEntry.t :=
  [FileDatabaseEntry.Build 1 1 "textures/100%_done.dds" 0 0;
   FileDatabaseEntry.Build 2 1 "textures/100Xxdone.dds" 0 0].

(** What a caller sees of a call that gives [entries] to its handler one
    after the other, until the handler answers false or the entries are
    used up: the state the handler is left in, and the entries it was
    given. *)
Fixpoint hand_over_in_turn {E St : Type} (handler : Handler E St) (entries : list E) (s : St)
  : St * list E :=
  match entries with
  | [] => (s, [])
  | e :: rest =>
      let '(continue, s') := handler e s in
      if continue
      then let '(s'', given) := hand_over_in_turn handler rest s' in (s'', e :: given)
      else (s', [e])
  end.

(** A handler that notes the portable key of every scan folder it is given
    and asks for more. *)
Definition note_portableKey : Handler ScanFolderDatabaseEntry.t (list string) :=
  fun scanFolder noted => (true, noted ++ [ScanFolderDatabaseEntry.m_portableKey scanFolder]).

(** * Properties *)

(** ** Properties of the result helpers *)

Lemma ret_after_delivery {E St} (e : E) (o : Outcome E St) : ret (after_delivery e o) = ret o.
Proof. reflexivity. Qed.

Lemma ret_after_step {E St} (o : Outcome E St) : ret (after_step o) = ret o.
Proof. reflexivity. Qed.

(** An error found among the rows still to come is an error of the whole
    statement. *)
Lemma tail_error {Row : Type} (bad : Row -> Prop) (fails : bool) current rest :
  fails = true \/ (exists r, In r rest /\ bad r) ->
  fails = true \/ exists r, In r (current :: rest) /\ bad r.
Proof.
  intros [H|[r [Hin Hr]]]; [left; exact H|].
  right. exists r. split; [right; exact Hin|exact Hr].
Qed.

Section GetResultFacts.

Variables Row St TEntry : Type.
Variable Fetch : Row -> option TEntry.

Lemma GetResult_while_false fails pending : forall current (h : Handler TEntry St) s,
  ret (GetResult_while Fetch fails current pending h s) = false ->
  fails = true \/ exists r, In r (current :: pending) /\ Fetch r = None.
Proof.
  induction pending as [|next pending IH]; intros current h s H; simpl in H.
  - destruct (Fetch current) eqn:F; [|right; exists current; simpl; auto].
    destruct (h t s) as [[] s']; destruct fails; simpl in H; try discriminate H; auto.
  - destruct (Fetch current) eqn:F; [|right; exists current; simpl; auto].
    destruct (h t s) as [[] s']; [|simpl in H; discriminate H].
    rewrite ret_after_delivery, ret_after_step in H.
    apply IH in H. apply tail_error. exact H.
Qed.

Lemma GetResult_false (st : Statement Row) (h : Handler TEntry St) s :
  ret (GetResult Fetch st h s) = false ->
  stmt_fails st = true \/ exists r, In r (stmt_rows st) /\ Fetch r = None.
Proof.
  unfold GetResult. rewrite ret_after_step.
  destruct (stmt_rows st) as [|first pending].
  - destruct (stmt_fails st); simpl; auto; discriminate.
  - apply GetResult_while_false.
Qed.

Lemma GetResult_empty (st : Statement Row) (h : Handler TEntry St) s :
  stmt_rows st = [] -> stmt_fails st = false ->
  GetResult Fetch st h s = mkOutcome true s [] 1.
Proof. intros Hr Hf. unfold GetResult. rewrite Hr, Hf. reflexivity. Qed.

Lemma GetResult_stops (st : Statement Row) (h : Handler TEntry St) s r rest e :
  stmt_rows st = r :: rest -> Fetch r = Some e -> fst (h e s) = false ->
  GetResult Fetch st h s = mkOutcome true (snd (h e s)) [e] 1.
Proof.
  intros Hr Hf Hh. unfold GetResult. rewrite Hr.
  destruct rest; simpl; rewrite Hf; destruct (h e s) as [c s']; simpl in *; subst c; reflexivity.
Qed.


Lemma GetResult_while_prefix fails pending : forall current (h : Handler TEntry St) s,
  exists n, map Fetch (firstn n (current :: pending))
            = map (@Some _) (delivered (GetResult_while Fetch fails current pending h s)).
Proof.
  induction pending as [|next pending IH]; intros current h s; simpl.
  - destruct (Fetch current) eqn:F; [|exists 0%nat; reflexivity].
    exists 1%nat. simpl. rewrite F.
    destruct (h t s) as [[] s']; destruct fails; reflexivity.
  - destruct (Fetch current) eqn:F; [|exists 0%nat; reflexivity].
    destruct (h t s) as [[] s'].
    + destruct (IH next h s') as [n Hn]. exists (S n).
      change (firstn (S n) (current :: next :: pending))
        with (current :: firstn n (next :: pending)).
      simpl map. rewrite F, Hn. reflexivity.
    + exists 1%nat. simpl. rewrite F. reflexivity.
Qed.

Lemma GetResult_prefix (st : Statement Row) (h : Handler TEntry St) s :
  exists n, map Fetch (firstn n (stmt_rows st))
            = map (@Some _) (delivered (GetResult Fetch st h s)).
Proof.
  unfold GetResult. destruct (stmt_rows st) as [|first pending].
  - exists 0%nat. destruct (stmt_fails st); reflexivity.
  - apply GetResult_while_prefix.
Qed.

Lemma GetResult_while_all fails pending : forall current (h : Handler TEntry St) s,
  (forall e s, fst (h e s) = true) ->
  Forall (fun r => Fetch r <> None) (current :: pending) ->
  map Fetch (current :: pending)
  = map (@Some _) (delivered (GetResult_while Fetch fails current pending h s))
  /\ ret (GetResult_while Fetch fails current pending h s) = negb fails.
Proof.
  induction pending as [|next pending IH]; intros current h s Hh Hf;
    inversion Hf as [|? ? Hc Hp]; subst; simpl.
  - destruct (Fetch current) eqn:F; [|congruence].
    specialize (Hh t s). destruct (h t s) as [[] s']; [|discriminate].
    destruct fails; split; reflexivity.
  - destruct (Fetch current) eqn:F; [|congruence].
    pose proof (Hh t s) as Ht. destruct (h t s) as [[] s']; [|discriminate].
    destruct (IH next h s' Hh Hp) as [Hd Hr].
    rewrite ret_after_delivery, ret_after_step. split; [|exact Hr].
    simpl. simpl in Hd. rewrite <- Hd. reflexivity.
Qed.

Lemma GetResult_all (st : Statement Row) (h : Handler TEntry St) s :
  (forall e s, fst (h e s) = true) ->
  Forall (fun r => Fetch r <> None) (stmt_rows st) ->
  map Fetch (stmt_rows st) = map (@Some _) (delivered (GetResult Fetch st h s))
  /\ ret (GetResult Fetch st h s) = negb (stmt_fails st).
Proof.
  intros Hh Hf. unfold GetResult. rewrite ret_after_step.
  destruct (stmt_rows st) as [|first pending].
  - destruct (stmt_fails st); split; reflexivity.
  - apply GetResult_while_all; assumption.
Qed.

End GetResultFacts.

Lemma map_Some_inj {A} (l l' : list A) : map (@Some A) l = map (@Some A) l' -> l = l'.
Proof.
  revert l'; induction l as [|a l IH]; intros [|b l'] H; simpl in H; try discriminate; auto.
  inversion H; subst. f_equal. auto.
Qed.

Lemma ResultMatchesJobCriteria_default k g st :
  ResultMatchesJobCriteria None 0%N JobStatus_Any k g st = true.
Proof. reflexivity. Qed.

Section GetJobResultFacts.

Variables Row St : Type.
Variable Fetch : Row -> option JobDatabaseEntry.t.

Lemma GetJobResult_while_false fails pending :
  forall current (h : Handler JobDatabaseEntry.t St) g k st s,
  ret (GetJobResult_while Fetch fails current pending h g k st s) = false ->
  fails = true \/ exists r, In r (current :: pending) /\ Fetch r = None.
Proof.
  induction pending as [|next pending IH]; intros current h g k st s H; simpl in H.
  - destruct (Fetch current) eqn:F; [|right; exists current; simpl; auto].
    destruct (ResultMatchesJobCriteria _ _ _ _ _ _).
    + destruct (h t s) as [[] s']; destruct fails; simpl in H; try discriminate H; auto.
    + destruct fails; simpl in H; try discriminate H; auto.
  - destruct (Fetch current) eqn:F; [|right; exists current; simpl; auto].
    assert (Hrec : forall s', ret (GetJobResult_while Fetch fails next pending h g k st s') = false ->
               fails = true \/ exists r, In r (current :: next :: pending) /\ Fetch r = None).
    { intros s' H'. apply tail_error. eapply IH. exact H'. }
    destruct (ResultMatchesJobCriteria _ _ _ _ _ _).
    + destruct (h t s) as [[] s']; [|simpl in H; discriminate H].
      rewrite ret_after_delivery, ret_after_step in H. eauto.
    + rewrite ret_after_step in H. eauto.
Qed.

Lemma GetJobResult_false (stm : Statement Row) (h : Handler JobDatabaseEntry.t St) g k st s :
  ret (GetJobResult Fetch stm h g k st s) = false ->
  stmt_fails stm = true \/ exists r, In r (stmt_rows stm) /\ Fetch r = None.
Proof.
  unfold GetJobResult. rewrite ret_after_step.
  destruct (stmt_rows stm) as [|first pending].
  - destruct (stmt_fails stm); simpl; auto; discriminate.
  - apply GetJobResult_while_false.
Qed.

Lemma GetJobResult_empty (stm : Statement Row) (h : Handler JobDatabaseEntry.t St) g k st s :
  stmt_rows stm = [] -> stmt_fails stm = false ->
  GetJobResult Fetch stm h g k st s = mkOutcome true s [] 1.
Proof. intros Hr Hf. unfold GetJobResult. rewrite Hr, Hf. reflexivity. Qed.

End GetJobResultFacts.

Section GetProductResultFacts.

Variables Row St : Type.
Variable Fetch_product : Row -> option ProductDatabaseEntry.t.
Variable Fetch_JobKey : Row -> option string.
Variable Fetch_BuilderGuid : Row -> option Uuid.
Variable Fetch_Status : Row -> option Z.

Local Abbreviation loop := (GetProductResult_while Fetch_product Fetch_JobKey Fetch_BuilderGuid Fetch_Status).
Local Abbreviation product_fetch_fails :=
  (product_fetch_fails Fetch_product Fetch_JobKey Fetch_BuilderGuid Fetch_Status).

Lemma GetProductResult_while_false fails pending :
  forall current saved (h : Handler ProductDatabaseEntry.t St) g k st s,
  ret (loop fails current pending saved h g k st s) = false ->
  fails = true \/ exists r, In r (current :: pending) /\ product_fetch_fails r.
Proof.
  assert (Hbad : forall current rest, product_fetch_fails current ->
            fails = true \/ exists r, In r (current :: rest) /\ product_fetch_fails r).
  { intros current rest Hc. right; exists current; split; [left; reflexivity|exact Hc]. }
  induction pending as [|next pending IH]; intros current [[sk sg] ss] h g k st s H;
    simpl in H.
  - destruct (match k with Some _ => Fetch_JobKey current | None => Some sk end) eqn:Fk;
      [|apply Hbad; destruct k; [right; left; exact Fk|discriminate]].
    destruct (if negb (Uuid_IsNull g) then Fetch_BuilderGuid current else Some sg) eqn:Fg;
      [|apply Hbad; destruct (negb (Uuid_IsNull g)); [right; right; left; exact Fg|discriminate]].
    destruct (if negb (st =? JobStatus_Any) then Fetch_Status current else Some ss) eqn:Fs;
      [|apply Hbad; destruct (negb (st =? JobStatus_Any)); [right; right; right; exact Fs|discriminate]].
    destruct (ResultMatchesJobCriteria _ _ _ _ _ _).
    + destruct (Fetch_product current) eqn:Fp; [|apply Hbad; left; exact Fp].
      destruct (h t s) as [[] s']; destruct fails; simpl in H; try discriminate H; auto.
    + destruct fails; simpl in H; try discriminate H; auto.
  - assert (Hrec : forall saved' s',
               ret (loop fails next pending saved' h g k st s') = false ->
               fails = true \/ exists r, In r (current :: next :: pending) /\ product_fetch_fails r).
    { intros saved' s' H'. apply tail_error. eapply IH. exact H'. }
    destruct (match k with Some _ => Fetch_JobKey current | None => Some sk end) eqn:Fk;
      [|apply Hbad; destruct k; [right; left; exact Fk|discriminate]].
    destruct (if negb (Uuid_IsNull g) then Fetch_BuilderGuid current else Some sg) eqn:Fg;
      [|apply Hbad; destruct (negb (Uuid_IsNull g)); [right; right; left; exact Fg|discriminate]].
    destruct (if negb (st =? JobStatus_Any) then Fetch_Status current else Some ss) eqn:Fs;
      [|apply Hbad; destruct (negb (st =? JobStatus_Any)); [right; right; right; exact Fs|discriminate]].
    destruct (ResultMatchesJobCriteria _ _ _ _ _ _).
    + destruct (Fetch_product current) eqn:Fp; [|apply Hbad; left; exact Fp].
      destruct (h t s) as [[] s']; [|simpl in H; discriminate H].
      rewrite ret_after_delivery, ret_after_step in H. eauto.
    + rewrite ret_after_step in H. eauto.
Qed.

Lemma GetProductResult_false u (stm : Statement Row) (h : Handler ProductDatabaseEntry.t St) g k st s :
  ret (GetProductResult Fetch_product Fetch_JobKey Fetch_BuilderGuid Fetch_Status u stm h g k st s) = false ->
  stmt_fails stm = true \/ exists r, In r (stmt_rows stm) /\ product_fetch_fails r.
Proof.
  unfold GetProductResult. rewrite ret_after_step.
  destruct (stmt_rows stm) as [|first pending].
  - destruct (stmt_fails stm); simpl; auto; discriminate.
  - apply GetProductResult_while_false.
Qed.

Lemma GetProductResult_empty u (stm : Statement Row) (h : Handler ProductDatabaseEntry.t St) g k st s :
  stmt_rows stm = [] -> stmt_fails stm = false ->
  GetProductResult Fetch_product Fetch_JobKey Fetch_BuilderGuid Fetch_Status u stm h g k st s
  = mkOutcome true s [] 1.
Proof. intros Hr Hf. unfold GetProductResult. rewrite Hr, Hf. reflexivity. Qed.

(** Without criteria [GetProductResult] steps like [GetResult]. *)
Lemma GetProductResult_while_simple fails pending :
  forall current saved (h : Handler ProductDatabaseEntry.t St) s,
  loop fails current pending saved h 0%N None JobStatus_Any s
  = GetResult_while Fetch_product fails current pending h s.
Proof.
  induction pending as [|next pending IH]; intros current [[sk sg] ss] h s; simpl.
  - destruct (Fetch_product current); reflexivity.
  - destruct (Fetch_product current); [|reflexivity].
    destruct (h t s) as [[] s']; [|reflexivity].
    rewrite IH. reflexivity.
Qed.

Lemma GetProductResultSimple_GetResult u (stm : Statement Row)
  (h : Handler ProductDatabaseEntry.t St) s :
  GetProductResultSimple Fetch_product Fetch_JobKey Fetch_BuilderGuid Fetch_Status u stm h s
  = GetResult Fetch_product stm h s.
Proof.
  unfold GetProductResultSimple, GetProductResult, GetResult.
  destruct (stmt_rows stm); [reflexivity|].
  rewrite GetProductResult_while_simple. reflexivity.
Qed.

End GetProductResultFacts.

Section GetCombinedResultFacts.

Variables Row St : Type.
Variable Fetch : Row -> option CombinedColumns.
Variable LegacySubIds_of : Z -> list LegacySubIDsEntry.t.

Local Abbreviation loop := (GetCombinedResult_while Fetch LegacySubIds_of).

Lemma columns_of_fill columns legacy : columns_of (fill_combined columns legacy) = columns.
Proof. destruct columns as [[[sf src] j] p]. reflexivity. Qed.

Lemma GetCombinedResult_while_false fails pending :
  forall current legacy (h : Handler CombinedDatabaseEntry.t St) g k st incl s,
  ret (loop fails current pending legacy h g k st incl s) = false ->
  fails = true \/ exists r, In r (current :: pending) /\ Fetch r = None.
Proof.
  induction pending as [|next pending IH]; intros current legacy h g k st incl s H;
    simpl in H.
  - destruct (Fetch current) as [[[[sf src] j] p]|] eqn:F; [|right; exists current; simpl; auto].
    destruct (ResultMatchesJobCriteria _ _ _ _ _ _).
    + destruct (h _ s) as [[] s']; destruct fails; simpl in H; try discriminate H; auto.
    + destruct fails; simpl in H; try discriminate H; auto.
  - destruct (Fetch current) as [[[[sf src] j] p]|] eqn:F; [|right; exists current; simpl; auto].
    assert (Hrec : forall legacy' s',
               ret (loop fails next pending legacy' h g k st incl s') = false ->
               fails = true \/ exists r, In r (current :: next :: pending) /\ Fetch r = None).
    { intros legacy' s' H'. apply tail_error. eapply IH. exact H'. }
    destruct (ResultMatchesJobCriteria _ _ _ _ _ _).
    + destruct (h _ s) as [[] s']; [|simpl in H; discriminate H].
      rewrite ret_after_delivery, ret_after_step in H. eauto.
    + rewrite ret_after_step in H. eauto.
Qed.

Lemma GetCombinedResult_false (stm : Statement Row) (h : Handler CombinedDatabaseEntry.t St)
  g k st incl s :
  ret (GetCombinedResult Fetch LegacySubIds_of stm h g k st incl s) = false ->
  stmt_fails stm = true \/ exists r, In r (stmt_rows stm) /\ Fetch r = None.
Proof.
  unfold GetCombinedResult. rewrite ret_after_step.
  destruct (stmt_rows stm) as [|first pending].
  - destruct (stmt_fails stm); simpl; auto; discriminate.
  - apply GetCombinedResult_while_false.
Qed.

Lemma GetCombinedResult_empty (stm : Statement Row) (h : Handler CombinedDatabaseEntry.t St)
  g k st incl s :
  stmt_rows stm = [] -> stmt_fails stm = false ->
  GetCombinedResult Fetch LegacySubIds_of stm h g k st incl s = mkOutcome true s [] 1.
Proof. intros Hr Hf. unfold GetCombinedResult. rewrite Hr, Hf. reflexivity. Qed.

(** Every entry delivered carries the columns of a row of the statement. *)
Lemma GetCombinedResult_while_delivered fails pending :
  forall current legacy (h : Handler CombinedDatabaseEntry.t St) g k st incl s e,
  In e (delivered (loop fails current pending legacy h g k st incl s)) ->
  exists r, In r (current :: pending) /\ Fetch r = Some (columns_of e).
Proof.
  induction pending as [|next pending IH]; intros current legacy h g k st incl s e H;
    simpl in H.
  - destruct (Fetch current) as [[[[sf src] j] p]|] eqn:F; [|contradiction].
    destruct (ResultMatchesJobCriteria _ _ _ _ _ _).
    + destruct (h _ s) as [[] s']; destruct fails; simpl in H;
        (destruct H as [H|[]]; subst e; exists current; split; [left; reflexivity|exact F]).
    + destruct fails; simpl in H; contradiction.
  - destruct (Fetch current) as [[[[sf src] j] p]|] eqn:F; [|contradiction].
    assert (Hrec : forall legacy' s',
               In e (delivered (loop fails next pending legacy' h g k st incl s')) ->
               exists r, In r (current :: next :: pending) /\ Fetch r = Some (columns_of e)).
    { intros legacy' s' H'. apply IH in H'. destruct H' as [r [Hin Hr]].
      exists r; split; [right; exact Hin|exact Hr]. }
    destruct (ResultMatchesJobCriteria _ _ _ _ _ _).
    + destruct (h _ s) as [[] s']; simpl in H.
      * destruct H as [H|H]; [subst e; exists current; split; [left; reflexivity|exact F]|eauto].
      * destruct H as [H|[]]; subst e; exists current; split; [left; reflexivity|exact F].
    + simpl in H. eauto.
Qed.

Lemma GetCombinedResult_delivered (stm : Statement Row) (h : Handler CombinedDatabaseEntry.t St)
  g k st incl s e :
  In e (delivered (GetCombinedResult Fetch LegacySubIds_of stm h g k st incl s)) ->
  exists r, In r (stmt_rows stm) /\ Fetch r = Some (columns_of e).
Proof.
  unfold GetCombinedResult.
  destruct (stmt_rows stm) as [|first pending].
  - destruct (stmt_fails stm); simpl; contradiction.
  - apply GetCombinedResult_while_delivered.
Qed.

End GetCombinedResultFacts.

Section OtherResultHelperFacts.

Variables Row St : Type.

Section GetCombinedDependencyResultFacts.

Variable Fetch : Row -> option ProductDependencyDatabaseEntry.t.
Variable Fetch_SourceGuid : Row -> option Uuid.
Variable Fetch_SubID : Row -> option Z.

Local Abbreviation loop := (GetCombinedDependencyResult_while Fetch Fetch_SourceGuid Fetch_SubID).
Local Abbreviation fetch_fails := (dependency_fetch_fails Fetch Fetch_SourceGuid Fetch_SubID).

Lemma dependency_fetch_cases current :
  fetch_fails current
  \/ exists entry sourceGuid subId,
       Fetch current = Some entry /\ Fetch_SourceGuid current = Some sourceGuid
       /\ Fetch_SubID current = Some subId.
Proof.
  unfold dependency_fetch_fails.
  destruct (Fetch current) as [entry|]; [|auto].
  destruct (Fetch_SourceGuid current) as [sourceGuid|]; [|auto].
  destruct (Fetch_SubID current) as [subId|]; [|auto].
  right. exists entry, sourceGuid, subId. auto.
Qed.

Lemma GetCombinedDependencyResult_while_false fails pending :
  forall current (h : Handler (AssetId * ProductDependencyDatabaseEntry.t) St) s,
  ret (loop fails current pending h s) = false ->
  fails = true \/ exists r, In r (current :: pending) /\ fetch_fails r.
Proof.
  induction pending as [|next pending IH]; intros current h s H;
    (destruct (dependency_fetch_cases current) as [Hbad|[entry [sourceGuid [subId [F1 [F2 F3]]]]]];
     [right; exists current; split; [left; reflexivity|exact Hbad]|]);
    simpl in H; rewrite F1, F2, F3 in H.
  - destruct (h _ s) as [[] s']; destruct fails; simpl in H; try discriminate H; auto.
  - destruct (h _ s) as [[] s']; [|simpl in H; discriminate H].
    rewrite ret_after_delivery, ret_after_step in H. apply IH in H. apply tail_error. exact H.
Qed.

Lemma GetCombinedDependencyResult_false (stm : Statement Row)
  (h : Handler (AssetId * ProductDependencyDatabaseEntry.t) St) s :
  ret (GetCombinedDependencyResult Fetch Fetch_SourceGuid Fetch_SubID stm h s) = false ->
  stmt_fails stm = true \/ exists r, In r (stmt_rows stm) /\ fetch_fails r.
Proof.
  unfold GetCombinedDependencyResult. rewrite ret_after_step.
  destruct (stmt_rows stm) as [|first pending].
  - destruct (stmt_fails stm); simpl; auto; discriminate.
  - apply GetCombinedDependencyResult_while_false.
Qed.

Lemma GetCombinedDependencyResult_empty (stm : Statement Row)
  (h : Handler (AssetId * ProductDependencyDatabaseEntry.t) St) s :
  stmt_rows stm = [] -> stmt_fails stm = false ->
  GetCombinedDependencyResult Fetch Fetch_SourceGuid Fetch_SubID stm h s
  = mkOutcome true s [] 1.
Proof. intros Hr Hf. unfold GetCombinedDependencyResult. rewrite Hr, Hf. reflexivity. Qed.

Lemma GetCombinedDependencyResult_stops (stm : Statement Row)
  (h : Handler (AssetId * ProductDependencyDatabaseEntry.t) St) s r rest entry sourceGuid subId :
  stmt_rows stm = r :: rest ->
  Fetch r = Some entry -> Fetch_SourceGuid r = Some sourceGuid -> Fetch_SubID r = Some subId ->
  fst (h ((sourceGuid, subId), entry) s) = false ->
  GetCombinedDependencyResult Fetch Fetch_SourceGuid Fetch_SubID stm h s
  = mkOutcome true (snd (h ((sourceGuid, subId), entry) s)) [((sourceGuid, subId), entry)] 1.
Proof.
  intros Hr F1 F2 F3 Hh. unfold GetCombinedDependencyResult. rewrite Hr.
  destruct rest; simpl; rewrite F1, F2, F3; destruct (h _ s) as [c s']; simpl in *;
    subst c; reflexivity.
Qed.

End GetCombinedDependencyResultFacts.

Section QueryBuilderInfoTableFacts.

Variable Fetch : Row -> option BuilderInfoEntry.t.

Lemma QueryBuilderInfoTable_while_false fails pending :
  forall current (h : Handler BuilderInfoEntry.t St) s,
  ret (QueryBuilderInfoTable_while Fetch fails current pending h s) = false ->
  fails = true \/ exists r, In r (current :: pending) /\ Fetch r = None.
Proof.
  induction pending as [|next pending IH]; intros current h s H; simpl in H.
  - destruct (Fetch current) eqn:F; [|right; exists current; simpl; auto].
    destruct (h t s) as [[] s']; destruct fails; simpl in H; try discriminate H; auto.
  - destruct (Fetch current) eqn:F; [|right; exists current; simpl; auto].
    destruct (h t s) as [[] s']; [|simpl in H; discriminate H].
    rewrite ret_after_delivery, ret_after_step in H. apply IH in H. apply tail_error. exact H.
Qed.

Lemma QueryBuilderInfoTable_false (stm : Statement Row) (h : Handler BuilderInfoEntry.t St) s :
  ret (QueryBuilderInfoTable Fetch (Some stm) h s) = false ->
  stmt_fails stm = true \/ exists r, In r (stmt_rows stm) /\ Fetch r = None.
Proof.
  unfold QueryBuilderInfoTable. rewrite ret_after_step.
  destruct (stmt_rows stm) as [|first pending].
  - destruct (stmt_fails stm); simpl; auto; discriminate.
  - apply QueryBuilderInfoTable_while_false.
Qed.

Lemma QueryBuilderInfoTable_empty (stm : Statement Row) (h : Handler BuilderInfoEntry.t St) s :
  stmt_rows stm = [] -> stmt_fails stm = false ->
  QueryBuilderInfoTable Fetch (Some stm) h s = mkOutcome true s [] 1.
Proof. intros Hr Hf. unfold QueryBuilderInfoTable. rewrite Hr, Hf. reflexivity. Qed.

Lemma QueryBuilderInfoTable_stops (stm : Statement Row) (h : Handler BuilderInfoEntry.t St)
  s r rest e :
  stmt_rows stm = r :: rest -> Fetch r = Some e -> fst (h e s) = false ->
  QueryBuilderInfoTable Fetch (Some stm) h s = mkOutcome true (snd (h e s)) [e] 1.
Proof.
  intros Hr Hf Hh. unfold QueryBuilderInfoTable. rewrite Hr.
  destruct rest; simpl; rewrite Hf; destruct (h e s) as [c s']; simpl in *; subst c; reflexivity.
Qed.

End QueryBuilderInfoTableFacts.

End OtherResultHelperFacts.

(** ** Joins *)

Lemma In_inner_join {A B} (a : list A) (b : list B) on x y :
  In (x, y) (inner_join a b on) <-> In x a /\ In y b /\ on x y = true.
Proof.
  unfold inner_join. rewrite in_flat_map. split.
  - intros [x' [Hx H]]. apply in_map_iff in H. destruct H as [y' [E Hy]].
    inversion E; subst. apply filter_In in Hy. tauto.
  - intros [Hx [Hy Hon]]. exists x. split; [exact Hx|].
    apply in_map. apply filter_In. tauto.
Qed.

Lemma In_left_join_Some {A B} (a : list A) (b : list B) on x y :
  In (x, Some y) (left_join a b on) <-> In x a /\ In y b /\ on x y = true.
Proof.
  unfold left_join. rewrite in_flat_map. split.
  - intros [x' [Hx H]]. destruct (filter (on x') b) as [|p ps] eqn:F.
    + destruct H as [H|[]]. discriminate.
    + apply in_map_iff in H. destruct H as [y' [E Hy]]. inversion E; subst.
      rewrite <- F in Hy. apply filter_In in Hy. tauto.
  - intros [Hx [Hy Hon]]. exists x. split; [exact Hx|].
    assert (Hf : In y (filter (on x) b)) by (apply filter_In; tauto).
    destruct (filter (on x) b) as [|p ps]; [contradiction|].
    apply in_map_iff. exists y. split; [reflexivity|exact Hf].
Qed.

Lemma In_firstn {A} n (l : list A) x : In x (firstn n l) -> In x l.
Proof.
  revert l; induction n as [|n IH]; intros [|a l] H; simpl in H; try contradiction.
  destruct H as [H|H]; [left; exact H|right; auto].
Qed.

Lemma Bind_rows {Row} (c : Store) name (rows : list Row) stm r :
  Bind c name rows = Some stm -> In r (stmt_rows stm) -> In r rows.
Proof.
  unfold Bind. destruct (fault c name); intros E H; inversion E; subst; simpl in H;
    [exact H|eapply In_firstn; exact H].
Qed.

Lemma Bind_NoFault {Row} (c : Store) name (rows : list Row) :
  fault c name = NoFault -> Bind c name rows = Some (mkStatement rows false).
Proof. unfold Bind. intros ->. reflexivity. Qed.

Section CombinedBySourceID.

Import ScanFolderDatabaseEntry SourceDatabaseEntry JobDatabaseEntry ProductDatabaseEntry.

Lemma QUERY_COMBINED_BY_SOURCEID_rows db sourceid sf src j p :
  In (sf, src, j, p) (QUERY_COMBINED_BY_SOURCEID_STATEMENT db sourceid) ->
  In src (Sources db) /\ m_sourceID src = sourceid /\
  In sf (ScanFolders db) /\ m_scanFolderID sf = m_scanFolderPK src /\
  In j (Jobs db) /\ m_sourcePK j = m_sourceID src /\
  In p (Products db) /\ m_jobPK p = m_jobID j.
Proof.
  unfold QUERY_COMBINED_BY_SOURCEID_STATEMENT, from_Sources_Jobs_ScanFolders_Products.
  rewrite in_flat_map. intros [[[[s oj] sf'] p'] [Hin Hc]].
  apply filter_In in Hin. destruct Hin as [Hin Hid].
  destruct oj as [j'|]; simpl in Hc; [|contradiction].
  destruct Hc as [Hc|[]]. inversion Hc; subst.
  apply In_inner_join in Hin. destruct Hin as [Hin [Hp Hjp]].
  apply In_inner_join in Hin. destruct Hin as [Hin [Hsf Hssf]].
  apply In_left_join_Some in Hin. destruct Hin as [Hs [Hj Hsj]].
  simpl in Hjp. apply Z.eqb_eq in Hid, Hjp, Hssf, Hsj.
  repeat split; auto.
Qed.

End CombinedBySourceID.

(** ** The scan folder projections *)

Section CombinedBySourceIDComplete.

Import ScanFolderDatabaseEntry SourceDatabaseEntry JobDatabaseEntry ProductDatabaseEntry.

(** Every scan folder, source, job and product that belong together make
    a row of the statement. *)
Lemma QUERY_COMBINED_BY_SOURCEID_complete db sourceid sf src j p :
  In src (Sources db) -> m_sourceID src = sourceid ->
  In sf (ScanFolders db) -> m_scanFolderID sf = m_scanFolderPK src ->
  In j (Jobs db) -> m_sourcePK j = m_sourceID src ->
  In p (Products db) -> m_jobPK p = m_jobID j ->
  In (sf, src, j, p) (QUERY_COMBINED_BY_SOURCEID_STATEMENT db sourceid).
Proof.
  intros Hs Hid Hsf Hssf Hj Hsj Hp Hjp.
  unfold QUERY_COMBINED_BY_SOURCEID_STATEMENT, from_Sources_Jobs_ScanFolders_Products.
  apply in_flat_map. exists (src, Some j, sf, p). split; [|simpl; auto].
  apply filter_In. split; [|apply Z.eqb_eq; exact Hid].
  apply In_inner_join. split; [|split; [exact Hp|simpl; apply Z.eqb_eq; auto]].
  apply In_inner_join. split; [|split; [exact Hsf|apply Z.eqb_eq; exact Hssf]].
  apply In_left_join_Some. split; [exact Hs|]. split; [exact Hj|apply Z.eqb_eq; auto].
Qed.

End CombinedBySourceIDComplete.

(** One step of [hand_over_in_turn]. *)
Lemma hand_over_in_turn_cons {E St} (handler : Handler E St) (e : E) (rest : list E) (s : St) :
  hand_over_in_turn handler (e :: rest) s
  = let '(continue, s') := handler e s in
    if continue
    then (fst (hand_over_in_turn handler rest s'), e :: snd (hand_over_in_turn handler rest s'))
    else (s', [e]).
Proof.
  cbn [hand_over_in_turn]. destruct (handler e s) as [[] s']; [|reflexivity].
  destruct (hand_over_in_turn handler rest s'). reflexivity.
Qed.

(** A handler that always asks for more is given every entry. *)
Lemma hand_over_in_turn_all {E St} (handler : Handler E St) (entries : list E) :
  (forall e s, fst (handler e s) = true) ->
  forall s, snd (hand_over_in_turn handler entries s) = entries.
Proof.
  intros Hh. induction entries as [|e rest IH]; intros s; [reflexivity|].
  rewrite hand_over_in_turn_cons. pose proof (Hh e s) as He.
  destruct (handler e s) as [[] s']; [|discriminate He].
  cbn [snd]. rewrite IH. reflexivity.
Qed.

Section ScanFolderLambda.

Variable St : Type.
Variable LegacySubIds_of : Z -> list LegacySubIDsEntry.t.
Variable handler : Handler ScanFolderDatabaseEntry.t St.

(** With the default criteria and no error of the store, the loop of
    [GetCombinedResult] gives the scan folders of the rows to the caller's
    handler in turn, through the lambda of the projections. *)
Lemma GetCombinedResult_while_scanFolder_lambda incl pending :
  forall current legacy found s,
  let o := GetCombinedResult_while (@Some _) LegacySubIds_of false current pending legacy
             (scanFolder_lambda handler) default_builderGuid default_jobKey default_status
             incl (found, s) in
  let folders := map (fun '(sf, _, _, _) => sf) (current :: pending) in
  ret o = true
  /\ captured o = (true, fst (hand_over_in_turn handler folders s))
  /\ map CombinedDatabaseEntry.scanFolder (delivered o)
     = snd (hand_over_in_turn handler folders s).
Proof.
  induction pending as [|next pending IH]; intros [[[sf src] j] p] legacy found s; cbn zeta.
  - cbn [map]. rewrite hand_over_in_turn_cons. cbn [GetCombinedResult_while].
    unfold default_builderGuid, default_jobKey, default_status.
    rewrite ResultMatchesJobCriteria_default.
    cbn [fill_combined scanFolder_lambda CombinedDatabaseEntry.scanFolder].
    destruct (handler sf s) as [[] s']; cbn; repeat split; reflexivity.
  - change (map (fun '(sf, _, _, _) => sf) ((sf, src, j, p) :: next :: pending))
      with (sf :: map (fun '(sf, _, _, _) => sf) (next :: pending)).
    rewrite hand_over_in_turn_cons. cbn [GetCombinedResult_while].
    unfold default_builderGuid, default_jobKey, default_status.
    rewrite ResultMatchesJobCriteria_default.
    cbn [fill_combined scanFolder_lambda CombinedDatabaseEntry.scanFolder].
    destruct (handler sf s) as [[] s'].
    + specialize (IH next
                    (if incl
                     then legacy ++ LegacySubIds_of (ProductDatabaseEntry.m_productID p)
                     else legacy) true s').
      cbn zeta in IH. unfold default_builderGuid, default_jobKey, default_status in IH.
      destruct IH as [Hr [Hc Hd]].
      cbn [after_delivery after_step ret captured delivered map fst snd].
      rewrite Hr, Hc, Hd. repeat split; reflexivity.
    + cbn. repeat split; reflexivity.
Qed.

End ScanFolderLambda.

(** What [QueryScanFolderBySourceID] leaves behind, on a store that
    reports no error for the statement: the scan folders of the rows of
    QUERY_COMBINED_BY_SOURCEID go to the handler in turn, and the call
    returns true exactly when there is such a row. *)
Lemma QueryScanFolderBySourceID_hands_over (c : Store) (St : Type) (sourceID : Z)
  (handler : Handler ScanFolderDatabaseEntry.t St) (s : St) :
  fault c QUERY_COMBINED_BY_SOURCEID = NoFault ->
  let o := QueryScanFolderBySourceID c sourceID handler s in
  let folders :=
    map (fun '(sf, _, _, _) => sf) (QUERY_COMBINED_BY_SOURCEID_STATEMENT (tables c) sourceID) in
  ret o = match folders with [] => false | _ :: _ => true end
  /\ captured o = fst (hand_over_in_turn handler folders s)
  /\ delivered o = snd (hand_over_in_turn handler folders s).
Proof.
  intros Hf o folders. subst o folders.
  unfold QueryScanFolderBySourceID, QueryCombinedBySourceID, default_platform.
  cbn [has_platform]. rewrite (Bind_NoFault _ _ _ Hf).
  unfold BindAndQuery, GetCombinedResultAsLambda, GetCombinedResult.
  cbn [stmt_rows stmt_fails].
  destruct (QUERY_COMBINED_BY_SOURCEID_STATEMENT (tables c) sourceID) as [|first pending].
  - repeat split.
  - pose proof (GetCombinedResult_while_scanFolder_lambda (LegacySubIds_of c) handler false
                  pending first [] false s) as H.
    cbn zeta in H. destruct H as [Hr [Hc Hd]].
    unfold found_and_succeeded. cbn [after_step ret captured delivered steps].
    rewrite Hr, Hc, Hd. cbn [map]. repeat split; reflexivity.
Qed.

(** C10: for every id [N] and every handler, [QueryScanFolderByProductID]
    does what [QueryScanFolderBySourceID] does: both hand the statement
    QUERY_COMBINED_BY_SOURCEID, bound to [N], to [GetCombinedResult].  The
    rows of that statement carry exactly the scan folders of the sources
    whose id is [N] (and that have a job with a product).  When the store
    reports no error, these scan folders are given to the handler one
    after the other until it answers false (all of them to a handler that
    never does), the handler is left in the state this brings it to, and
    the call returns true exactly when there is such a row; when the
    statement cannot be bound the handler is not called and the call
    returns false.  On [crossed_Store] the call with 1 gives the scan
    folder of source 1 to the handler, which is not the scan folder of
    product 1, and the call with 3, the id of no source, gives it
    nothing. *)
Theorem QueryScanFolderByProductID_queries_by_source :
  (forall (c : Store) (St : Type) (N : Z)
          (handler : Handler ScanFolderDatabaseEntry.t St) (s : St),
     let o := QueryScanFolderByProductID c N handler s in
     let folders :=
       map (fun '(sf, _, _, _) => sf) (QUERY_COMBINED_BY_SOURCEID_STATEMENT (tables c) N) in
     o = QueryScanFolderBySourceID c N handler s
     /\ o = found_and_succeeded
              (BindAndQuery
                 (Bind c QUERY_COMBINED_BY_SOURCEID
                    (QUERY_COMBINED_BY_SOURCEID_STATEMENT (tables c) N))
                 (fun statement handler =>
                    GetCombinedResultAsLambda c statement handler
                      default_builderGuid default_jobKey default_status)
                 (scanFolder_lambda handler) (false, s))
     /\ (forall sf,
           In sf folders
           <-> exists src j p,
                 In src (Sources (tables c)) /\ SourceDatabaseEntry.m_sourceID src = N
                 /\ In sf (ScanFolders (tables c))
                 /\ ScanFolderDatabaseEntry.m_scanFolderID sf
                    = SourceDatabaseEntry.m_scanFolderPK src
                 /\ In j (Jobs (tables c))
                 /\ JobDatabaseEntry.m_sourcePK j = SourceDatabaseEntry.m_sourceID src
                 /\ In p (Products (tables c))
                 /\ ProductDatabaseEntry.m_jobPK p = JobDatabaseEntry.m_jobID j)
     /\ (fault c QUERY_COMBINED_BY_SOURCEID = NoFault ->
         ret o = match folders with [] => false | _ :: _ => true end
         /\ captured o = fst (hand_over_in_turn handler folders s)
         /\ delivered o = snd (hand_over_in_turn handler folders s)
         /\ ((forall e s, fst (handler e s) = true) -> delivered o = folders))
     /\ (fault c QUERY_COMBINED_BY_SOURCEID = BindFails -> o = mkOutcome false s [] 0)
     /\ forall sf, In sf (delivered o) ->
          exists src, In src (Sources (tables c))
                      /\ SourceDatabaseEntry.m_sourceID src = N
                      /\ In sf (ScanFolders (tables c))
                      /\ ScanFolderDatabaseEntry.m_scanFolderID sf
                         = SourceDatabaseEntry.m_scanFolderPK src)
  /\ (QueryScanFolderByProductID crossed_Store 1 note_portableKey []
      = mkOutcome true ["a"] [example_scanFolder 1 "/dev/a" "a"] 2
      /\ QueryScanFolderByProductID crossed_Store 1 stop_at_once 0%nat
         = mkOutcome true 1%nat [example_scanFolder 1 "/dev/a" "a"] 1
      /\ QueryScanFolderByProductID crossed_Store 3 note_portableKey []
         = mkOutcome false [] [] 1
      /\ map (fun '(sf, _, _, _) => sf)
             (QUERY_COMBINED_BY_PRODUCTID_STATEMENT crossed_Database 1)
         = [example_scanFolder 2 "/dev/b" "b"]
      /\ example_scanFolder 1 "/dev/a" "a" <> example_scanFolder 2 "/dev/b" "b").
Proof.
  split.
  - intros c St N handler s o folders. subst o folders.
    split; [reflexivity|]. split; [reflexivity|]. split; [|split; [|split]].
    + intros sf. rewrite in_map_iff. split.
      * intros [[[[sf' src] j] p] [E Hrow]]. subst sf'.
        apply QUERY_COMBINED_BY_SOURCEID_rows in Hrow.
        exists src, j, p. tauto.
      * intros [src [j [p [Hs [Hid [Hsf [Hssf [Hj [Hsj [Hp Hjp]]]]]]]]]].
        exists (sf, src, j, p). split; [reflexivity|].
        apply QUERY_COMBINED_BY_SOURCEID_complete; assumption.
    + intros Hf.
      destruct (QueryScanFolderBySourceID_hands_over c N handler s Hf) as [Hr [Hc Hd]].
      split; [exact Hr|]. split; [exact Hc|]. split; [exact Hd|].
      intros Hh. unfold QueryScanFolderByProductID. cbv zeta in Hd.
      unfold QueryScanFolderBySourceID in Hd. rewrite Hd.
      apply hand_over_in_turn_all. exact Hh.
    + intros Hf. unfold QueryScanFolderByProductID, QueryCombinedBySourceID, default_platform.
      cbn [has_platform]. unfold Bind. rewrite Hf. reflexivity.
    + intros sf Hsf. unfold QueryScanFolderByProductID, found_and_succeeded in Hsf.
      destruct (captured _) as [found s'] in Hsf. simpl in Hsf.
      apply in_map_iff in Hsf. destruct Hsf as [e [Esf He]]. subst sf.
      unfold QueryCombinedBySourceID, default_platform in He. simpl in He.
      unfold BindAndQuery in He.
      destruct (Bind c QUERY_COMBINED_BY_SOURCEID _) as [stm|] eqn:B; [|contradiction].
      apply GetCombinedResult_delivered in He. destruct He as [r [Hr Fr]].
      inversion Fr; subst r. eapply Bind_rows in Hr; [|exact B].
      unfold columns_of in Hr. apply QUERY_COMBINED_BY_SOURCEID_rows in Hr.
      exists (CombinedDatabaseEntry.source e). tauto.
  - split; [reflexivity|]. split; [reflexivity|]. split; [reflexivity|].
    split; [reflexivity|discriminate].
Qed.

(** ** The unresolved dependency worklist *)



(** The rows delivered are rows of the worklist whatever the handler and the
    store do. *)
Lemma QueryUnresolvedProductDependencies_sound (c : Store) (St : Type)
  (handler : Handler ProductDependencyDatabaseEntry.t St) (s : St) d :
  In d (delivered (QueryUnresolvedProductDependencies c handler s)) ->
  In d (ProductDependencies (tables c))
  /\ ProductDependencyDatabaseEntry.m_unresolvedPath d <> "".
Proof.
  unfold QueryUnresolvedProductDependencies, BindAndQuery.
  destruct (Bind c _ _) as [stm|] eqn:B; [|contradiction].
  intros H.
  destruct (GetResult_prefix (@Some _) stm handler s) as [n Hn].
  assert (Hin : In (Some d) (map (@Some _) (firstn n (stmt_rows stm)))).
  { rewrite Hn. apply in_map. exact H. }
  apply in_map_iff in Hin. destruct Hin as [d' [E Hd']]. inversion E; subst d'.
  apply In_firstn in Hd'. eapply Bind_rows in Hd'; [|exact B].
  unfold GET_UNRESOLVED_PRODUCT_DEPENDENCIES_STATEMENT in Hd'.
  rewrite filter_In, negb_true_iff, String.eqb_neq in Hd'. exact Hd'.
Qed.

(** ** Not found *)

(** C3, as stated, fails: on the empty store [QueryScanFolderBySourceID]
    matches zero rows, the store reports no error, the handler is not
    invoked, and the call returns false. *)

Lemma QueryScanFolderBySourceID_not_found_counterexample :
  fault empty_Store QUERY_COMBINED_BY_SOURCEID = NoFault
  /\ QUERY_COMBINED_BY_SOURCEID_STATEMENT (tables empty_Store) 1 = []
  /\ delivered (QueryScanFolderBySourceID empty_Store 1 take_all tt) = []
  /\ ret (QueryScanFolderBySourceID empty_Store 1 take_all tt) = false.
Proof. repeat split. Qed.

(** C3, amended: each row stepping helper ([GetResult], [GetJobResult],
    [GetProductResult], [GetCombinedResult], [GetCombinedDependencyResult]
    and the loop of [QueryBuilderInfoTable]) returns false only when the
    store reports [SqlError] or a bound column cannot be read, and on zero
    rows it returns true without invoking the handler; so does every
    public method that hands its bound statement to one of them, a failed
    bind being the only other cause of false.  The projections that keep a
    [found] flag return [found && succeeded]: when their query matches zero
    rows they return false, the handler not having been invoked. *)
Theorem no_rows_is_success_unless_found_is_tracked :
  (* the row stepping helpers *)
  (forall (Row E St : Type) (Fetch : Row -> option E),
     false_only_on_store_error (@GetResult Row St E Fetch) (fun r => Fetch r = None)
     /\ no_rows_is_success (@GetResult Row St E Fetch))
  /\ (forall (Row St : Type) (Fetch : Row -> option JobDatabaseEntry.t) g k st,
        false_only_on_store_error
          (fun stm (h : Handler _ St) => GetJobResult Fetch stm h g k st)
          (fun r => Fetch r = None)
        /\ no_rows_is_success
             (fun stm (h : Handler _ St) => GetJobResult Fetch stm h g k st))
  /\ (forall (Row St : Type) Fp Fk Fg Fs u g k st,
        false_only_on_store_error
          (fun stm (h : Handler _ St) => @GetProductResult Row St Fp Fk Fg Fs u stm h g k st)
          (product_fetch_fails Fp Fk Fg Fs)
        /\ no_rows_is_success
             (fun stm (h : Handler _ St) => @GetProductResult Row St Fp Fk Fg Fs u stm h g k st))
  /\ (forall (Row St : Type) (Fetch : Row -> option CombinedColumns) legacy g k st incl,
        false_only_on_store_error
          (fun stm (h : Handler _ St) => GetCombinedResult Fetch legacy stm h g k st incl)
          (fun r => Fetch r = None)
        /\ no_rows_is_success
             (fun stm (h : Handler _ St) => GetCombinedResult Fetch legacy stm h g k st incl))
  /\ (forall (Row St : Type) F Fg Fs,
        false_only_on_store_error
          (@GetCombinedDependencyResult Row St F Fg Fs) (dependency_fetch_fails F Fg Fs)
        /\ no_rows_is_success (@GetCombinedDependencyResult Row St F Fg Fs))
  /\ (forall (Row St : Type) (Fetch : Row -> option BuilderInfoEntry.t),
        false_only_on_store_error
          (fun stm (h : Handler _ St) => QueryBuilderInfoTable Fetch (Some stm) h)
          (fun r => Fetch r = None)
        /\ no_rows_is_success
             (fun stm (h : Handler _ St) => QueryBuilderInfoTable Fetch (Some stm) h))
  (* a public method that hands its bound statement to a helper *)
  /\ (forall (Row E St : Type) (c : Store) name (rows : list Row)
             (helper : Statement Row -> Handler E St -> St -> Outcome E St) h s,
        (false_only_on_store_error helper (fun _ => False) ->
         ret (BindAndQuery (Bind c name rows) helper h s) = false ->
         fault c name <> NoFault)
        /\ (no_rows_is_success helper -> fault c name = NoFault -> rows = [] ->
            BindAndQuery (Bind c name rows) helper h s = mkOutcome true s [] 1))
  (* the projections that keep a found flag *)
  /\ (forall (c : Store) (St : Type) id (h : Handler ScanFolderDatabaseEntry.t St) s,
        fault c QUERY_COMBINED_BY_SOURCEID = NoFault ->
        QUERY_COMBINED_BY_SOURCEID_STATEMENT (tables c) id = [] ->
        QueryScanFolderBySourceID c id h s = mkOutcome false s [] 1
        /\ QueryScanFolderByProductID c id h s = mkOutcome false s [] 1)
  /\ (forall (c : Store) (St : Type) id (h : Handler ScanFolderDatabaseEntry.t St) s,
        fault c QUERY_COMBINED_BY_JOBID = NoFault ->
        QUERY_COMBINED_BY_JOBID_STATEMENT (tables c) id = [] ->
        QueryScanFolderByJobID c id h s = mkOutcome false s [] 1)
  /\ (forall (c : Store) (St : Type) id (h : Handler JobInfo.t St) s,
        fault c QUERY_COMBINED_BY_JOBID = NoFault ->
        QUERY_COMBINED_BY_JOBID_STATEMENT (tables c) id = [] ->
        QueryJobInfoByJobID c id h s = mkOutcome false s [] 1)
  /\ (forall (c : Store) (St : Type) key (h : Handler JobInfo.t St) s,
        fault c QUERY_JOB_BY_JOBRUNKEY = NoFault ->
        QUERY_JOB_BY_JOBRUNKEY_STATEMENT (tables c) key = [] ->
        QueryJobInfoByJobRunKey c key h s = mkOutcome false s [] 1)
  /\ (forall (c : Store) (St : Type) key (h : Handler JobInfo.t St) s,
        fault c QUERY_JOB_BY_JOBKEY = NoFault ->
        QUERY_JOB_BY_JOBKEY_STATEMENT (tables c) key = [] ->
        QueryJobInfoByJobKey c key h s = mkOutcome false s [] 1)
  /\ (forall (c : Store) (St : Type) name (h : Handler JobInfo.t St) g k p st s,
        fault c QUERY_SOURCE_BY_SOURCENAME = NoFault ->
        QUERY_SOURCE_BY_SOURCENAME_STATEMENT (tables c) name = [] ->
        QueryJobInfoBySourceName c name h g k p st s = mkOutcome false s [] 1).
Proof.
  split; [|split; [|split; [|split; [|split; [|split; [|split;
    [|split; [|split; [|split; [|split; [|split]]]]]]]]]]].
  - intros Row E St Fetch. split; intros stm h s;
      [apply GetResult_false | apply GetResult_empty].
  - intros Row St Fetch g k st. split; intros stm h s;
      [apply GetJobResult_false | apply GetJobResult_empty].
  - intros Row St Fp Fk Fg Fs u g k st. split; intros stm h s;
      [apply GetProductResult_false | apply GetProductResult_empty].
  - intros Row St Fetch legacy g k st incl. split; intros stm h s;
      [apply GetCombinedResult_false | apply GetCombinedResult_empty].
  - intros Row St F Fg Fs. split; intros stm h s;
      [apply GetCombinedDependencyResult_false | apply GetCombinedDependencyResult_empty].
  - intros Row St Fetch. split; intros stm h s;
      [apply QueryBuilderInfoTable_false | apply QueryBuilderInfoTable_empty].
  - intros Row E St c name rows helper h s. split.
    + intros Hhelper Hret Hfault.
      rewrite (Bind_NoFault _ _ _ Hfault) in Hret. simpl in Hret.
      apply Hhelper in Hret. simpl in Hret.
      destruct Hret as [Hret|[r [_ []]]]. discriminate.
    + intros Hhelper Hfault Hrows.
      rewrite (Bind_NoFault _ _ _ Hfault). simpl. apply Hhelper; simpl; auto.
  - intros c St id h s Hf Hr. split.
    + unfold QueryScanFolderBySourceID, QueryCombinedBySourceID. simpl.
      rewrite (Bind_NoFault _ _ _ Hf), Hr. reflexivity.
    + unfold QueryScanFolderByProductID, QueryCombinedBySourceID. simpl.
      rewrite (Bind_NoFault _ _ _ Hf), Hr. reflexivity.
  - intros c St id h s Hf Hr.
    unfold QueryScanFolderByJobID, QueryCombinedByJobID. simpl.
    rewrite (Bind_NoFault _ _ _ Hf), Hr. reflexivity.
  - intros c St id h s Hf Hr.
    unfold QueryJobInfoByJobID, QuerySourceByJobID, QueryCombinedByJobID. simpl.
    rewrite (Bind_NoFault _ _ _ Hf), Hr. reflexivity.
  - intros c St key h s Hf Hr.
    unfold QueryJobInfoByJobRunKey, QueryJobByJobRunKey.
    rewrite (Bind_NoFault _ _ _ Hf), Hr. reflexivity.
  - intros c St key h s Hf Hr.
    unfold QueryJobInfoByJobKey, QueryJobByJobKey.
    rewrite (Bind_NoFault _ _ _ Hf), Hr. reflexivity.
  - intros c St name h g k p st s Hf Hr.
    unfold QueryJobInfoBySourceName, QuerySourceBySourceName.
    rewrite (Bind_NoFault _ _ _ Hf), Hr. reflexivity.
Qed.

Lemma no_rows_is_success_unless_found_is_tracked_witness :
  QueryScanFolderByJobID empty_Store 1 take_all tt = mkOutcome false tt [] 1
  /\ QueryJobInfoByJobKey empty_Store "compile" take_all tt = mkOutcome false tt [] 1.
Proof.
  destruct no_rows_is_success_unless_found_is_tracked
    as [_ [_ [_ [_ [_ [_ [_ [_ [HJobID [_ [_ [HJobKey _]]]]]]]]]]]].
  split; [apply HJobID | apply HJobKey]; reflexivity.
Defined.

(** ** Early stop *)

(** C4: the claim does not hold for [QueryJobInfoBySourceName].  In
    [failed_job_Store] the source [a.txt] has one job and that job has no
    product; no statement fails.  The statement over [Jobs] yields one row,
    the handler is invoked once and asks to stop, exactly one job info has
    been delivered after a single [Step], and the call returns false.
    [QueryJobInfoByJobKey], which tests [found] before it invokes the
    handler, does not invoke it on the same store. *)

Theorem QueryJobInfoBySourceName_early_stop_returns_false :
  fault failed_job_Store QUERY_SOURCE_BY_SOURCENAME = NoFault
  /\ fault failed_job_Store QUERY_JOB_BY_SOURCEID = NoFault
  /\ fault failed_job_Store QUERY_COMBINED_BY_SOURCEID = NoFault
  /\ QUERY_JOB_BY_SOURCEID_STATEMENT failed_job_Database 1 = [example_job 1 1]
  /\ QueryJobInfoBySourceName failed_job_Store "a.txt" stop_at_once
       default_builderGuid default_jobKey default_platform default_status 0%nat
     = mkOutcome false 1%nat [failed_job_info] 1
  /\ QueryJobInfoByJobKey failed_job_Store "compile" stop_at_once 0%nat
     = mkOutcome false 0%nat [] 1.
Proof. repeat split. Qed.

(** Early stop in the helpers: a handler that refuses the first row it is
    given has been given exactly that row, no further [Step] is made, and
    the helper returns true. *)
Lemma GetJobResult_stops {Row St} (Fetch : Row -> option JobDatabaseEntry.t)
  (stm : Statement Row) (h : Handler JobDatabaseEntry.t St) g k st s r rest j :
  stmt_rows stm = r :: rest -> Fetch r = Some j ->
  ResultMatchesJobCriteria k g st (JobDatabaseEntry.m_jobKey j)
    (JobDatabaseEntry.m_builderGuid j) (JobDatabaseEntry.m_status j) = true ->
  fst (h j s) = false ->
  GetJobResult Fetch stm h g k st s = mkOutcome true (snd (h j s)) [j] 1.
Proof.
  intros Hr Hf Hm Hh. unfold GetJobResult. rewrite Hr.
  destruct rest; simpl; rewrite Hf, Hm; destruct (h j s) as [c s']; simpl in *;
    subst c; reflexivity.
Qed.

Lemma GetProductResultSimple_stops {Row St} Fp Fk Fg Fs u
  (stm : Statement Row) (h : Handler ProductDatabaseEntry.t St) s r rest p :
  stmt_rows stm = r :: rest -> Fp r = Some p -> fst (h p s) = false ->
  GetProductResultSimple Fp Fk Fg Fs u stm h s = mkOutcome true (snd (h p s)) [p] 1.
Proof.
  intros Hr Hf Hh. rewrite GetProductResultSimple_GetResult.
  eapply GetResult_stops; eassumption.
Qed.

Lemma GetCombinedResult_stops {Row St} (Fetch : Row -> option CombinedColumns) legacy
  (stm : Statement Row) (h : Handler CombinedDatabaseEntry.t St) g k st s r rest columns :
  stmt_rows stm = r :: rest -> Fetch r = Some columns ->
  (let '(_, _, j, _) := columns in
   ResultMatchesJobCriteria k g st (JobDatabaseEntry.m_jobKey j)
     (JobDatabaseEntry.m_builderGuid j) (JobDatabaseEntry.m_status j)) = true ->
  fst (h (fill_combined columns []) s) = false ->
  GetCombinedResult Fetch legacy stm h g k st false s
  = mkOutcome true (snd (h (fill_combined columns []) s)) [fill_combined columns []] 1.
Proof.
  intros Hr Hf Hm Hh. unfold GetCombinedResult. rewrite Hr.
  destruct columns as [[[sf src] j] p].
  destruct rest; simpl; rewrite Hf, Hm; simpl in Hh;
    destruct (h _ s) as [c s']; simpl in *; subst c; reflexivity.
Qed.

(** [QuerySourceByJobID] hands over the source of the first row only,
    whatever the handler answers, and returns true. *)
Lemma QuerySourceByJobID_one (c : Store) (St : Type) jobid
  (h : Handler SourceDatabaseEntry.t St) s columns rest :
  fault c QUERY_COMBINED_BY_JOBID = NoFault ->
  QUERY_COMBINED_BY_JOBID_STATEMENT (tables c) jobid = columns :: rest ->
  QuerySourceByJobID c jobid h s
  = mkOutcome true (snd (h (snd (fst (fst columns))) s)) [snd (fst (fst columns))] 1.
Proof.
  intros Hf Hr. unfold QuerySourceByJobID, QueryCombinedByJobID. simpl.
  rewrite (Bind_NoFault _ _ _ Hf), Hr. unfold BindAndQuery, GetCombinedResultAsLambda.
  destruct columns as [[[sf src] j] p].
  erewrite GetCombinedResult_stops with (columns := (sf, src, j, p));
    try reflexivity; simpl; destruct (h src s); reflexivity.
Qed.

(** ** Equality of entities *)

Lemma AzFramework_StringFunc_Equal_lower_case (inA inB : string) :
  AzFramework_StringFunc_Equal inA inB = true <-> lower_case inA = lower_case inB.
Proof.
  revert inB. induction inA as [|a inA IH]; intros [|b inB]; simpl;
    try (split; [reflexivity || discriminate | reflexivity || discriminate]).
  unfold chr_eq_nocase. rewrite andb_true_iff, Ascii.eqb_eq, IH. split.
  - intros [-> ->]. reflexivity.
  - intros H. inversion H. auto.
Qed.

(** C8, amended: two scan folder entries are equal by [operator==] exactly
    when their portable keys are equal (ids, paths, display names, output
    prefixes and root flags take no part).  Two product entries are equal
    by [operator==] exactly when job primary key, sub id and asset type
    are equal and [StringFunc::Equal] accepts the two product names,
    whatever comparison [StringFunc::Equal] is (ids and legacy guids take
    no part); with the comparison of the library, that is exactly when the
    names, read as C strings, are equal up to the case of their letters.
    Product entries that agree on job primary key, sub id, asset type and
    product name are equal. *)
Theorem entity_equality_laws :
  (forall a b : ScanFolderDatabaseEntry.t,
     ScanFolderDatabaseEntry.eqb a b = true
     <-> ScanFolderDatabaseEntry.m_portableKey a = ScanFolderDatabaseEntry.m_portableKey b)
  /\ (forall (StringFunc_Equal : string -> string -> bool) (a b : ProductDatabaseEntry.t),
        ProductDatabaseEntry.eqb StringFunc_Equal a b = true
        <-> ProductDatabaseEntry.m_jobPK a = ProductDatabaseEntry.m_jobPK b
            /\ ProductDatabaseEntry.m_subID a = ProductDatabaseEntry.m_subID b
            /\ ProductDatabaseEntry.m_assetType a = ProductDatabaseEntry.m_assetType b
            /\ StringFunc_Equal (ProductDatabaseEntry.m_productName a)
                 (ProductDatabaseEntry.m_productName b) = true)
  /\ (forall a b : ProductDatabaseEntry.t,
        ProductDatabaseEntry.eqb StringFunc_Equal_c_str a b = true
        <-> ProductDatabaseEntry.m_jobPK a = ProductDatabaseEntry.m_jobPK b
            /\ ProductDatabaseEntry.m_subID a = ProductDatabaseEntry.m_subID b
            /\ ProductDatabaseEntry.m_assetType a = ProductDatabaseEntry.m_assetType b
            /\ lower_case (c_str (ProductDatabaseEntry.m_productName a))
               = lower_case (c_str (ProductDatabaseEntry.m_productName b)))
  /\ (forall a b : ProductDatabaseEntry.t,
        ProductDatabaseEntry.m_jobPK a = ProductDatabaseEntry.m_jobPK b ->
        ProductDatabaseEntry.m_subID a = ProductDatabaseEntry.m_subID b ->
        ProductDatabaseEntry.m_assetType a = ProductDatabaseEntry.m_assetType b ->
        ProductDatabaseEntry.m_productName a = ProductDatabaseEntry.m_productName b ->
        ProductDatabaseEntry.eqb StringFunc_Equal_c_str a b = true).
Proof.
  assert (Hany : forall (StringFunc_Equal : string -> string -> bool) a b,
             ProductDatabaseEntry.eqb StringFunc_Equal a b = true
             <-> ProductDatabaseEntry.m_jobPK a = ProductDatabaseEntry.m_jobPK b
                 /\ ProductDatabaseEntry.m_subID a = ProductDatabaseEntry.m_subID b
                 /\ ProductDatabaseEntry.m_assetType a = ProductDatabaseEntry.m_assetType b
                 /\ StringFunc_Equal (ProductDatabaseEntry.m_productName a)
                      (ProductDatabaseEntry.m_productName b) = true).
  { intros StringFunc_Equal a b. unfold ProductDatabaseEntry.eqb.
    rewrite !andb_true_iff, !Z.eqb_eq, N.eqb_eq. tauto. }
  assert (Hlib : forall a b : ProductDatabaseEntry.t,
             ProductDatabaseEntry.eqb StringFunc_Equal_c_str a b = true
             <-> ProductDatabaseEntry.m_jobPK a = ProductDatabaseEntry.m_jobPK b
                 /\ ProductDatabaseEntry.m_subID a = ProductDatabaseEntry.m_subID b
                 /\ ProductDatabaseEntry.m_assetType a = ProductDatabaseEntry.m_assetType b
                 /\ lower_case (c_str (ProductDatabaseEntry.m_productName a))
                    = lower_case (c_str (ProductDatabaseEntry.m_productName b))).
  { intros a b. rewrite Hany. unfold StringFunc_Equal_c_str.
    rewrite AzFramework_StringFunc_Equal_lower_case. reflexivity. }
  split; [|split; [exact Hany|split; [exact Hlib|]]].
  - intros a b. unfold ScanFolderDatabaseEntry.eqb. apply String.eqb_eq.
  - intros a b Hj Hs Ht Hn. apply Hlib. rewrite Hn. auto.
Qed.

(** C8, as stated, fails for product names that differ in case only: the
    two entries below are equal by [operator==], and their product names
    are not equal. *)
Lemma ProductDatabaseEntry_equality_case_counterexample :
  ProductDatabaseEntry.eqb StringFunc_Equal_c_str
    (ProductDatabaseEntry.Build 1 4 "Out.bin" 2 9%N 100%N)
    (ProductDatabaseEntry.Build 8 4 "out.bin" 2 9%N 200%N) = true
  /\ ~ (ProductDatabaseEntry.m_jobPK (ProductDatabaseEntry.Build 1 4 "Out.bin" 2 9%N 100%N)
        = ProductDatabaseEntry.m_jobPK (ProductDatabaseEntry.Build 8 4 "out.bin" 2 9%N 200%N)
        /\ ProductDatabaseEntry.m_subID (ProductDatabaseEntry.Build 1 4 "Out.bin" 2 9%N 100%N)
           = ProductDatabaseEntry.m_subID (ProductDatabaseEntry.Build 8 4 "out.bin" 2 9%N 200%N)
        /\ ProductDatabaseEntry.m_assetType
             (ProductDatabaseEntry.Build 1 4 "Out.bin" 2 9%N 100%N)
           = ProductDatabaseEntry.m_assetType
               (ProductDatabaseEntry.Build 8 4 "out.bin" 2 9%N 200%N)
        /\ ProductDatabaseEntry.m_productName
             (ProductDatabaseEntry.Build 1 4 "Out.bin" 2 9%N 100%N)
           = ProductDatabaseEntry.m_productName
               (ProductDatabaseEntry.Build 8 4 "out.bin" 2 9%N 200%N)).
Proof.
  split; [reflexivity|]. simpl. intros [_ [_ [_ H]]]. discriminate H.
Qed.

(** ** Opening the database *)

Section OpenDatabaseFacts.

Variable IsReadOnly : bool.
Variables CurrentDatabaseVersion DatabaseDoesNotExist uninitialised_dbVersion : DatabaseVersion.
Variable StripFullName : string -> string.

Local Abbreviation Open :=
  (OpenDatabase IsReadOnly CurrentDatabaseVersion DatabaseDoesNotExist
     uninitialised_dbVersion StripFullName).
Local Abbreviation PostOpen :=
  (PostOpenDatabase CurrentDatabaseVersion DatabaseDoesNotExist uninitialised_dbVersion).
Local Abbreviation Version :=
  (QueryDatabaseVersion DatabaseDoesNotExist uninitialised_dbVersion).

Lemma ValidateDatabaseTable_connection this tableName :
  m_databaseConnection (snd (ValidateDatabaseTable this tableName)) = m_databaseConnection this.
Proof.
  unfold ValidateDatabaseTable.
  destruct (existsb _ _); [reflexivity|].
  destruct (m_databaseConnection this) as [connection|] eqn:E; [|simpl; congruence].
  destruct (negb (conn_IsOpen connection)); [simpl; congruence|].
  destruct (negb (DoesTableExist _ _)); simpl; congruence.
Qed.

Lemma validate_tables_connection expected : forall this,
  m_databaseConnection (snd (validate_tables this expected)) = m_databaseConnection this.
Proof.
  induction expected as [|tableName rest IH]; intros this; simpl; [reflexivity|].
  pose proof (ValidateDatabaseTable_connection this tableName) as H.
  destruct (ValidateDatabaseTable this tableName) as [ok this1]. simpl in H.
  destruct ok; simpl; [rewrite IH|]; exact H.
Qed.

Lemma PostOpenDatabase_connection this :
  m_databaseConnection (snd (PostOpen this)) = m_databaseConnection this.
Proof.
  unfold PostOpenDatabase. destruct (m_databaseConnection this) eqn:E; [|simpl; congruence].
  destruct (negb _); [simpl; congruence|].
  rewrite validate_tables_connection. exact E.
Qed.

Lemma validate_tables_missing connection expected : forall this,
  m_databaseConnection this = Some connection ->
  (forall t, In t (m_validatedTables this) -> DoesTableExist (conn_store connection) t = true) ->
  (exists t, In t expected /\ DoesTableExist (conn_store connection) t = false) ->
  fst (validate_tables this expected) = false.
Proof.
  induction expected as [|tableName rest IH]; intros this Hc Hv [t [Hin Ht]].
  - contradiction.
  - simpl. unfold ValidateDatabaseTable.
    destruct (existsb (String.eqb tableName) (m_validatedTables this)) eqn:Ev.
    + (* already validated, hence not the missing one *)
      simpl. apply IH; auto.
      destruct Hin as [Hin|Hin]; [|exists t; auto]. subst t.
      apply existsb_exists in Ev. destruct Ev as [x [Hx Ex]].
      apply String.eqb_eq in Ex. subst x. rewrite (Hv _ Hx) in Ht. discriminate.
    + rewrite Hc. destruct (negb (conn_IsOpen connection)); [reflexivity|].
      destruct (DoesTableExist (conn_store connection) tableName) eqn:Ed; simpl; [|reflexivity].
      apply IH; simpl; auto.
      * intros x [Hx|Hx]; [subst x; exact Ed|auto].
      * destruct Hin as [Hin|Hin]; [subst t; congruence|exists t; auto].
Qed.

Lemma PostOpenDatabase_gate store :
  Version store <> CurrentDatabaseVersion
  \/ (exists t, In t EXPECTED_TABLES /\ DoesTableExist store t = false) ->
  fst (PostOpen (mkAssetDatabaseConnection (Some (mkSQLiteConnection store true)) [])) = false.
Proof.
  intros H. unfold PostOpenDatabase. cbn [m_databaseConnection conn_store].
  destruct (Z.eqb (Version store) CurrentDatabaseVersion) eqn:EV; cbn [negb]; [|reflexivity].
  apply Z.eqb_eq in EV. destruct H as [H|H]; [contradiction|].
  apply validate_tables_missing with (connection := mkSQLiteConnection store true);
    [reflexivity | intros t [] | exact H].
Qed.

Lemma created_has_no_open (created : list Event) parent :
  created = (if negb (String.eqb parent "") then [CreateDir parent] else []) ->
  existsb is_ConnectionOpen created = false /\ filter is_ConnectionOpen created = [].
Proof. intros ->. destruct (negb _); split; reflexivity. Qed.

(** C5: if the store found at the database location does not hold exactly
    [CurrentDatabaseVersion()] as its version, or lacks one of the
    expected tables, then [OpenDatabase] on a closed connection returns
    false and leaves it closed: the pointer is null and the cache of
    validated tables is empty.  The only calls made are the creation of
    the parent folder, the opening of the store and, if it was opened, its
    closing: nothing is written to the store. *)
Theorem OpenDatabase_schema_gate (env : Environment) (this : AssetDatabaseConnection) :
  is_closed this ->
  (forall store,
     SQLite_Open env (GetAssetDatabaseFilePath env) IsReadOnly = Some store ->
     Version store <> CurrentDatabaseVersion
     \/ exists t, In t EXPECTED_TABLES /\ DoesTableExist store t = false) ->
  let location := GetAssetDatabaseFilePath env in
  let created :=
    if negb (String.eqb (StripFullName location) "")
    then [CreateDir (StripFullName location)] else [] in
  let '(result, this', events) := Open env this in
  result = false
  /\ m_databaseConnection this' = None
  /\ m_validatedTables this' = []
  /\ (events = created
      \/ events = created ++ [ConnectionOpen location IsReadOnly]
      \/ events = created ++ [ConnectionOpen location IsReadOnly; ConnectionClose]).
Proof.
  intros [Hconn Hval] Hgate location created. unfold OpenDatabase.
  fold location. fold created.
  destruct (IsReadOnly && negb (SystemFile_Exists env location)); [auto 6|].
  destruct (negb IsReadOnly && SystemFile_Exists env location
            && negb (SystemFile_IsWritable env location)); [auto 6|].
  destruct (SQLite_Open env location IsReadOnly) as [store|] eqn:E.
  - pose proof (PostOpenDatabase_gate store (Hgate store E)) as Hpost.
    pose proof (PostOpenDatabase_connection
                  (mkAssetDatabaseConnection (Some (mkSQLiteConnection store true)) [])) as Hkept.
    destruct (PostOpen _) as [ok this2]. simpl in Hpost, Hkept. subst ok. simpl.
    rewrite Hkept. repeat split. right. right. rewrite <- app_assoc. reflexivity.
  - simpl. repeat split; auto.
Qed.

(** C6: [OpenDatabase] on a closed connection returns false without
    asking the store to open the file in exactly two cases: the connection
    is read-only and the file does not exist, or it is read-write and the
    file exists but is not writable.  The connection is then unchanged,
    hence still closed; and in no case is the store asked to open the file
    more than once. *)
Theorem OpenDatabase_precondition_failures (env : Environment) (this : AssetDatabaseConnection) :
  is_closed this ->
  let location := GetAssetDatabaseFilePath env in
  let '(result, this', events) := Open env this in
  ((result = false /\ existsb is_ConnectionOpen events = false) <->
   (IsReadOnly = true /\ SystemFile_Exists env location = false)
   \/ (IsReadOnly = false /\ SystemFile_Exists env location = true
       /\ SystemFile_IsWritable env location = false))
  /\ (existsb is_ConnectionOpen events = false -> this' = this /\ is_closed this')
  /\ (List.length (filter is_ConnectionOpen events) <= 1)%nat.
Proof.
  intros Hclosed location. unfold OpenDatabase. fold location.
  destruct (created_has_no_open (StripFullName location) eq_refl) as [Hex Hfil].
  set (created := if negb (String.eqb (StripFullName location) "")
                  then [CreateDir (StripFullName location)] else []) in *.
  destruct (IsReadOnly && negb (SystemFile_Exists env location)) eqn:G1.
  { (* read-only, and the file is not there *)
    apply andb_true_iff in G1. destruct G1 as [RO EX]. apply negb_true_iff in EX.
    split; [split; auto|]. split; [auto|]. rewrite Hfil. simpl. lia. }
  destruct (negb IsReadOnly && SystemFile_Exists env location
            && negb (SystemFile_IsWritable env location)) eqn:G2.
  { (* read-write, and the file cannot be written *)
    apply andb_true_iff in G2. destruct G2 as [G2 WR].
    apply andb_true_iff in G2. destruct G2 as [RO EX].
    apply negb_true_iff in RO, WR.
    split; [split; auto|]. split; [auto|]. rewrite Hfil. simpl. lia. }
  (* the store is asked to open the file *)
  assert (Hnone : ~ ((IsReadOnly = true /\ SystemFile_Exists env location = false)
                     \/ (IsReadOnly = false /\ SystemFile_Exists env location = true
                         /\ SystemFile_IsWritable env location = false))).
  { intros [[RO EX]|[RO [EX WR]]]; rewrite RO, EX in *; try rewrite WR in *; discriminate. }
  assert (Hopen : forall result this' tail,
    ((result = false /\
      existsb is_ConnectionOpen ((created ++ [ConnectionOpen location IsReadOnly]) ++ tail) = false)
     <-> (IsReadOnly = true /\ SystemFile_Exists env location = false)
         \/ (IsReadOnly = false /\ SystemFile_Exists env location = true
             /\ SystemFile_IsWritable env location = false))
    /\ (existsb is_ConnectionOpen ((created ++ [ConnectionOpen location IsReadOnly]) ++ tail) = false
        -> this' = this /\ is_closed this')).
  { intros result this' tail.
    assert (Hev : existsb is_ConnectionOpen
                    ((created ++ [ConnectionOpen location IsReadOnly]) ++ tail) = true).
    { rewrite !existsb_app. simpl. rewrite orb_true_r. reflexivity. }
    rewrite Hev. split; [split; [intros [_ H]; discriminate H | intros H; contradiction]
                        | intros H; discriminate H]. }
  destruct (SQLite_Open env location IsReadOnly) as [store|].
  - destruct (PostOpen _) as [[] this2]; simpl.
    + destruct (Hopen true this2 []) as [H1 H2]. rewrite app_nil_r in H1, H2.
      split; [exact H1|]. split; [exact H2|].
      rewrite filter_app, Hfil. simpl. lia.
    + destruct (Hopen false (mkAssetDatabaseConnection None [])
                  (match m_databaseConnection this2 with
                   | Some _ => [ConnectionClose] | None => [] end)) as [H1 H2].
      split; [exact H1|]. split; [exact H2|].
      rewrite !filter_app, Hfil. simpl. destruct (m_databaseConnection this2); simpl; lia.
  - destruct (Hopen false (mkAssetDatabaseConnection None (m_validatedTables this)) [])
      as [H1 H2]. rewrite app_nil_r in H1, H2.
    split; [exact H1|]. split; [exact H2|].
    rewrite filter_app, Hfil. simpl. lia.
Qed.

End OpenDatabaseFacts.

Lemma OpenDatabase_schema_gate_witness :
  is_closed fresh_connection
  /\ QueryDatabaseVersion 0 0 stale_Store = 5
  /\ OpenDatabase false 6 0 0 (fun _ => "cache") stale_Environment fresh_connection
     = (false, fresh_connection,
        [CreateDir "cache"; ConnectionOpen "cache/assetdb.sqlite" false; ConnectionClose]).
Proof.
  split; [split; reflexivity|]. split; [reflexivity|].
  pose proof (@OpenDatabase_schema_gate false 6 0 0 (fun _ => "cache")
                stale_Environment fresh_connection (conj eq_refl eq_refl)) as H.
  cbv zeta in H.
  destruct (OpenDatabase false 6 0 0 (fun _ => "cache") stale_Environment fresh_connection)
    as [[result this'] events] eqn:E.
  destruct H as [Hresult [Hconn [Hval Hevents]]].
  - intros store Hstore. left. inversion Hstore; subst store. vm_compute. discriminate.
  - vm_compute in E. inversion E; subst. reflexivity.
Defined.

Lemma OpenDatabase_precondition_failures_witness :
  is_closed fresh_connection
  /\ OpenDatabase true 6 0 0 (fun _ => "cache") missing_file_Environment fresh_connection
     = (false, fresh_connection, [CreateDir "cache"]).
Proof.
  split; [split; reflexivity|].
  pose proof (@OpenDatabase_precondition_failures true 6 0 0 (fun _ => "cache")
                missing_file_Environment fresh_connection (conj eq_refl eq_refl)) as H.
  cbv zeta in H.
  destruct (OpenDatabase true 6 0 0 (fun _ => "cache") missing_file_Environment fresh_connection)
    as [[result this'] events] eqn:E.
  destruct H as [[_ Hcases] [Hsame _]].
  destruct Hcases as [Hresult Hnone]; [left; split; reflexivity|].
  destruct (Hsame Hnone) as [Hthis _]. subst result this'.
  vm_compute in E. inversion E; subst. reflexivity.
Defined.

(** ** Escaping and LIKE *)

Lemma string_app_assoc (a b c : string) : ((a ++ b) ++ c = a ++ (b ++ c))%string.
Proof. induction a as [|x a IH]; simpl; [reflexivity|rewrite IH; reflexivity]. Qed.

Lemma string_app_nil_r (a : string) : (a ++ "" = a)%string.
Proof. induction a as [|x a IH]; simpl; [reflexivity|rewrite IH; reflexivity]. Qed.

Lemma Replace_app (a b : string) c w :
  StringFunc.Replace (a ++ b)%string c w
  = (StringFunc.Replace a c w ++ StringFunc.Replace b c w)%string.
Proof.
  induction a as [|x a IH]; simpl; [reflexivity|].
  destruct (Ascii.eqb x c); rewrite IH; [rewrite string_app_assoc|]; reflexivity.
Qed.

Lemma Replace_twice (literal : string) :
  StringFunc.Replace (StringFunc.Replace literal "%" "|%") "_" "|_" = escaped literal.
Proof.
  induction literal as [|c rest IH]; [reflexivity|].
  cbn [StringFunc.Replace escaped]. unfold escaped_char.
  destruct (Ascii.eqb c "%") eqn:E1.
  - rewrite Replace_app, IH. reflexivity.
  - cbn [StringFunc.Replace]. rewrite IH.
    destruct (Ascii.eqb c "_"); reflexivity.
Qed.

Section LikeFacts.

Variable chr_eq : ascii -> ascii -> bool.

Local Abbreviation like := (sql_like chr_eq "|").

Lemma like_empty stored : like "" stored = true <-> stored = "".
Proof. destruct stored; simpl; split; congruence. Qed.

Lemma like_percent_unfold pattern stored :
  like (String "%" pattern) stored
  = like pattern stored
    || match stored with
       | EmptyString => false
       | String _ stored' => like (String "%" pattern) stored'
       end.
Proof. destruct stored; reflexivity. Qed.

Lemma like_percent pattern stored :
  like (String "%" pattern) stored = true
  <-> exists pre post, stored = (pre ++ post)%string /\ like pattern post = true.
Proof.
  induction stored as [|d stored IH]; rewrite like_percent_unfold, orb_true_iff.
  - split.
    + intros [H|H]; [|discriminate]. exists "", "". auto.
    + intros [pre [post [E H]]]. left.
      destruct pre; [|discriminate]. simpl in E. subst post. exact H.
  - rewrite IH. split.
    + intros [H|[pre [post [E H]]]].
      * exists "", (String d stored). auto.
      * exists (String d pre), post. subst stored. auto.
    + intros [pre [post [E H]]]. destruct pre as [|x pre]; simpl in E.
      * left. subst post. exact H.
      * right. inversion E; subst. eauto.
Qed.

Lemma like_percent_only stored : like "%" stored = true.
Proof. apply like_percent. exists stored, "". rewrite string_app_nil_r. auto. Qed.

Lemma like_escaped_char c pattern stored :
  Ascii.eqb c "|" = false ->
  like (escaped_char c ++ pattern) stored
  = match stored with
    | EmptyString => false
    | String d stored' => chr_eq c d && like pattern stored'
    end.
Proof.
  intros Hc. unfold escaped_char.
  destruct (Ascii.eqb c "%") eqn:E1.
  - apply Ascii.eqb_eq in E1. subst c. reflexivity.
  - destruct (Ascii.eqb c "_") eqn:E2.
    + apply Ascii.eqb_eq in E2. subst c. reflexivity.
    + simpl. rewrite Hc, E1, E2. reflexivity.
Qed.

Lemma same_text_nil_l s : same_text chr_eq "" s <-> s = "".
Proof. destruct s; simpl; split; intros H; try reflexivity; try contradiction; discriminate. Qed.

Lemma like_escaped literal : forall rest stored,
  contains_char "|" literal = false ->
  like (escaped literal ++ rest) stored = true
  <-> exists mid post, stored = (mid ++ post)%string
                       /\ same_text chr_eq literal mid /\ like rest post = true.
Proof.
  induction literal as [|c literal IH]; intros rest stored Hc.
  - simpl. split.
    + intros H. exists "", stored. simpl. auto.
    + intros [mid [post [E [Hm H]]]]. apply same_text_nil_l in Hm. subst. exact H.
  - simpl in Hc. apply orb_false_iff in Hc. destruct Hc as [Hc Hrest].
    cbn [escaped]. rewrite string_app_assoc, like_escaped_char by exact Hc.
    destruct stored as [|d stored].
    + split; [discriminate|].
      intros [mid [post [E [Hm _]]]]. destruct mid; [contradiction|discriminate].
    + rewrite andb_true_iff, IH by exact Hrest. split.
      * intros [Hd [mid [post [E [Hm H]]]]]. exists (String d mid), post.
        subst stored. simpl. auto.
      * intros [mid [post [E [Hm H]]]]. destruct mid as [|x mid]; [contradiction|].
        simpl in E. inversion E; subst. destruct Hm as [Hd Hm].
        split; [exact Hd|]. exists mid, post. auto.
Qed.

End LikeFacts.

(** C2, amended: for every literal that does not contain the escape
    character [|], and for each of the modes StartsWith, EndsWith and
    Matches, the pattern of [GetLikeActualSearchTerm] matches a stored
    string under [LIKE ... ESCAPE '|'] exactly when the text of the literal
    occurs in it as a prefix, as a suffix, or anywhere: no [%] and no [_]
    of the literal acts as a wildcard.  Characters are compared the way
    the store compares them for LIKE. *)
Theorem GetLikeActualSearchTerm_matches_literal_text
  (chr_eq : ascii -> ascii -> bool) (literal : string) (likeType : LikeType)
  (stored : string) :
  contains_char "|" literal = false ->
  likeType <> Raw ->
  LIKE_ESCAPE_pipe chr_eq stored (GetLikeActualSearchTerm literal likeType) = true
  <-> occurs_as chr_eq likeType literal stored.
Proof.
  intros Hc Hraw. unfold LIKE_ESCAPE_pipe, GetLikeActualSearchTerm.
  destruct likeType; [contradiction| | |]; cbn zeta; rewrite Replace_twice;
    unfold StringFunc.Append, StringFunc.Prepend, occurs_as.
  - (* StartsWith *)
    rewrite like_escaped by exact Hc. split.
    + intros [mid [post [E [Hm _]]]]. eauto.
    + intros [mid [post [E Hm]]]. exists mid, post.
      split; [exact E|]. split; [exact Hm|apply like_percent_only].
  - (* EndsWith *)
    change ("%" ++ escaped literal)%string with (String "%" (escaped literal)).
    rewrite like_percent. split.
    + intros [pre [post [E H]]].
      rewrite <- (string_app_nil_r (escaped literal)) in H.
      apply like_escaped in H; [|exact Hc].
      destruct H as [mid [post' [E' [Hm H]]]]. apply like_empty in H. subst post'.
      rewrite string_app_nil_r in E'. subst post. eauto.
    + intros [pre [mid [E Hm]]]. exists pre, mid. split; [exact E|].
      rewrite <- (string_app_nil_r (escaped literal)).
      apply like_escaped; [exact Hc|]. exists mid, "".
      rewrite string_app_nil_r. split; [reflexivity|]. split; [exact Hm|reflexivity].
  - (* Matches *)
    change (("%" ++ escaped literal) ++ "%")%string
      with (String "%" (escaped literal ++ "%")).
    rewrite like_percent. split.
    + intros [pre [post [E H]]]. apply like_escaped in H; [|exact Hc].
      destruct H as [mid [post' [E' [Hm _]]]]. subst post. eauto.
    + intros [pre [mid [post [E Hm]]]]. exists pre, (mid ++ post)%string.
      split; [exact E|]. apply like_escaped; [exact Hc|].
      exists mid, post. split; [reflexivity|]. split; [exact Hm|apply like_percent_only].
Qed.

Lemma same_text_eqb literal s : same_text Ascii.eqb literal s <-> literal = s.
Proof.
  revert s; induction literal as [|c literal IH]; intros [|d s]; simpl;
    try (split; [contradiction|discriminate]); [tauto|].
  rewrite Ascii.eqb_eq, IH. split; [intros [-> ->]; reflexivity|intros H; inversion H; auto].
Qed.

Lemma GetLikeActualSearchTerm_matches_literal_text_witness :
  LIKE_ESCAPE_pipe Ascii.eqb "textures/100%_done.dds"
    (GetLikeActualSearchTerm "100%_done" Matches) = true.
Proof.
  apply (@GetLikeActualSearchTerm_matches_literal_text Ascii.eqb "100%_done" Matches
           "textures/100%_done.dds"); [reflexivity | discriminate |].
  exists "textures/", "100%_done", ".dds". split; [reflexivity|].
  apply same_text_eqb. reflexivity.
Defined.

(** The example of the specification: under none of the three modes does
    the literal [100%_done] match [100Xdone], whether LIKE folds case or
    not. *)
Lemma literal_100_percent_done :
  forall likeType, likeType <> Raw ->
    LIKE_ESCAPE_pipe Ascii.eqb "100Xdone" (GetLikeActualSearchTerm "100%_done" likeType) = false
    /\ LIKE_ESCAPE_pipe chr_eq_nocase "100Xdone"
         (GetLikeActualSearchTerm "100%_done" likeType) = false.
Proof. intros [] H; try contradiction; split; reflexivity. Qed.

(** C2, as stated, fails for a literal that contains [|]: the pattern made
    for the literal [a|b] in mode StartsWith matches [abc], which does not
    start with [a|b]; the [|] of the literal is read as the escape
    character. *)
Lemma GetLikeActualSearchTerm_pipe_counterexample :
  (LIKE_ESCAPE_pipe Ascii.eqb "abc" (GetLikeActualSearchTerm "a|b" StartsWith) = true
   /\ ~ occurs_as Ascii.eqb StartsWith "a|b" "abc")
  /\ (LIKE_ESCAPE_pipe chr_eq_nocase "abc" (GetLikeActualSearchTerm "a|b" StartsWith) = true
      /\ ~ occurs_as chr_eq_nocase StartsWith "a|b" "abc").
Proof.
  split; (split; [reflexivity|]); intros [mid [post [E Hm]]];
    (destruct mid as [|x1 mid]; [exact Hm|]); simpl in Hm; destruct Hm as [_ Hm];
    (destruct mid as [|x2 mid]; [exact Hm|]); simpl in Hm; destruct Hm as [H2 _];
    simpl in E; inversion E; subst; vm_compute in H2; discriminate H2.
Qed.

(** ** The recursive query *)

Section UnionFacts.

Variable Row : Type.
Variable Row_eq_dec : forall a b : Row, {a = b} + {a <> b}.

Local Abbreviation add := (union_add Row_eq_dec).

Lemma union_add_In produced : forall distinct x,
  In x (add distinct produced) <-> In x produced /\ ~ In x distinct.
Proof.
  induction produced as [|r rest IH]; intros distinct x; simpl; [tauto|].
  destruct (in_dec Row_eq_dec r distinct) as [Hin|Hnot].
  - rewrite IH. split; [tauto|]. intros [[E|H] Hn]; [subst; contradiction|tauto].
  - simpl. rewrite IH. simpl. split.
    + intros [E|[H Hn]]; [subst; tauto|tauto].
    + intros [[E|H] Hn]; [tauto|].
      destruct (Row_eq_dec r x) as [E|E]; [tauto|]. right. split; [exact H|]. tauto.
Qed.

Lemma union_add_NoDup produced : forall distinct, NoDup (add distinct produced).
Proof.
  induction produced as [|r rest IH]; intros distinct; simpl; [constructor|].
  destruct (in_dec Row_eq_dec r distinct) as [Hin|Hnot]; [apply IH|].
  constructor; [|apply IH]. rewrite union_add_In. simpl. tauto.
Qed.

Lemma NoDup_app_intro (a b : list Row) :
  NoDup a -> NoDup b -> (forall x, In x a -> ~ In x b) -> NoDup (a ++ b).
Proof.
  induction a as [|x a IH]; intros Ha Hb Hd; simpl; [exact Hb|].
  inversion Ha; subst. constructor.
  - rewrite in_app_iff. intros [H|H]; [contradiction|]. apply (Hd x); simpl; auto.
  - apply IH; auto. intros y Hy. apply Hd. simpl; auto.
Qed.

End UnionFacts.

Section RecursiveQueryFacts.

Variable Row : Type.
Variable Row_eq_dec : forall a b : Row, {a = b} + {a <> b}.
Variable recursive_select : Row -> list Row.

Local Abbreviation add := (union_add Row_eq_dec).
Local Abbreviation loop := (recursive_loop Row_eq_dec recursive_select).

(** The invariant of the loop: [processed] rows have left the queue,
    [distinct] is everything queued so far, and every row produced from a
    processed row has been queued. *)
Lemma recursive_loop_spec (universe : list Row) :
  (forall x y, In x universe -> In y (recursive_select x) -> In y universe) ->
  forall fuel queue processed offset,
    NoDup (processed ++ queue) ->
    incl (processed ++ queue) universe ->
    (List.length universe <= fuel + List.length processed)%nat ->
    (forall x y, In x processed -> In y (recursive_select x) -> In y (processed ++ queue)) ->
    exists extracted,
      loop fuel queue (processed ++ queue) offset = Some (skipn offset extracted)
      /\ (exists later, extracted = queue ++ later)
      /\ NoDup (processed ++ extracted)
      /\ incl (processed ++ extracted) universe
      /\ (forall x y, In x (processed ++ extracted) -> In y (recursive_select x) ->
                      In y (processed ++ extracted))
      /\ (forall R : Row -> Prop,
            (forall x y, R x -> In y (recursive_select x) -> R y) ->
            Forall R queue -> Forall R extracted).
Proof.
  intros Hclosed. induction fuel as [|fuel IH]; intros queue processed offset Hnd Hincl Hlen Hproc.
  - (* no fuel: the queue must be empty *)
    destruct queue as [|current rest].
    + exists []. rewrite app_nil_r in *. simpl. rewrite skipn_nil.
      split; [reflexivity|]. split; [exists []; reflexivity|].
      split; [exact Hnd|]. split; [exact Hincl|]. split; [exact Hproc|]. intros; constructor.
    + exfalso. pose proof (NoDup_incl_length Hnd Hincl) as Hle.
      rewrite length_app in Hle. simpl in Hle, Hlen. lia.
  - destruct queue as [|current rest].
    + exists []. rewrite app_nil_r in *. simpl. rewrite skipn_nil.
      split; [reflexivity|]. split; [exists []; reflexivity|].
      split; [exact Hnd|]. split; [exact Hincl|]. split; [exact Hproc|]. intros; constructor.
    + cbn [recursive_loop].
      set (fresh := add (processed ++ current :: rest) (recursive_select current)).
      assert (Hassoc : (processed ++ current :: rest) ++ fresh
                       = (processed ++ [current]) ++ (rest ++ fresh)).
      { rewrite <- !app_assoc. reflexivity. }
      assert (Hcur : In current universe).
      { apply Hincl. rewrite in_app_iff. simpl. auto. }
      assert (Hfresh : forall x, In x fresh ->
                In x (recursive_select current) /\ ~ In x (processed ++ current :: rest)).
      { intros x. unfold fresh. rewrite union_add_In. tauto. }
      destruct (IH (rest ++ fresh) (processed ++ [current]) (pred offset)) as [E [Hrun [[later Hlater] [Hnd' [Hincl' [Hclosed' HR]]]]]].
      * rewrite <- Hassoc. apply NoDup_app_intro; auto.
        -- apply union_add_NoDup.
        -- intros x Hx Hf. apply Hfresh in Hf. tauto.
      * rewrite <- Hassoc. intros x Hx. apply in_app_iff in Hx. destruct Hx as [Hx|Hx].
        -- apply Hincl. exact Hx.
        -- apply Hfresh in Hx. eapply Hclosed; [exact Hcur|tauto].
      * rewrite length_app. simpl. lia.
      * intros x y Hx Hy. rewrite <- Hassoc. rewrite in_app_iff in Hx.
        destruct Hx as [Hx|[Hx|[]]].
        -- rewrite in_app_iff. left. eapply Hproc; eassumption.
        -- subst x. destruct (in_dec Row_eq_dec y (processed ++ current :: rest)) as [Hin|Hnot].
           ++ rewrite in_app_iff. auto.
           ++ rewrite in_app_iff. right. unfold fresh. rewrite union_add_In. tauto.
      * assert (Hpe : processed ++ current :: E = (processed ++ [current]) ++ E).
        { rewrite <- app_assoc. reflexivity. }
        exists (current :: E). rewrite Hassoc, Hrun, Hpe.
        split; [destruct offset; reflexivity|].
        split; [exists (fresh ++ later); rewrite Hlater, <- app_assoc; reflexivity|].
        split; [exact Hnd'|]. split; [exact Hincl'|]. split; [exact Hclosed'|].
        intros R HRstep HRq. inversion HRq as [|? ? HRc HRrest]; subst.
        constructor; [exact HRc|]. apply HR; [exact HRstep|].
        apply Forall_app. split; [exact HRrest|].
        apply Forall_forall. intros x Hx. apply Hfresh in Hx.
        eapply HRstep; [exact HRc|tauto].
Qed.

End RecursiveQueryFacts.

Lemma on_some_true {B} (y : option B) test :
  on_some y test = true <-> exists b, y = Some b /\ test b = true.
Proof.
  destruct y as [b|]; simpl; split.
  - intros H. exists b. auto.
  - intros [b' [E H]]. inversion E; subst. exact H.
  - discriminate.
  - intros [b' [E _]]. discriminate.
Qed.

Section AllProductDependencies.

Import SourceDatabaseEntry JobDatabaseEntry ProductDatabaseEntry ProductDependencyDatabaseEntry.

Variable db : Database.

(** The recursive select produces the products one dependency edge away. *)
Lemma allProductDeps_recursive_select_edge p q :
  In q (allProductDeps_recursive_select db p) <-> depends_on db p q.
Proof.
  unfold allProductDeps_recursive_select, depends_on. rewrite in_map_iff. split.
  - intros [[[[[P deps] oj] os] od] [E Hrow]]. subst q.
    apply filter_In in Hrow. destruct Hrow as [Hin Hwhere].
    apply on_some_true in Hwhere. destruct Hwhere as [d [-> Hpk]].
    apply In_left_join_Some in Hin. destruct Hin as [Hin [Hd Hon]].
    apply andb_true_iff in Hon. destruct Hon as [Hguid Hsub].
    apply on_some_true in Hguid. destruct Hguid as [s [-> Hguid]].
    apply In_left_join_Some in Hin. destruct Hin as [Hin [Hs Hon]].
    apply on_some_true in Hon. destruct Hon as [j [-> Hsj]].
    apply In_left_join_Some in Hin. destruct Hin as [Hin [Hj Hjp]].
    apply In_inner_join in Hin. destruct Hin as [HP [Hdeps _]].
    destruct Hdeps as [Hdeps|[]]. subst deps.
    apply Z.eqb_eq in Hpk, Hsub, Hsj, Hjp. apply N.eqb_eq in Hguid.
    split; [exact HP|]. exists d, j, s. repeat split; auto.
  - intros [HP [d [j [s [Hd [Hj [Hs [Hpk [Hjp [Hsj [Hguid Hsub]]]]]]]]]]].
    exists (q, p, Some j, Some s, Some d). split; [reflexivity|].
    apply filter_In. split.
    + apply In_left_join_Some. split; [|split; [exact Hd|]].
      * apply In_left_join_Some. split; [|split; [exact Hs|]].
        -- apply In_left_join_Some. split; [|split; [exact Hj|]].
           ++ apply In_inner_join. simpl. auto.
           ++ apply Z.eqb_eq. exact Hjp.
        -- simpl. apply Z.eqb_eq. exact Hsj.
      * simpl. apply andb_true_iff. split; [apply N.eqb_eq|apply Z.eqb_eq]; assumption.
    + simpl. apply Z.eqb_eq. exact Hpk.
Qed.

Lemma depends_on_Products p q : depends_on db p q -> In q (Products db).
Proof. intros [H _]. exact H. Qed.

Hypothesis key : ProductID_is_key db.

(** The initial select yields the root row, if there is one. *)
Lemma initial_select_root root :
  union_add ProductDatabaseEntry.eq_dec []
    (filter (fun P => Z.eqb (m_productID P) root) (Products db)) = []
  /\ (forall r, In r (Products db) -> m_productID r <> root)
  \/ exists r, In r (Products db) /\ m_productID r = root
               /\ union_add ProductDatabaseEntry.eq_dec []
                    (filter (fun P => Z.eqb (m_productID P) root) (Products db)) = [r].
Proof.
  set (initial := filter (fun P => Z.eqb (m_productID P) root) (Products db)).
  assert (Hinit : forall x, In x initial <-> In x (Products db) /\ m_productID x = root).
  { intros x. unfold initial. rewrite filter_In, Z.eqb_eq. reflexivity. }
  pose proof (union_add_NoDup ProductDatabaseEntry.eq_dec initial []) as Hnd.
  pose proof (union_add_In ProductDatabaseEntry.eq_dec initial []) as Hin.
  destruct (union_add ProductDatabaseEntry.eq_dec [] initial) as [|r queue].
  - left. split; [reflexivity|]. intros r Hr E.
    apply (proj2 (Hin r)). split; [apply Hinit; auto|simpl; tauto].
  - right. exists r.
    assert (Hr : In r (Products db) /\ m_productID r = root).
    { apply Hinit. apply (Hin r). simpl. auto. }
    destruct Hr as [Hr Er]. split; [exact Hr|]. split; [exact Er|].
    destruct queue as [|r' queue]; [reflexivity|]. exfalso.
    assert (Hr' : In r' (Products db) /\ m_productID r' = root).
    { apply Hinit. apply (Hin r'). simpl. auto. }
    destruct Hr' as [Hr' Er'].
    assert (r = r') by (apply key; congruence). subst r'.
    inversion Hnd as [|? ? Hnot _]; subst. apply Hnot. simpl. auto.
Qed.

End AllProductDependencies.

Section RecursiveQueryFuel.

Variable Row : Type.
Variable Row_eq_dec : forall a b : Row, {a = b} + {a <> b}.
Variable recursive_select : Row -> list Row.

(** More fuel does not change a result. *)
Lemma recursive_loop_more_fuel fuel : forall queue distinct offset rows,
  recursive_loop Row_eq_dec recursive_select fuel queue distinct offset = Some rows ->
  forall fuel', (fuel <= fuel')%nat ->
  recursive_loop Row_eq_dec recursive_select fuel' queue distinct offset = Some rows.
Proof.
  induction fuel as [|fuel IH]; intros queue distinct offset rows H fuel' Hle;
    destruct queue as [|current rest]; try (destruct fuel'; exact H); try discriminate H.
  destruct fuel' as [|fuel']; [lia|]. cbn [recursive_loop] in *.
  destruct (recursive_loop Row_eq_dec recursive_select fuel _ _ _) as [later|] eqn:E;
    [|destruct offset; discriminate H].
  rewrite (IH _ _ _ _ E fuel') by lia. exact H.
Qed.

End RecursiveQueryFuel.

Lemma clos_trans_closed {A} (R : A -> A -> Prop) (P : A -> Prop) :
  (forall x y, P x -> R x y -> P y) ->
  forall x y, clos_trans A R x y -> P x -> P y.
Proof. intros Hstep x y H. induction H; eauto. Qed.

Section Closure.

Import ProductDatabaseEntry.

(** The rows of the recursive statement: found with fuel for one extraction
    per product, and unchanged by more fuel. *)
Lemma QUERY_ALL_PRODUCTDEPENDENCIES_rows (db : Database) (root : Z) :
  ProductID_is_key db ->
  exists rows,
    (forall fuel, (List.length (Products db) <= fuel)%nat ->
                  QUERY_ALL_PRODUCTDEPENDENCIES_STATEMENT db fuel root = Some rows)
    /\ NoDup rows
    /\ incl rows (Products db)
    /\ forall q, In q rows <-> reachable_from db root q /\ m_productID q <> root.
Proof.
  intros key.
  set (initial := filter (fun P => Z.eqb (m_productID P) root) (Products db)).
  set (queue := union_add ProductDatabaseEntry.eq_dec [] initial).
  assert (Hq : forall x, In x queue -> In x (Products db)).
  { intros x Hx. unfold queue in Hx. apply union_add_In in Hx.
    destruct Hx as [Hx _]. unfold initial in Hx. apply filter_In in Hx. tauto. }
  destruct (@recursive_loop_spec _ ProductDatabaseEntry.eq_dec
              (allProductDeps_recursive_select db) (Products db))
    with (fuel := List.length (Products db)) (queue := queue)
         (processed := @nil ProductDatabaseEntry.t) (offset := 1%nat)
    as [E [Hrun [[later Hlater] [Hnd [Hincl [Hclosed HR]]]]]].
  - intros x y _ Hy. apply allProductDeps_recursive_select_edge in Hy.
    eapply depends_on_Products; exact Hy.
  - apply union_add_NoDup.
  - exact Hq.
  - simpl. lia.
  - intros x y [].
  - simpl in Hrun, Hnd, Hincl, Hclosed.
    exists (skipn 1 E). split.
    { intros fuel Hfuel. unfold QUERY_ALL_PRODUCTDEPENDENCIES_STATEMENT, with_recursive_union.
      fold initial. fold queue. eapply recursive_loop_more_fuel; eassumption. }
    unfold queue in Hlater, HR.
    clearbody queue. subst E.
    destruct (initial_select_root key root) as [[Hempty Hnone]|[r [Hr [Er Hone]]]];
      fold initial in Hempty || fold initial in Hone.
    + (* no product has the id [root] *)
      rewrite Hempty in *. simpl in *.
      assert (HE : later = []).
      { specialize (HR (fun _ => False)).
        destruct later as [|x later]; [reflexivity|]. exfalso.
        assert (HF : Forall (fun _ : ProductDatabaseEntry.t => False) (x :: later))
          by (apply HR; [tauto|constructor]).
        inversion HF; assumption. }
      subst later. simpl. split; [constructor|]. split; [intros x []|].
      intros q. split; [intros []|].
      intros [[r [Hr [Er _]]] _]. exact (Hnone r Hr Er).
    + rewrite Hone in *. simpl in *.
      inversion Hnd as [|? ? Hnot Hnd']; subst.
      split; [exact Hnd'|]. split; [intros x Hx; apply Hincl; simpl; auto|].
      intros q. split.
      * intros Hq'.
        assert (HRq : q = r \/ clos_trans _ (depends_on db) r q).
        { specialize (HR (fun x => x = r \/ clos_trans _ (depends_on db) r x)).
          assert (HF : Forall (fun x => x = r \/ clos_trans _ (depends_on db) r x) (r :: later)).
          { apply HR; [|constructor; [left; reflexivity|constructor]].
            intros x y Hx Hy. apply allProductDeps_recursive_select_edge in Hy. right.
            destruct Hx as [->|Hx]; [apply t_step; exact Hy|].
            eapply t_trans; [exact Hx|apply t_step; exact Hy]. }
          rewrite Forall_forall in HF. apply HF. simpl; auto. }
        destruct HRq as [->|Hreach]; [contradiction|].
        split; [exists r; auto|].
        intros Eq. apply Hnot.
        assert (q = r) by (apply key; [apply Hincl; simpl; auto|exact Hr|congruence]).
        subst q. exact Hq'.
      * intros [[r' [Hr' [Er' Hreach]]] Hne].
        assert (r' = r) by (apply key; [exact Hr'|exact Hr|congruence]). subst r'.
        assert (Hin : In q (r :: later)).
        { apply (clos_trans_closed (R := depends_on db) (fun x => In x (r :: later))) with (x := r);
            [|exact Hreach|simpl; auto].
          intros x y Hx Hy. apply (Hclosed x y Hx).
          apply allProductDeps_recursive_select_edge. exact Hy. }
        destruct Hin as [->|Hin]; [contradiction|exact Hin].
Qed.


End Closure.

Lemma cycle_Database_key : ProductID_is_key cycle_Database.
Proof.
  intros p q Hp Hq E. simpl in Hp, Hq.
  destruct Hp as [<-|[<-|[<-|[]]]]; destruct Hq as [<-|[<-|[<-|[]]]];
    try reflexivity; simpl in E; discriminate E.
Qed.


(** * Further properties *)

(** ** Filtering in memory *)

Lemma observable_after_step {E St} (o : Outcome E St) :
  observable (after_step o) = observable o.
Proof. reflexivity. Qed.

Lemma observable_after_delivery {E St} (e : E) (o o' : Outcome E St) :
  observable o = observable o' ->
  observable (after_delivery e o) = observable (after_delivery e o').
Proof. unfold observable. simpl. intros H. inversion H. reflexivity. Qed.

Lemma observable_leave_loop {E St} fails (s : St) :
  observable (@leave_loop E St (end_status fails) true s) = (negb fails, s, []).
Proof. destruct fails; reflexivity. Qed.

Lemma steps_leave_loop {E St} result validResult (s : St) :
  steps (@leave_loop E St result validResult s) = 0%nat.
Proof. destruct result; reflexivity. Qed.

Lemma steps_after_step {E St} (o : Outcome E St) : steps (after_step o) = S (steps o).
Proof. reflexivity. Qed.

Section GetJobResultFilter.

Variable St : Type.

Local Abbreviation jobs_loop := (GetJobResult_while (St := St) (@Some JobDatabaseEntry.t)).
Local Abbreviation rows_loop := (GetResult_while (St := St) (@Some JobDatabaseEntry.t)).

Lemma GetJobResult_while_filter fails g k st pending : forall current h s,
  observable (jobs_loop fails current pending h g k st s)
  = match filter (job_matches k g st) (current :: pending) with
    | [] => (negb fails, s, [])
    | first :: rest => observable (rows_loop fails first rest h s)
    end.
Proof.
  induction pending as [|next pending IH]; intros current h s.
  - cbn [filter GetJobResult_while]. fold (job_matches k g st current).
    destruct (job_matches k g st current).
    + cbn [GetResult_while]. reflexivity.
    + rewrite observable_after_step. apply observable_leave_loop.
  - cbn [GetJobResult_while]. fold (job_matches k g st current).
    change (filter (job_matches k g st) (current :: next :: pending))
      with (if job_matches k g st current
            then current :: filter (job_matches k g st) (next :: pending)
            else filter (job_matches k g st) (next :: pending)).
    destruct (job_matches k g st current).
    + specialize (IH next h).
      destruct (filter (job_matches k g st) (next :: pending)) as [|first rest];
        cbn [GetResult_while]; (destruct (h current s) as [[] s']; [|reflexivity]);
        apply observable_after_delivery; rewrite !observable_after_step, IH;
        [symmetry; apply observable_leave_loop|reflexivity].
    + rewrite observable_after_step. apply IH.
Qed.

Lemma GetJobResult_while_steps fails g k st pending : forall current h s,
  (match filter (job_matches k g st) (current :: pending) with
   | [] => 0
   | first :: rest => steps (rows_loop fails first rest h s)
   end <= steps (jobs_loop fails current pending h g k st s))%nat.
Proof.
  induction pending as [|next pending IH]; intros current h s.
  - cbn [filter GetJobResult_while]. fold (job_matches k g st current).
    destruct (job_matches k g st current).
    + cbn [GetResult_while]. apply le_n.
    + apply Nat.le_0_l.
  - cbn [GetJobResult_while]. fold (job_matches k g st current).
    change (filter (job_matches k g st) (current :: next :: pending))
      with (if job_matches k g st current
            then current :: filter (job_matches k g st) (next :: pending)
            else filter (job_matches k g st) (next :: pending)).
    destruct (job_matches k g st current).
    + specialize (IH next h).
      destruct (filter (job_matches k g st) (next :: pending)) as [|first rest];
        cbn [GetResult_while]; (destruct (h current s) as [[] s']; [|apply le_n]);
        specialize (IH s'); simpl in *; rewrite ?steps_leave_loop; lia.
    + specialize (IH next h s). rewrite steps_after_step.
      destruct (filter (job_matches k g st) (next :: pending)); lia.
Qed.

End GetJobResultFilter.

Lemma GetJobResult_while_simple {St} fails pending :
  forall current (h : Handler JobDatabaseEntry.t St) s,
  GetJobResult_while (@Some _) fails current pending h 0%N None JobStatus_Any s
  = GetResult_while (@Some _) fails current pending h s.
Proof.
  induction pending as [|next pending IH]; intros current h s; simpl; [reflexivity|].
  destruct (h current s) as [[] s']; [|reflexivity].
  rewrite IH. reflexivity.
Qed.

(** What the caller observes of [GetJobResult] is what [GetResult] gives on
    the rows that pass the criteria. *)
Lemma GetJobResult_observable (St : Type) (statement : Statement JobDatabaseEntry.t)
  (handler : Handler JobDatabaseEntry.t St) (builderGuid : Uuid) (jobKey : option string)
  (status : JobStatus) (s : St) :
  observable (GetJobResult (@Some _) statement handler builderGuid jobKey status s)
  = observable
      (GetResult (@Some _)
         (mkStatement (filter (job_matches jobKey builderGuid status) (stmt_rows statement))
            (stmt_fails statement))
         handler s).
Proof.
  unfold GetJobResult, GetResult. cbn [stmt_rows stmt_fails].
  destruct (stmt_rows statement) as [|first pending]; [reflexivity|].
  rewrite !observable_after_step, GetJobResult_while_filter.
  destruct (filter _ (first :: pending)); [|reflexivity].
  destruct (stmt_fails statement); reflexivity.
Qed.

(** X1: the optional criteria of [GetJobResult] act as a filter on the
    rows of the statement.  What the caller observes (the boolean
    returned, the state of its handler, the jobs the handler was given) is
    what [GetResult] would give on a statement that yields only the rows
    that pass [ResultMatchesJobCriteria]; only the number of calls of
    [Step] differs, and it is never smaller.  With the default criteria
    ([GetJobResultSimple]) nothing is filtered out. *)
Theorem GetJobResult_filters_in_memory (St : Type) (statement : Statement JobDatabaseEntry.t)
  (handler : Handler JobDatabaseEntry.t St) (builderGuid : Uuid) (jobKey : option string)
  (status : JobStatus) (s : St) :
  let filtered :=
    mkStatement (filter (job_matches jobKey builderGuid status) (stmt_rows statement))
      (stmt_fails statement) in
  observable (GetJobResult (@Some _) statement handler builderGuid jobKey status s)
  = observable (GetResult (@Some _) filtered handler s)
  /\ (steps (GetResult (@Some _) filtered handler s)
      <= steps (GetJobResult (@Some _) statement handler builderGuid jobKey status s))%nat
  /\ GetJobResultSimple (@Some _) statement handler s
     = GetResult (@Some _) statement handler s.
Proof.
  intros filtered. subst filtered. split; [apply GetJobResult_observable|].
  unfold GetJobResultSimple, GetJobResult, GetResult. cbn [stmt_rows stmt_fails].
  destruct (stmt_rows statement) as [|first pending].
  - split; [apply le_n|reflexivity].
  - split.
    + rewrite !steps_after_step.
      pose proof (GetJobResult_while_steps (stmt_fails statement) builderGuid jobKey status
                    pending first handler s) as H.
      destruct (filter _ (first :: pending)); [|lia].
      rewrite steps_leave_loop. lia.
    + rewrite GetJobResult_while_simple. reflexivity.
Qed.

(** ** The locals of [GetProductResult] *)

Lemma ResultMatchesJobCriteria_unused k g st sk sg ss sk' sg' ss' :
  (k <> None -> sk = sk') ->
  (Uuid_IsNull g = false -> sg = sg') ->
  (Z.eqb st JobStatus_Any = false -> ss = ss') ->
  ResultMatchesJobCriteria k g st sk sg ss = ResultMatchesJobCriteria k g st sk' sg' ss'.
Proof.
  intros Hk Hg Hs. unfold ResultMatchesJobCriteria.
  destruct k as [key|]; [rewrite Hk by discriminate|];
    (destruct (Uuid_IsNull g); [|rewrite Hg by reflexivity]);
    (destruct (Z.eqb st JobStatus_Any); [|rewrite Hs by reflexivity]); reflexivity.
Qed.

Section GetProductResultLocals.

Variables Row St : Type.
Variable Fetch_product : Row -> option ProductDatabaseEntry.t.
Variable Fetch_JobKey : Row -> option string.
Variable Fetch_BuilderGuid : Row -> option Uuid.
Variable Fetch_Status : Row -> option Z.

Local Abbreviation loop :=
  (GetProductResult_while (St := St) Fetch_product Fetch_JobKey Fetch_BuilderGuid Fetch_Status).

Lemma GetProductResult_while_saved fails g k st pending :
  forall current saved saved' (h : Handler ProductDatabaseEntry.t St) s,
  loop fails current pending saved h g k st s = loop fails current pending saved' h g k st s.
Proof.
  induction pending as [|next pending IH];
    intros current [[sk sg] ss] [[sk' sg'] ss'] h s; cbn [GetProductResult_while].
  - destruct k as [key|]; [destruct (Fetch_JobKey current) as [fk|]; [|reflexivity]|];
      (destruct (Uuid_IsNull g) eqn:Eg; cbn [negb];
       [|destruct (Fetch_BuilderGuid current) as [fg|]; [|reflexivity]]);
      (destruct (Z.eqb st JobStatus_Any) eqn:Es; cbn [negb];
       [|destruct (Fetch_Status current) as [fs|]; [|reflexivity]]);
      first [ reflexivity
            | erewrite ResultMatchesJobCriteria_unused;
              [reflexivity | intros; congruence | intros; congruence | intros; congruence] ].
  - destruct k as [key|]; [destruct (Fetch_JobKey current) as [fk|]; [|reflexivity]|];
      (destruct (Uuid_IsNull g) eqn:Eg; cbn [negb];
       [|destruct (Fetch_BuilderGuid current) as [fg|]; [|reflexivity]]);
      (destruct (Z.eqb st JobStatus_Any) eqn:Es; cbn [negb];
       [|destruct (Fetch_Status current) as [fs|]; [|reflexivity]]);
      match goal with
      | |- (if ResultMatchesJobCriteria ?key _ _ ?a ?b ?c then _ else _)
           = (if ResultMatchesJobCriteria _ _ _ ?a' ?b' ?c' then _ else _) =>
          let E := fresh "E" in
          assert (E : ResultMatchesJobCriteria key g st a b c
                      = ResultMatchesJobCriteria key g st a' b' c')
            by (apply ResultMatchesJobCriteria_unused; intros; congruence);
          try rewrite E; clear E;
          destruct (ResultMatchesJobCriteria _ g st a' b' c');
          [ destruct (Fetch_product current) as [product|]; [|reflexivity];
            destruct (h product s) as [[] s']; [|reflexivity]
          | ];
          first [reflexivity | rewrite (IH next (a, b, c) (a', b', c')); reflexivity]
      end.
Qed.

End GetProductResultLocals.

(** X2: the result of [GetProductResult] does not depend on what the
    locals [savedBuilderGuid] and [savedJobStatus] hold before the first
    row is read: a criterion that is in use is fetched from every row
    before it is compared, and one that is not in use is not compared. *)
Theorem GetProductResult_ignores_uninitialised_locals (Row St : Type)
  (Fetch_product : Row -> option ProductDatabaseEntry.t)
  (Fetch_JobKey : Row -> option string) (Fetch_BuilderGuid : Row -> option Uuid)
  (Fetch_Status : Row -> option Z)
  (uninitialised uninitialised' : Uuid * Z) (statement : Statement Row)
  (handler : Handler ProductDatabaseEntry.t St)
  (builderGuid : Uuid) (jobKey : option string) (status : JobStatus) (s : St) :
  GetProductResult Fetch_product Fetch_JobKey Fetch_BuilderGuid Fetch_Status
    uninitialised statement handler builderGuid jobKey status s
  = GetProductResult Fetch_product Fetch_JobKey Fetch_BuilderGuid Fetch_Status
      uninitialised' statement handler builderGuid jobKey status s.
Proof.
  unfold GetProductResult. destruct (stmt_rows statement) as [|first pending]; [reflexivity|].
  f_equal. apply GetProductResult_while_saved.
Qed.

Lemma filter_head {A} (f : A -> bool) (a : A) (l : list A) :
  filter f (a :: l) = if f a then a :: filter f l else filter f l.
Proof. reflexivity. Qed.

Section GetProductResultFilter.

Variable St : Type.

Local Abbreviation products_loop :=
  (GetProductResult_while (St := St) Fetch_product_columns Fetch_JobKey_column
     Fetch_BuilderGuid_column Fetch_Status_column).
Local Abbreviation rows_loop := (GetResult_while (St := St) Fetch_product_columns).

Lemma GetProductResult_while_filter fails g k st pending : forall current saved h s,
  observable (products_loop fails current pending saved h g k st s)
  = match filter (fun row => job_matches k g st (fst row)) (current :: pending) with
    | [] => (negb fails, s, [])
    | first :: rest => observable (rows_loop fails first rest h s)
    end.
Proof.
  assert (Hsaved : forall (current : ProductAndJob) sk sg ss,
    ResultMatchesJobCriteria k g st
      (match k with Some _ => JobDatabaseEntry.m_jobKey (fst current) | None => sk end)
      (if negb (Uuid_IsNull g) then JobDatabaseEntry.m_builderGuid (fst current) else sg)
      (if negb (Z.eqb st JobStatus_Any) then JobDatabaseEntry.m_status (fst current) else ss)
    = job_matches k g st (fst current)).
  { intros current sk sg ss. unfold job_matches.
    apply ResultMatchesJobCriteria_unused.
    - destruct k; [reflexivity|congruence].
    - intros ->. reflexivity.
    - intros ->. reflexivity. }
  induction pending as [|next pending IH]; intros current [[sk sg] ss] h s.
  - cbn [filter GetProductResult_while].
    unfold Fetch_JobKey_column, Fetch_BuilderGuid_column, Fetch_Status_column.
    specialize (Hsaved current sk sg ss).
    destruct k; destruct (negb (Uuid_IsNull g)); destruct (negb (Z.eqb st JobStatus_Any));
      rewrite Hsaved; (destruct (job_matches _ g st (fst current));
      [ cbn [GetResult_while]; reflexivity
      | rewrite observable_after_step; apply observable_leave_loop ]).
  - rewrite filter_head.
    cbn [GetProductResult_while].
    change (Fetch_JobKey_column current) with (Some (JobDatabaseEntry.m_jobKey (fst current))).
    change (Fetch_BuilderGuid_column current)
      with (Some (JobDatabaseEntry.m_builderGuid (fst current))).
    change (Fetch_Status_column current) with (Some (JobDatabaseEntry.m_status (fst current))).
    change (Fetch_product_columns current) with (Some (snd current)).
    specialize (Hsaved current sk sg ss).
    destruct k; destruct (negb (Uuid_IsNull g)); destruct (negb (Z.eqb st JobStatus_Any));
      rewrite Hsaved; (destruct (job_matches _ g st (fst current));
      [ match goal with
        | |- context [filter ?f (next :: pending)] =>
            specialize (IH next); destruct (filter f (next :: pending)) as [|first rest]
        end;
        cbn [GetResult_while];
        change (Fetch_product_columns current) with (Some (snd current)); cbv iota beta;
        (destruct (h (snd current) s) as [[] s']; [|reflexivity]);
        apply observable_after_delivery; rewrite !observable_after_step, IH;
        [symmetry; apply observable_leave_loop|reflexivity]
      | rewrite observable_after_step; apply IH ]).
Qed.

Lemma GetProductResult_while_steps fails g k st pending : forall current saved h s,
  (match filter (fun row => job_matches k g st (fst row)) (current :: pending) with
   | [] => 0
   | first :: rest => steps (rows_loop fails first rest h s)
   end <= steps (products_loop fails current pending saved h g k st s))%nat.
Proof.
  assert (Hsaved : forall (current : ProductAndJob) sk sg ss,
    ResultMatchesJobCriteria k g st
      (match k with Some _ => JobDatabaseEntry.m_jobKey (fst current) | None => sk end)
      (if negb (Uuid_IsNull g) then JobDatabaseEntry.m_builderGuid (fst current) else sg)
      (if negb (Z.eqb st JobStatus_Any) then JobDatabaseEntry.m_status (fst current) else ss)
    = job_matches k g st (fst current)).
  { intros current sk sg ss. unfold job_matches.
    apply ResultMatchesJobCriteria_unused.
    - destruct k; [reflexivity|congruence].
    - intros ->. reflexivity.
    - intros ->. reflexivity. }
  induction pending as [|next pending IH]; intros current [[sk sg] ss] h s.
  - cbn [filter GetProductResult_while].
    unfold Fetch_JobKey_column, Fetch_BuilderGuid_column, Fetch_Status_column.
    specialize (Hsaved current sk sg ss).
    destruct k; destruct (negb (Uuid_IsNull g)); destruct (negb (Z.eqb st JobStatus_Any));
      rewrite Hsaved; (destruct (job_matches _ g st (fst current));
      [ cbn [GetResult_while]; apply le_n | apply Nat.le_0_l ]).
  - rewrite filter_head.
    cbn [GetProductResult_while].
    change (Fetch_JobKey_column current) with (Some (JobDatabaseEntry.m_jobKey (fst current))).
    change (Fetch_BuilderGuid_column current)
      with (Some (JobDatabaseEntry.m_builderGuid (fst current))).
    change (Fetch_Status_column current) with (Some (JobDatabaseEntry.m_status (fst current))).
    change (Fetch_product_columns current) with (Some (snd current)).
    specialize (Hsaved current sk sg ss).
    destruct k; destruct (negb (Uuid_IsNull g)); destruct (negb (Z.eqb st JobStatus_Any));
      rewrite Hsaved; (destruct (job_matches _ g st (fst current));
      [ match goal with
        | |- context [filter ?f (next :: pending)] =>
            specialize (IH next); destruct (filter f (next :: pending)) as [|first rest]
        end;
        cbn [GetResult_while];
        change (Fetch_product_columns current) with (Some (snd current)); cbv iota beta;
        (destruct (h (snd current) s) as [[] s']; [|apply le_n]);
        match goal with
        | |- context [products_loop fails next pending ?saved h g _ st s'] =>
            specialize (IH saved h s')
        end;
        cbn [steps after_delivery after_step] in *; rewrite ?steps_leave_loop; lia
      | rewrite steps_after_step;
        match goal with
        | |- context [products_loop fails next pending ?saved h g _ st s] =>
            specialize (IH next saved h s)
        end;
        match goal with
        | |- context [filter ?f (next :: pending)] =>
            destruct (filter f (next :: pending)); lia
        end ]).
Qed.

End GetProductResultFilter.

(** What the caller observes of [GetProductResult] on the rows of a
    product statement is what [GetResult] gives on the rows whose job
    passes the criteria. *)
Lemma GetProductResult_of_rows_observable (St : Type) (uninitialised : Uuid * Z)
  (statement : Statement ProductAndJob) (handler : Handler ProductDatabaseEntry.t St)
  (builderGuid : Uuid) (jobKey : option string) (status : JobStatus) (s : St) :
  observable
    (GetProductResult_of_rows uninitialised statement handler builderGuid jobKey status s)
  = observable
      (GetResult Fetch_product_columns
         (mkStatement
            (filter (fun row => job_matches jobKey builderGuid status (fst row))
               (stmt_rows statement))
            (stmt_fails statement))
         handler s).
Proof.
  unfold GetProductResult_of_rows, GetProductResult, GetResult. cbn [stmt_rows stmt_fails].
  destruct (stmt_rows statement) as [|first pending]; [reflexivity|].
  rewrite !observable_after_step, GetProductResult_while_filter.
  match goal with |- context [filter ?f (first :: pending)] =>
    destruct (filter f (first :: pending)); [|reflexivity] end.
  destruct (stmt_fails statement); reflexivity.
Qed.

(** X3: [GetProductResult], on the rows of a product statement, hands to
    the handler the products of the rows whose job passes
    [ResultMatchesJobCriteria]: the caller observes what [GetResult] would
    give on a statement that yields only those rows; only the number of
    calls of [Step] differs, and it is never smaller. *)
Theorem GetProductResult_filters_in_memory (St : Type) (uninitialised : Uuid * Z)
  (statement : Statement ProductAndJob) (handler : Handler ProductDatabaseEntry.t St)
  (builderGuid : Uuid) (jobKey : option string) (status : JobStatus) (s : St) :
  let filtered :=
    mkStatement
      (filter (fun row => job_matches jobKey builderGuid status (fst row))
         (stmt_rows statement))
      (stmt_fails statement) in
  observable
    (GetProductResult_of_rows uninitialised statement handler builderGuid jobKey status s)
  = observable (GetResult Fetch_product_columns filtered handler s)
  /\ (steps (GetResult Fetch_product_columns filtered handler s)
      <= steps (GetProductResult_of_rows uninitialised statement handler builderGuid jobKey
                  status s))%nat.
Proof.
  intros filtered. subst filtered. split; [apply GetProductResult_of_rows_observable|].
  unfold GetProductResult_of_rows, GetProductResult, GetResult. cbn [stmt_rows stmt_fails].
  destruct (stmt_rows statement) as [|first pending]; [apply le_n|].
  rewrite !steps_after_step.
  pose proof (GetProductResult_while_steps (stmt_fails statement) builderGuid jobKey status
                pending first ("", fst uninitialised, snd uninitialised) handler s) as H.
  unfold ProductAndJob in *. revert H.
  match goal with |- context [filter ?f (first :: pending)] =>
    destruct (filter f (first :: pending)); intros H; [|lia] end.
  rewrite steps_leave_loop. lia.
Qed.

(** ** Queries with optional criteria *)

Lemma GetResult_total_all {Row E St} (f : Row -> E) (rows : list Row) fails
  (h : Handler E St) s :
  (forall e s, fst (h e s) = true) ->
  ret (GetResult (fun r => Some (f r)) (mkStatement rows fails) h s) = negb fails
  /\ delivered (GetResult (fun r => Some (f r)) (mkStatement rows fails) h s) = map f rows.
Proof.
  intros Hh.
  destruct (GetResult_all (fun r => Some (f r)) (mkStatement rows fails) h s Hh) as [Hd Hr].
  - apply Forall_forall. intros r _. discriminate.
  - split; [exact Hr|]. cbn [stmt_rows] in Hd. apply map_Some_inj.
    rewrite <- Hd, map_map. reflexivity.
Qed.

Lemma GetResult_Some_all {E St} (rows : list E) fails (h : Handler E St) s :
  (forall e s, fst (h e s) = true) ->
  ret (GetResult (@Some _) (mkStatement rows fails) h s) = negb fails
  /\ delivered (GetResult (@Some _) (mkStatement rows fails) h s) = rows.
Proof.
  intros Hh. destruct (GetResult_total_all (fun e : E => e) rows fails h s Hh) as [Hr Hd].
  rewrite map_id in Hd. split; assumption.
Qed.

Lemma filter_twice {A} (f g : A -> bool) (l : list A) :
  filter f (filter g l) = filter (fun x => g x && f x) l.
Proof.
  induction l as [|a l IH]; simpl; [reflexivity|].
  destruct (g a); simpl; [destruct (f a)|]; rewrite IH; reflexivity.
Qed.

Lemma observable_ret_delivered {E St} (o o' : Outcome E St) :
  observable o = observable o' -> ret o = ret o' /\ delivered o = delivered o'.
Proof. unfold observable. intros H. inversion H. auto. Qed.

(** A job statement whose rows go to [GetJobResult], on a store that
    reports no error and with a handler that takes every row. *)
Lemma job_rows_delivered (c : Store) (St : Type) name (rows : list JobDatabaseEntry.t)
  (h : Handler JobDatabaseEntry.t St) g k st s :
  fault c name = NoFault ->
  (forall e s, fst (h e s) = true) ->
  let o := BindAndQuery (Bind c name rows)
             (fun statement handler => GetJobResult (@Some _) statement handler g k st) h s in
  ret o = true /\ delivered o = filter (job_matches k g st) rows.
Proof.
  intros Hf Hh o. subst o. rewrite (Bind_NoFault _ _ _ Hf). unfold BindAndQuery.
  pose proof (GetJobResult_observable (mkStatement rows false) h g k st s) as Hobs.
  apply observable_ret_delivered in Hobs. destruct Hobs as [Hr Hd]. rewrite Hr, Hd.
  cbn [stmt_rows stmt_fails]. apply GetResult_Some_all. exact Hh.
Qed.



(** A product statement whose rows go to [GetProductResult]. *)
Lemma product_rows_delivered (c : Store) (u : Uuid * Z) (St : Type) name
  (rows : list ProductAndJob) (h : Handler ProductDatabaseEntry.t St) g k st s :
  fault c name = NoFault ->
  (forall e s, fst (h e s) = true) ->
  let o := BindAndQuery (Bind c name rows)
             (fun statement handler => GetProductResult_of_rows u statement handler g k st)
             h s in
  ret o = true
  /\ delivered o = map snd (filter (fun row => job_matches k g st (fst row)) rows).
Proof.
  intros Hf Hh o. subst o. rewrite (Bind_NoFault _ _ _ Hf). unfold BindAndQuery.
  pose proof (GetProductResult_of_rows_observable u (mkStatement rows false) h g k st s)
    as Hobs.
  apply observable_ret_delivered in Hobs. destruct Hobs as [Hr Hd]. rewrite Hr, Hd.
  cbn [stmt_rows stmt_fails]. apply (GetResult_total_all (@snd _ _)). exact Hh.
Qed.

Lemma In_from_Jobs_Products db j p :
  In (j, p) (from_Jobs_Products db)
  <-> In j (Jobs db) /\ In p (Products db)
      /\ JobDatabaseEntry.m_jobID j = ProductDatabaseEntry.m_jobPK p.
Proof. unfold from_Jobs_Products. rewrite In_inner_join, Z.eqb_eq. reflexivity. Qed.

Lemma In_QUERY_PRODUCTS_TABLE db j p :
  In (j, p) (QUERY_PRODUCTS_TABLE_STATEMENT db)
  <-> In j (Jobs db) /\ In p (Products db)
      /\ JobDatabaseEntry.m_jobID j = ProductDatabaseEntry.m_jobPK p.
Proof.
  unfold QUERY_PRODUCTS_TABLE_STATEMENT. rewrite in_map_iff. split.
  - intros [[p' j'] [E H]]. inversion E; subst. apply In_inner_join in H.
    rewrite Z.eqb_eq in H. intuition congruence.
  - intros [Hj [Hp E]]. exists (p, j). split; [reflexivity|].
    apply In_inner_join. rewrite Z.eqb_eq. auto.
Qed.

Lemma In_map_snd_filter {A B} (f : A * B -> bool) (rows : list (A * B)) b :
  In b (map snd (filter f rows)) <-> exists a, In (a, b) rows /\ f (a, b) = true.
Proof.
  rewrite in_map_iff. split.
  - intros [[a b'] [E H]]. simpl in E. subst b'. apply filter_In in H. exists a. exact H.
  - intros [a H]. exists (a, b). split; [reflexivity|]. apply filter_In. exact H.
Qed.



(** ** The builder table *)

Lemma QueryBuilderInfoTable_while_GetResult {Row St} (Fetch : Row -> option BuilderInfoEntry.t)
  fails pending : forall current (h : Handler BuilderInfoEntry.t St) s,
  QueryBuilderInfoTable_while Fetch fails current pending h s
  = GetResult_while Fetch fails current pending h s.
Proof.
  induction pending as [|next pending IH]; intros current h s; simpl.
  - reflexivity.
  - destruct (Fetch current) as [entry|]; [|reflexivity].
    destruct (h entry s) as [[] s']; [|reflexivity].
    rewrite IH. reflexivity.
Qed.

(** X6: the loop that [QueryBuilderInfoTable] writes out by hand behaves
    as [BindAndQuery] with [GetResult] does, on every statement and for
    every handler: the same boolean, the same entries handed over, the
    same number of calls of [Step] (leaving the loop with [break] and
    leaving it with [result = SqlDone] come to the same). *)
Theorem QueryBuilderInfoTable_is_GetResult (Row St : Type)
  (Fetch : Row -> option BuilderInfoEntry.t) (bound : option (Statement Row))
  (handler : Handler BuilderInfoEntry.t St) (s : St) :
  QueryBuilderInfoTable Fetch bound handler s
  = BindAndQuery bound (GetResult Fetch) handler s.
Proof.
  unfold QueryBuilderInfoTable, BindAndQuery, GetResult.
  destruct bound as [statement|]; [|reflexivity].
  destruct (stmt_rows statement) as [|first pending].
  - destruct (stmt_fails statement); reflexivity.
  - rewrite QueryBuilderInfoTable_while_GetResult. reflexivity.
Qed.

(** ** The version of the database *)

Lemma last_cons {A} (a d : A) (l : list A) : last (a :: l) d = last l a.
Proof.
  revert a d; induction l as [|b l IH]; intros a d; [reflexivity|].
  change (last (a :: b :: l) d) with (last (b :: l) d).
  rewrite (IH b d), (IH b a). reflexivity.
Qed.

Lemma GetResult_while_last {E St} (f : E -> St) fails pending : forall current s,
  let o := GetResult_while (@Some E) fails current pending (fun e _ => (true, f e)) s in
  ret o = negb fails /\ captured o = f (last pending current).
Proof.
  induction pending as [|next pending IH]; intros current s.
  - destruct fails; split; reflexivity.
  - specialize (IH next (f current)). cbn zeta in *. cbn [GetResult_while].
    rewrite ret_after_delivery, ret_after_step.
    destruct IH as [Hr Hc]. split; [exact Hr|].
    rewrite last_cons. cbn [captured after_delivery after_step]. exact Hc.
Qed.

(** X7: [QueryDatabaseVersion] returns [DatabaseDoesNotExist] when the
    statement over [dbinfo] cannot be bound or stepping it reports an
    error; when the store reports no error it returns the version of the
    last row of [dbinfo]; and when [dbinfo] then has no row at all, it
    returns the local [dbVersion] as it was declared, never assigned. *)
Theorem QueryDatabaseVersion_reads_last_row
  (DatabaseDoesNotExist uninitialised_dbVersion : DatabaseVersion) (c : Store) :
  let version := QueryDatabaseVersion DatabaseDoesNotExist uninitialised_dbVersion c in
  (fault c QUERY_DATABASEINFO_TABLE <> NoFault -> version = DatabaseDoesNotExist)
  /\ (fault c QUERY_DATABASEINFO_TABLE = NoFault ->
      (dbinfo (tables c) = [] -> version = uninitialised_dbVersion)
      /\ forall rows e, dbinfo (tables c) = rows ++ [e] ->
                        version = DatabaseInfoEntry.m_version e).
Proof.
  intros version. subst version.
  unfold QueryDatabaseVersion, QueryDatabaseInfoTable, QUERY_DATABASEINFO_TABLE_STATEMENT, Bind.
  destruct (fault c QUERY_DATABASEINFO_TABLE) as [| |n] eqn:Hf; split;
    try (intros H; congruence); try (intros _).
  - (* no error *)
    unfold BindAndQuery, GetResult. cbn [stmt_rows stmt_fails]. split.
    + intros ->. reflexivity.
    + intros rows e ->. destruct (rows ++ [e]) as [|first pending] eqn:E.
      { destruct rows; discriminate E. }
      rewrite ret_after_step.
      destruct (GetResult_while_last DatabaseInfoEntry.m_version false pending first
                  uninitialised_dbVersion) as [Hr Hc].
      rewrite Hr. cbn [negb]. cbn [captured after_step]. rewrite Hc.
      rewrite <- (last_cons first first), <- E. f_equal. apply last_last.
  - (* the statement cannot be bound *)
    reflexivity.
  - (* stepping fails after [n] rows *)
    unfold BindAndQuery, GetResult. cbn [stmt_rows stmt_fails].
    rewrite ret_after_step.
    destruct (firstn n (dbinfo (tables c))) as [|first pending]; [reflexivity|].
    destruct (GetResult_while_last DatabaseInfoEntry.m_version true pending first
                uninitialised_dbVersion) as [Hr _].
    rewrite Hr. reflexivity.
Qed.

Lemma QueryDatabaseVersion_reads_last_row_witness :
  QueryDatabaseVersion 0 (-7)
    (mkStore (mkDatabase [DatabaseInfoEntry.Build 1 5; DatabaseInfoEntry.Build 2 6]
                [] [] [] [] [] [])
       EXPECTED_TABLES no_fault) = 6
  /\ QueryDatabaseVersion 0 (-7) empty_Store = -7.
Proof.
  split.
  - destruct (QueryDatabaseVersion_reads_last_row 0 (-7)
                (mkStore (mkDatabase [DatabaseInfoEntry.Build 1 5; DatabaseInfoEntry.Build 2 6]
                            [] [] [] [] [] [])
                   EXPECTED_TABLES no_fault)) as [_ H].
    destruct (H eq_refl) as [_ Hlast].
    exact (Hlast [DatabaseInfoEntry.Build 1 5] (DatabaseInfoEntry.Build 2 6) eq_refl).
  - destruct (QueryDatabaseVersion_reads_last_row 0 (-7) empty_Store) as [_ H].
    destruct (H eq_refl) as [Hempty _]. exact (Hempty eq_refl).
Defined.

(** ** The fingerprint of a source *)

Lemma hd_error_filter_find {A} (f : A -> bool) (l : list A) :
  hd_error (filter f l) = find f l.
Proof.
  induction l as [|a l IH]; simpl; [reflexivity|].
  destruct (f a); [reflexivity|exact IH].
Qed.

(** X8: [QuerySourceAnalysisFingerprint] steps its statement once.  When
    the store reports no error it returns true, and [outFingerprint]
    holds the fingerprint of the first source with the given name in the
    given scan folder, or is empty when there is none; so an absent source
    and a source whose fingerprint is empty are not told apart.  When the
    statement cannot be bound, or the first step fails, it returns false
    and [outFingerprint] is empty.  What [outFingerprint] held before the
    call never matters. *)
Theorem QuerySourceAnalysisFingerprint_first_match (c : Store) (exactSourceName : string)
  (scanFolderID : Z) (outFingerprint : string) :
  let matching s :=
    String.eqb (SourceDatabaseEntry.m_sourceName s) exactSourceName
    && Z.eqb (SourceDatabaseEntry.m_scanFolderPK s) scanFolderID in
  let found :=
    match find matching (Sources (tables c)) with
    | Some s => SourceDatabaseEntry.m_analysisFingerprint s
    | None => ""
    end in
  let result := QuerySourceAnalysisFingerprint c exactSourceName scanFolderID outFingerprint in
  (fault c QUERY_SOURCE_ANALYSISFINGERPRINT = NoFault -> result = (true, found, 1%nat))
  /\ (fault c QUERY_SOURCE_ANALYSISFINGERPRINT = BindFails -> result = (false, "", 0%nat))
  /\ (fault c QUERY_SOURCE_ANALYSISFINGERPRINT = StepFailsAfter 0 ->
      result = (false, "", 1%nat))
  /\ (forall n, fault c QUERY_SOURCE_ANALYSISFINGERPRINT = StepFailsAfter (S n) ->
      result = match find matching (Sources (tables c)) with
               | Some s => (true, SourceDatabaseEntry.m_analysisFingerprint s, 1%nat)
               | None => (false, "", 1%nat)
               end)
  /\ result = QuerySourceAnalysisFingerprint c exactSourceName scanFolderID "".
Proof.
  intros matching found result. subst found result.
  unfold QuerySourceAnalysisFingerprint, QUERY_SOURCE_ANALYSISFINGERPRINT_STATEMENT, Bind.
  fold matching.
  pose proof (hd_error_filter_find matching (Sources (tables c))) as Hfind.
  repeat split.
  - intros ->. cbn [stmt_rows stmt_fails].
    destruct (filter matching (Sources (tables c))) as [|s0 rest];
      simpl in Hfind; rewrite <- Hfind; reflexivity.
  - intros ->. reflexivity.
  - intros ->. reflexivity.
  - intros n ->. cbn [stmt_rows stmt_fails].
    destruct (filter matching (Sources (tables c))) as [|s0 rest];
      simpl in Hfind; rewrite <- Hfind; reflexivity.
Qed.

Lemma QuerySourceAnalysisFingerprint_first_match_witness :
  QuerySourceAnalysisFingerprint (store_of fingerprint_Database) "a.txt" 2 "stale"
  = (true, "cafe", 1%nat)
  /\ QuerySourceAnalysisFingerprint (store_of fingerprint_Database) "b.txt" 2 "stale"
     = (true, "", 1%nat).
Proof.
  split.
  - destruct (QuerySourceAnalysisFingerprint_first_match (store_of fingerprint_Database)
                "a.txt" 2 "stale") as [H _].
    exact (H eq_refl).
  - destruct (QuerySourceAnalysisFingerprint_first_match (store_of fingerprint_Database)
                "b.txt" 2 "stale") as [H _].
    exact (H eq_refl).
Defined.

(** ** Legacy sub ids *)

Lemma delivered_leave_loop {E St} result validResult (s : St) :
  delivered (@leave_loop E St result validResult s) = [].
Proof. destruct result; reflexivity. Qed.

Section LegacySubIds.

Variables Row St : Type.
Variable Fetch : Row -> option CombinedColumns.
Variable LegacySubIds_of : Z -> list LegacySubIDsEntry.t.

Local Abbreviation loop := (GetCombinedResult_while (St := St) Fetch LegacySubIds_of).
Local Abbreviation legacy_of :=
  (fun x => LegacySubIds_of
              (ProductDatabaseEntry.m_productID (CombinedDatabaseEntry.product x))).

Lemma GetCombinedResult_while_legacy fails g k st incl pending :
  forall current legacy (h : Handler CombinedDatabaseEntry.t St) s pre e post,
  delivered (loop fails current pending legacy h g k st incl s) = pre ++ e :: post ->
  CombinedDatabaseEntry.m_legacySubIDs e
  = if incl then legacy ++ flat_map legacy_of (pre ++ [e]) else legacy.
Proof.
  assert (Hhead : forall legacy sf src j p (pre : list CombinedDatabaseEntry.t) e post rest,
    let legacy' :=
      if incl then legacy ++ LegacySubIds_of (ProductDatabaseEntry.m_productID p)
      else legacy in
    fill_combined (sf, src, j, p) legacy' :: rest = pre ++ e :: post ->
    (forall pre', rest = pre' ++ e :: post ->
       CombinedDatabaseEntry.m_legacySubIDs e
       = if incl then legacy' ++ flat_map legacy_of (pre' ++ [e]) else legacy') ->
    CombinedDatabaseEntry.m_legacySubIDs e
    = if incl then legacy ++ flat_map legacy_of (pre ++ [e]) else legacy).
  { intros legacy sf src j p pre e post rest legacy' E Hrest.
    destruct pre as [|x pre']; simpl in E; inversion E; subst.
    - simpl. subst legacy'. destruct incl; [rewrite app_nil_r|]; reflexivity.
    - rewrite (Hrest pre' eq_refl). subst legacy'. simpl.
      destruct incl; [rewrite <- app_assoc|]; reflexivity. }
  induction pending as [|next pending IH]; intros current legacy h s pre e post H;
    cbn [GetCombinedResult_while] in H.
  - destruct (Fetch current) as [[[[sf src] j] p]|]; [|destruct pre; discriminate H].
    destruct (ResultMatchesJobCriteria _ _ _ _ _ _).
    + destruct (h _ s) as [[] s']; cbn [after_delivery after_step delivered] in H;
        rewrite delivered_leave_loop in H;
        (eapply Hhead; [exact H|]; intros pre' E; destruct pre'; discriminate E).
    + cbn [after_step delivered] in H. rewrite delivered_leave_loop in H.
      destruct pre; discriminate H.
  - destruct (Fetch current) as [[[[sf src] j] p]|]; [|destruct pre; discriminate H].
    destruct (ResultMatchesJobCriteria _ _ _ _ _ _).
    + destruct (h _ s) as [[] s']; cbn [after_delivery after_step delivered] in H.
      * eapply Hhead; [exact H|]. intros pre' E. eapply IH. exact E.
      * rewrite delivered_leave_loop in H.
        eapply Hhead; [exact H|]. intros pre' E. destruct pre'; discriminate E.
    + cbn [after_step delivered] in H. eapply IH. exact H.
Qed.

Lemma GetCombinedResult_legacy (statement : Statement Row)
  (h : Handler CombinedDatabaseEntry.t St) g k st incl s pre e post :
  delivered (GetCombinedResult Fetch LegacySubIds_of statement h g k st incl s)
  = pre ++ e :: post ->
  CombinedDatabaseEntry.m_legacySubIDs e
  = if incl then flat_map legacy_of (pre ++ [e]) else [].
Proof.
  unfold GetCombinedResult. cbn [after_step delivered].
  destruct (stmt_rows statement) as [|first pending].
  - rewrite delivered_leave_loop. intros H. destruct pre; discriminate H.
  - intros H. apply GetCombinedResult_while_legacy in H. exact H.
Qed.

End LegacySubIds.

(** X9: [GetCombinedResult] declares its entry outside the loop and
    appends to [m_legacySubIDs] without ever clearing it.  With
    [includeLegacySubIDs] set, an entry handed over by [QueryCombined]
    therefore carries the legacy sub ids of the products of all the
    entries handed over before it, followed by those of its own product
    (the handler being one that leaves the entry as it received it).
    Without the flag the list is empty. *)
Theorem QueryCombined_legacy_sub_ids_accumulate (c : Store) (St : Type)
  (handler : Handler CombinedDatabaseEntry.t St) (builderGuid : Uuid)
  (jobKey : option string) (platform : option string) (status : JobStatus)
  (includeLegacySubIDs : bool) (s : St) (pre : list CombinedDatabaseEntry.t)
  (e : CombinedDatabaseEntry.t) (post : list CombinedDatabaseEntry.t) :
  delivered (QueryCombined c handler builderGuid jobKey platform status includeLegacySubIDs s)
  = pre ++ e :: post ->
  CombinedDatabaseEntry.m_legacySubIDs e
  = if includeLegacySubIDs
    then flat_map
           (fun x => LegacySubIds_of c
                       (ProductDatabaseEntry.m_productID (CombinedDatabaseEntry.product x)))
           (pre ++ [e])
    else [].
Proof.
  unfold QueryCombined, BindAndQuery.
  destruct (has_platform platform) as [p|];
    (destruct (Bind c _ _) as [statement|];
     [apply GetCombinedResult_legacy | intros H; destruct pre; discriminate H]).
Qed.

Lemma QueryCombined_legacy_sub_ids_accumulate_witness :
  delivered (QueryCombined (store_of legacy_Database) take_all 0%N None None JobStatus_Any
               true tt)
  = [legacy_first; legacy_second]
  /\ CombinedDatabaseEntry.m_legacySubIDs legacy_second
     = LegacySubIds_of (store_of legacy_Database) 1
       ++ LegacySubIds_of (store_of legacy_Database) 2.
Proof.
  split; [reflexivity|].
  rewrite (@QueryCombined_legacy_sub_ids_accumulate (store_of legacy_Database) unit take_all
             0%N None None JobStatus_Any true tt [legacy_first] legacy_second [] eq_refl).
  reflexivity.
Defined.

(** ** The cache of validated tables *)

Lemma existsb_eqb_In (t : string) (l : list string) :
  existsb (String.eqb t) l = true <-> In t l.
Proof.
  rewrite existsb_exists. split.
  - intros [x [Hx E]]. apply String.eqb_eq in E. subst x. exact Hx.
  - intros H. exists t. split; [exact H|apply String.eqb_refl].
Qed.

Lemma ValidateDatabaseTable_cases (this : AssetDatabaseConnection) (tableName : string) :
  let exists_in_store :=
    exists connection,
      m_databaseConnection this = Some connection
      /\ conn_IsOpen connection = true
      /\ DoesTableExist (conn_store connection) tableName = true in
  (In tableName (m_validatedTables this)
   /\ ValidateDatabaseTable this tableName = (true, this))
  \/ (~ In tableName (m_validatedTables this) /\ exists_in_store
      /\ ValidateDatabaseTable this tableName
         = (true, mkAssetDatabaseConnection (m_databaseConnection this)
                    (tableName :: m_validatedTables this)))
  \/ (~ In tableName (m_validatedTables this) /\ ~ exists_in_store
      /\ ValidateDatabaseTable this tableName = (false, this)).
Proof.
  intros exists_in_store. subst exists_in_store. unfold ValidateDatabaseTable.
  destruct (existsb (String.eqb tableName) (m_validatedTables this)) eqn:Ecache.
  - left. apply existsb_eqb_In in Ecache. auto.
  - right.
    assert (Hnot : ~ In tableName (m_validatedTables this)).
    { intros H. apply existsb_eqb_In in H. congruence. }
    destruct (m_databaseConnection this) as [connection|] eqn:Econn.
    + destruct (conn_IsOpen connection) eqn:Eopen; cbn [negb].
      * destruct (DoesTableExist (conn_store connection) tableName) eqn:Eexists; cbn [negb].
        -- left. split; [exact Hnot|]. split; [|reflexivity]. exists connection. auto.
        -- right. split; [exact Hnot|]. split; [|reflexivity].
           intros [connection' [E [_ H]]]. inversion E; subst connection'. congruence.
      * right. split; [exact Hnot|]. split; [|reflexivity].
        intros [connection' [E [H _]]]. inversion E; subst connection'. congruence.
    + right. split; [exact Hnot|]. split; [|reflexivity].
      intros [connection' [E _]]. discriminate E.
Qed.

(** X10: [ValidateDatabaseTable] answers from [m_validatedTables] when it
    can: for a table name in the cache it returns true and changes
    nothing, whatever the state of the connection.  Otherwise it returns
    true exactly when the connection exists, is open and has the table,
    and then adds the name to the cache; when it returns false nothing
    changes.  It never touches the connection pointer, and the cache only
    grows.  After [CloseDatabase] no table validates. *)
Theorem ValidateDatabaseTable_answers_from_cache (this : AssetDatabaseConnection)
  (tableName : string) :
  let cached := In tableName (m_validatedTables this) in
  let exists_in_store :=
    exists connection,
      m_databaseConnection this = Some connection
      /\ conn_IsOpen connection = true
      /\ DoesTableExist (conn_store connection) tableName = true in
  let result := ValidateDatabaseTable this tableName in
  (cached -> result = (true, this))
  /\ (fst result = true <-> cached \/ exists_in_store)
  /\ (fst result = false -> snd result = this)
  /\ m_databaseConnection (snd result) = m_databaseConnection this
  /\ (forall t, In t (m_validatedTables (snd result))
                <-> In t (m_validatedTables this) \/ (t = tableName /\ fst result = true))
  /\ (forall connection',
        fst result = true ->
        fst (ValidateDatabaseTable
               (mkAssetDatabaseConnection connection' (m_validatedTables (snd result)))
               tableName) = true)
  /\ fst (ValidateDatabaseTable (fst (CloseDatabase this)) tableName) = false.
Proof.
  intros cached exists_in_store result. subst cached result.
  assert (Hhit : forall connection' cache,
            In tableName cache ->
            fst (ValidateDatabaseTable (mkAssetDatabaseConnection connection' cache) tableName)
            = true).
  { intros connection' cache H. unfold ValidateDatabaseTable. cbn [m_validatedTables].
    rewrite (proj2 (existsb_eqb_In tableName cache) H). reflexivity. }
  destruct (ValidateDatabaseTable_cases this tableName)
    as [[Hin E]|[[Hnot [Hex E]]|[Hnot [Hnex E]]]]; rewrite E; cbn [fst snd];
    fold exists_in_store in Hex || fold exists_in_store in Hnex || idtac.
  - repeat split; auto; try discriminate.
    intros [H|[-> _]]; assumption.
  - repeat split; auto; try contradiction; try discriminate.
    + cbn [m_validatedTables]. intros [<-|H]; auto.
    + cbn [m_validatedTables]. intros [H|[-> _]]; [right; exact H|left; reflexivity].
    + intros connection' _. apply Hhit. cbn [m_validatedTables]. left. reflexivity.
  - repeat split; auto; try contradiction; try discriminate.
    + intros [H|H]; contradiction.
    + intros [H|[_ H]]; [exact H|discriminate H].
Qed.

(** ** Opening and closing, continued *)

Lemma validate_tables_all (connection : SQLiteConnection) (expected : list string) :
  conn_IsOpen connection = true ->
  forall this,
    m_databaseConnection this = Some connection ->
    (forall t, In t (m_validatedTables this) ->
               DoesTableExist (conn_store connection) t = true) ->
    (fst (validate_tables this expected) = true
     <-> forall t, In t expected -> DoesTableExist (conn_store connection) t = true)
    /\ (fst (validate_tables this expected) = true ->
        forall t, In t (m_validatedTables (snd (validate_tables this expected)))
                  <-> In t (m_validatedTables this) \/ In t expected).
Proof.
  intros Hopen. induction expected as [|tableName rest IH]; intros this Hconn Hcache.
  - cbn [validate_tables fst snd]. split; [split; [intros _ t []|reflexivity]|].
    intros _ t. simpl. tauto.
  - cbn [validate_tables].
    destruct (ValidateDatabaseTable_cases this tableName)
      as [[Hin E]|[[Hnot [[connection' [Ec [_ Hex]]] E]]|[Hnot [Hnex E]]]]; rewrite E;
      cbn [negb].
    + (* already validated *)
      destruct (IH this Hconn Hcache) as [IH1 IH2]. split.
      * rewrite IH1. split.
        -- intros H t [<-|Ht]; [apply Hcache; exact Hin|apply H; exact Ht].
        -- intros H t Ht. apply H. right. exact Ht.
      * intros Hok t. rewrite (IH2 Hok t). simpl. split; [tauto|].
        intros [H|[<-|H]]; auto.
    + (* found in the store, and added to the cache *)
      rewrite Hconn in Ec. inversion Ec; subst connection'.
      destruct (IH (mkAssetDatabaseConnection (m_databaseConnection this)
                      (tableName :: m_validatedTables this))) as [IH1 IH2].
      * exact Hconn.
      * cbn [m_validatedTables]. intros t [<-|Ht]; [exact Hex|apply Hcache; exact Ht].
      * split.
        -- rewrite IH1. split.
           ++ intros H t [<-|Ht]; [exact Hex|apply H; exact Ht].
           ++ intros H t Ht. apply H. right. exact Ht.
        -- intros Hok t. rewrite (IH2 Hok t). cbn [m_validatedTables]. simpl. tauto.
    + (* missing *)
      cbn [fst snd]. split; [|discriminate]. split; [discriminate|].
      intros H. exfalso. apply Hnex. exists connection. split; [exact Hconn|].
      split; [exact Hopen|]. apply H. left. reflexivity.
Qed.

Section OpenAndClose.

Variable IsReadOnly : bool.
Variables CurrentDatabaseVersion DatabaseDoesNotExist uninitialised_dbVersion : DatabaseVersion.
Variable StripFullName : string -> string.

Local Abbreviation Open :=
  (OpenDatabase IsReadOnly CurrentDatabaseVersion DatabaseDoesNotExist
     uninitialised_dbVersion StripFullName).
Local Abbreviation PostOpen :=
  (PostOpenDatabase CurrentDatabaseVersion DatabaseDoesNotExist uninitialised_dbVersion).
Local Abbreviation Version :=
  (QueryDatabaseVersion DatabaseDoesNotExist uninitialised_dbVersion).

Lemma PostOpenDatabase_opened (store : Store) :
  let opened := mkAssetDatabaseConnection (Some (mkSQLiteConnection store true)) [] in
  (fst (PostOpen opened) = true
   <-> Version store = CurrentDatabaseVersion
       /\ forall t, In t EXPECTED_TABLES -> DoesTableExist store t = true)
  /\ m_databaseConnection (snd (PostOpen opened)) = Some (mkSQLiteConnection store true)
  /\ (fst (PostOpen opened) = true ->
      forall t, In t (m_validatedTables (snd (PostOpen opened))) <-> In t EXPECTED_TABLES).
Proof.
  intros opened.
  assert (Hconn : m_databaseConnection (snd (PostOpen opened))
                  = Some (mkSQLiteConnection store true)).
  { rewrite PostOpenDatabase_connection. reflexivity. }
  split; [|split; [exact Hconn|]].
  - unfold PostOpenDatabase. cbn [opened m_databaseConnection conn_store].
    destruct (Z.eqb (Version store) CurrentDatabaseVersion) eqn:EV; cbn [negb].
    + apply Z.eqb_eq in EV.
      destruct (@validate_tables_all (mkSQLiteConnection store true) EXPECTED_TABLES eq_refl
                  opened eq_refl) as [H _]; [intros t []|].
      cbn [conn_store] in H. rewrite H. tauto.
    + apply Z.eqb_neq in EV. cbn [fst]. split; [discriminate|tauto].
  - unfold PostOpenDatabase. cbn [opened m_databaseConnection conn_store].
    destruct (Z.eqb (Version store) CurrentDatabaseVersion) eqn:EV; cbn [negb];
      [|discriminate].
    intros Hok t.
    destruct (@validate_tables_all (mkSQLiteConnection store true) EXPECTED_TABLES eq_refl
                opened eq_refl) as [_ H]; [intros t' []|].
    rewrite (H Hok t). cbn [opened m_validatedTables]. simpl. tauto.
Qed.

(** X11: [OpenDatabase] on a closed connection returns true exactly when
    neither precondition fails (a read-only connection needs the file to
    exist, a read-write connection needs an existing file to be
    writable), the store opens the file, the version read from [dbinfo]
    is [CurrentDatabaseVersion()] and every expected table exists.  The
    connection then holds the opened store, every expected table is in
    the cache of validated tables, the file opened is the one named by
    [GetAssetDatabaseFilePath], which is never the empty name, and the
    store was opened once and not closed. *)
Theorem OpenDatabase_succeeds_exactly_when (env : Environment)
  (this : AssetDatabaseConnection) :
  is_closed this ->
  let location := GetAssetDatabaseFilePath env in
  let created :=
    if negb (String.eqb (StripFullName location) "")
    then [CreateDir (StripFullName location)] else [] in
  let '(result, this', events) := Open env this in
  (result = true <->
   (IsReadOnly = true -> SystemFile_Exists env location = true)
   /\ (IsReadOnly = false -> SystemFile_Exists env location = true ->
       SystemFile_IsWritable env location = true)
   /\ exists store,
        SQLite_Open env location IsReadOnly = Some store
        /\ Version store = CurrentDatabaseVersion
        /\ forall t, In t EXPECTED_TABLES -> DoesTableExist store t = true)
  /\ (result = true ->
      (exists store,
         SQLite_Open env location IsReadOnly = Some store
         /\ m_databaseConnection this' = Some (mkSQLiteConnection store true))
      /\ (forall t, In t (m_validatedTables this') <-> In t EXPECTED_TABLES)
      /\ events = created ++ [ConnectionOpen location IsReadOnly])
  /\ location <> "".
Proof.
  intros _ location created.
  assert (Hloc : location <> "").
  { subst location. unfold GetAssetDatabaseFilePath.
    destruct (String.eqb (GetAssetDatabaseLocation env) "") eqn:E; [discriminate|].
    apply String.eqb_neq. exact E. }
  unfold OpenDatabase. fold location. fold created.
  destruct (IsReadOnly && negb (SystemFile_Exists env location)) eqn:G1.
  { apply andb_true_iff in G1. destruct G1 as [RO EX]. apply negb_true_iff in EX.
    split; [split; [discriminate|]|split; [discriminate|exact Hloc]].
    intros [H _]. rewrite (H RO) in EX. discriminate EX. }
  destruct (negb IsReadOnly && SystemFile_Exists env location
            && negb (SystemFile_IsWritable env location)) eqn:G2.
  { apply andb_true_iff in G2. destruct G2 as [G2 WR].
    apply andb_true_iff in G2. destruct G2 as [RO EX].
    apply negb_true_iff in RO, WR.
    split; [split; [discriminate|]|split; [discriminate|exact Hloc]].
    intros [_ [H _]]. rewrite (H RO EX) in WR. discriminate WR. }
  assert (Hpre : (IsReadOnly = true -> SystemFile_Exists env location = true)
                 /\ (IsReadOnly = false -> SystemFile_Exists env location = true ->
                     SystemFile_IsWritable env location = true)).
  { split.
    - intros RO. rewrite RO in G1. simpl in G1. apply negb_false_iff in G1. exact G1.
    - intros RO EX. rewrite RO, EX in G2. simpl in G2. apply negb_false_iff in G2. exact G2. }
  destruct (SQLite_Open env location IsReadOnly) as [store|] eqn:EO.
  - destruct (PostOpenDatabase_opened store) as [Hok [Hconn Hcache]]. cbv zeta in *.
    destruct (PostOpen (mkAssetDatabaseConnection (Some (mkSQLiteConnection store true)) []))
      as [ok this1] eqn:EP.
    cbn [fst snd] in *. destruct ok; cbn [negb].
    + split; [split; [intros _|reflexivity]|split; [intros _|exact Hloc]].
      * destruct Hpre as [H1 H2]. split; [exact H1|]. split; [exact H2|].
        exists store. split; [reflexivity|]. apply Hok. reflexivity.
      * split; [exists store; auto|]. split; [apply Hcache; reflexivity|reflexivity].
    + destruct (CloseDatabase this1) as [this2 closing].
      split; [split; [discriminate|]|split; [discriminate|exact Hloc]].
      intros [_ [_ [store' [E H]]]]. inversion E; subst store'.
      apply Hok in H. discriminate H.
  - split; [split; [discriminate|]|split; [discriminate|exact Hloc]].
    intros [_ [_ [store [E _]]]]. discriminate E.
Qed.

(** X12: a cycle of [OpenDatabase] and [CloseDatabase] on a closed
    connection ends with the connection closed again; [CloseDatabase]
    asks the store to close exactly when [OpenDatabase] had returned true
    (a failed open leaves nothing to close); a second [CloseDatabase]
    does nothing; and opening again behaves as the first time. *)
Theorem OpenDatabase_CloseDatabase_cycle (env : Environment)
  (this : AssetDatabaseConnection) :
  is_closed this ->
  let '(result, opened, events) := Open env this in
  let '(closed, closing) := CloseDatabase opened in
  is_closed closed
  /\ closing = (if result then [ConnectionClose] else [])
  /\ CloseDatabase closed = (closed, [])
  /\ Open env closed = Open env this.
Proof.
  intros [Hconn Hcache].
  assert (Hthis : this = mkAssetDatabaseConnection None []).
  { destruct this. simpl in *. subst. reflexivity. }
  subst this. unfold OpenDatabase.
  destruct (IsReadOnly && negb _); [repeat split|].
  destruct (negb IsReadOnly && _ && negb _); [repeat split|].
  destruct (SQLite_Open env _ IsReadOnly) as [store|]; [|repeat split].
  destruct (PostOpenDatabase_opened store) as [_ [Hkept _]]. cbv zeta in Hkept.
  destruct (PostOpen _) as [[] this1]; cbn [snd negb] in *.
  - unfold CloseDatabase. rewrite Hkept. repeat split.
  - unfold CloseDatabase. repeat split.
Qed.

End OpenAndClose.

Lemma OpenDatabase_succeeds_exactly_when_witness :
  OpenDatabase false 6 0 0 (fun _ => "cache") current_Environment fresh_connection
  = (true,
     mkAssetDatabaseConnection (Some (mkSQLiteConnection current_Store true))
       (rev EXPECTED_TABLES),
     [CreateDir "cache"; ConnectionOpen "cache/assetdb.sqlite" false]).
Proof.
  pose proof (@OpenDatabase_succeeds_exactly_when false 6 0 0 (fun _ => "cache")
                current_Environment fresh_connection (conj eq_refl eq_refl)) as H.
  cbv zeta in H.
  destruct (OpenDatabase false 6 0 0 (fun _ => "cache") current_Environment fresh_connection)
    as [[result this'] events] eqn:E.
  destruct H as [[_ Hresult] _].
  assert (Hok : result = true).
  { apply Hresult. split; [discriminate|]. split; [reflexivity|].
    exists current_Store. split; [reflexivity|]. split; [reflexivity|].
    intros t Ht. simpl in Ht.
    repeat (destruct Ht as [<-|Ht]; [reflexivity|]). contradiction. }
  subst result. vm_compute in E. inversion E; subst. reflexivity.
Defined.

Lemma OpenDatabase_CloseDatabase_cycle_witness :
  CloseDatabase
    (snd (fst (OpenDatabase false 6 0 0 (fun _ => "cache") current_Environment
                 fresh_connection)))
  = (fresh_connection, [ConnectionClose]).
Proof.
  pose proof (@OpenDatabase_CloseDatabase_cycle false 6 0 0 (fun _ => "cache")
                current_Environment fresh_connection (conj eq_refl eq_refl)) as H.
  destruct (OpenDatabase false 6 0 0 (fun _ => "cache") current_Environment fresh_connection)
    as [[result opened] events] eqn:E.
  cbn [fst snd].
  destruct (CloseDatabase opened) as [closed closing].
  destruct H as [[Hconn Hcache] [Hclosing _]].
  assert (Hresult : result = true) by (vm_compute in E; inversion E; reflexivity).
  subst result closing. f_equal.
  destruct closed. simpl in *. subst. reflexivity.
Defined.

(** ** Equality of the other entities *)

(** X13: [JobDatabaseEntry::operator==] never looks at [m_jobID]: the
    result is the same whatever the two ids are.  Whenever
    [StringFunc::Equal] is reflexive, symmetric and transitive, so is
    [operator==]; and the entry built by the constructor without id
    (id -1) is equal to the entry built from the same arguments by the
    constructor with id, whatever that id is. *)
Theorem JobDatabaseEntry_equality_ignores_jobID (StringFunc_Equal : string -> string -> bool) :
  (forall x, StringFunc_Equal x x = true) ->
  (forall x y, StringFunc_Equal x y = StringFunc_Equal y x) ->
  (forall x y z, StringFunc_Equal x y = true -> StringFunc_Equal y z = true ->
                 StringFunc_Equal x z = true) ->
  let eqb := JobDatabaseEntry_eqb StringFunc_Equal in
  (forall id id' sourcePK jobKey fingerprint platform builderGuid status jobRunKey
          firstFailLogTime firstFailLogFile lastFailLogTime lastFailLogFile
          lastLogTime lastLogFile other,
     eqb (JobDatabaseEntry.Build id sourcePK jobKey fingerprint platform builderGuid status
            jobRunKey firstFailLogTime firstFailLogFile lastFailLogTime lastFailLogFile
            lastLogTime lastLogFile) other
     = eqb (JobDatabaseEntry.Build id' sourcePK jobKey fingerprint platform builderGuid status
              jobRunKey firstFailLogTime firstFailLogFile lastFailLogTime lastFailLogFile
              lastLogTime lastLogFile) other)
  /\ (forall a, eqb a a = true)
  /\ (forall a b, eqb a b = eqb b a)
  /\ (forall a b c, eqb a b = true -> eqb b c = true -> eqb a c = true)
  /\ (forall jobID sourcePK jobKey fingerprint platform builderGuid status jobRunKey
             firstFailLogTime firstFailLogFile lastFailLogTime lastFailLogFile
             lastLogTime lastLogFile,
        eqb (JobDatabaseEntry_with_jobID jobID sourcePK jobKey fingerprint platform
               builderGuid status jobRunKey firstFailLogTime firstFailLogFile
               lastFailLogTime lastFailLogFile lastLogTime lastLogFile)
            (JobDatabaseEntry_without_jobID sourcePK jobKey fingerprint platform
               builderGuid status jobRunKey firstFailLogTime firstFailLogFile
               lastFailLogTime lastFailLogFile lastLogTime lastLogFile)
        = true).
Proof.
  intros Hrefl Hsym Htrans eqb. subst eqb.
  assert (Hr : forall a, JobDatabaseEntry_eqb StringFunc_Equal a a = true).
  { intros a. unfold JobDatabaseEntry_eqb.
    rewrite !Z.eqb_refl, !N.eqb_refl, !Hrefl. reflexivity. }
  split; [reflexivity|]. split; [exact Hr|]. split; [|split].
  - intros a b. unfold JobDatabaseEntry_eqb.
    repeat (f_equal; try apply Z.eqb_sym; try apply N.eqb_sym; try apply Hsym).
  - intros a b c. unfold JobDatabaseEntry_eqb.
    rewrite !andb_true_iff, !Z.eqb_eq, !N.eqb_eq.
    intros H1 H2.
    repeat match goal with H : _ /\ _ |- _ => destruct H end.
    repeat split; try congruence; eapply Htrans; eassumption.
  - intros. unfold JobDatabaseEntry_eqb, JobDatabaseEntry_with_jobID,
      JobDatabaseEntry_without_jobID. cbn.
    rewrite !Z.eqb_refl, !N.eqb_refl, !Hrefl. reflexivity.
Qed.

Lemma JobDatabaseEntry_equality_ignores_jobID_witness :
  JobDatabaseEntry_eqb String.eqb
    (JobDatabaseEntry_with_jobID 42 1 (Some "compile") 7 None 5%N 4 9 0 None 0 None 0 None)
    (JobDatabaseEntry_without_jobID 1 (Some "compile") 7 None 5%N 4 9 0 None 0 None 0 None)
  = true.
Proof.
  apply (@JobDatabaseEntry_equality_ignores_jobID String.eqb).
  - apply String.eqb_refl.
  - apply String.eqb_sym.
  - intros x y z Hxy Hyz. apply String.eqb_eq in Hxy, Hyz. subst. apply String.eqb_refl.
Defined.

(** X14: two product dependency entries are equal by [operator==]
    exactly when they agree on every member but the id, and two file
    entries exactly when they agree on scan folder, file name, folder flag
    and modification time; the ids take no part.  In particular a
    dependency built by the constructor without id is equal to the one
    built from the same arguments with any id. *)
Theorem dependency_and_file_equality_ignore_ids :
  (forall a b : ProductDependencyDatabaseEntry.t,
     ProductDependencyDatabaseEntry_eqb a b = true
     <-> ProductDependencyDatabaseEntry.m_productPK a
         = ProductDependencyDatabaseEntry.m_productPK b
         /\ ProductDependencyDatabaseEntry.m_dependencySourceGuid a
            = ProductDependencyDatabaseEntry.m_dependencySourceGuid b
         /\ ProductDependencyDatabaseEntry.m_dependencySubID a
            = ProductDependencyDatabaseEntry.m_dependencySubID b
         /\ ProductDependencyDatabaseEntry.m_dependencyFlags a
            = ProductDependencyDatabaseEntry.m_dependencyFlags b
         /\ ProductDependencyDatabaseEntry.m_unresolvedPath a
            = ProductDependencyDatabaseEntry.m_unresolvedPath b
         /\ ProductDependencyDatabaseEntry.m_dependencyType a
            = ProductDependencyDatabaseEntry.m_dependencyType b
         /\ ProductDependencyDatabaseEntry.m_platform a
            = ProductDependencyDatabaseEntry.m_platform b)
  /\ (forall id productPK guid subID flags platform unresolvedPath dependencyType,
        ProductDependencyDatabaseEntry_eqb
          (ProductDependencyDatabaseEntry_with_productDependencyID id productPK guid subID
             flags platform unresolvedPath dependencyType)
          (ProductDependencyDatabaseEntry_without_productDependencyID productPK guid subID
             flags platform unresolvedPath dependencyType) = true)
  /\ (forall a b : FileDatabaseEntry.t,
        FileDatabaseEntry.eqb a b = true
        <-> FileDatabaseEntry.m_scanFolderPK a = FileDatabaseEntry.m_scanFolderPK b
            /\ FileDatabaseEntry.m_fileName a = FileDatabaseEntry.m_fileName b
            /\ FileDatabaseEntry.m_isFolder a = FileDatabaseEntry.m_isFolder b
            /\ FileDatabaseEntry.m_modTime a = FileDatabaseEntry.m_modTime b).
Proof.
  split; [|split].
  - intros a b. unfold ProductDependencyDatabaseEntry_eqb. cbv zeta.
    rewrite !andb_true_iff, !Z.eqb_eq, !N.eqb_eq, !String.eqb_eq. tauto.
  - intros. unfold ProductDependencyDatabaseEntry_eqb. cbv zeta. simpl.
    rewrite !Z.eqb_refl, !N.eqb_refl, !String.eqb_refl. reflexivity.
  - intros a b. unfold FileDatabaseEntry.eqb.
    rewrite !andb_true_iff, !Z.eqb_eq, !String.eqb_eq. tauto.
Qed.

(** ** Projections of the combined queries *)

Section StoppingHandler.

Variables Row St : Type.
Variable Fetch : Row -> option CombinedColumns.
Variable LegacySubIds_of : Z -> list LegacySubIDsEntry.t.

Local Abbreviation loop := (GetCombinedResult_while (St := St) Fetch LegacySubIds_of).

(** With a handler that always asks to stop, at most one entry is handed
    over. *)
Lemma GetCombinedResult_while_one fails g k st incl pending :
  forall current legacy (h : Handler CombinedDatabaseEntry.t St) s,
  (forall e s, fst (h e s) = false) ->
  let o := loop fails current pending legacy h g k st incl s in
  (delivered o = [] /\ captured o = s)
  \/ exists e, delivered o = [e] /\ captured o = snd (h e s).
Proof.
  induction pending as [|next pending IH]; intros current legacy h s Hh;
    cbn zeta; cbn [GetCombinedResult_while].
  - destruct (Fetch current) as [[[[sf src] j] p]|]; [|left; split; reflexivity].
    destruct (ResultMatchesJobCriteria _ _ _ _ _ _).
    + match goal with |- context [h ?e s] => pose proof (Hh e s) as Hstop;
        destruct (h e s) as [continue s'] eqn:E end.
      simpl in Hstop. subst continue. right. eexists. split; [reflexivity|].
      rewrite E. reflexivity.
    + left. destruct fails; split; reflexivity.
  - destruct (Fetch current) as [[[[sf src] j] p]|]; [|left; split; reflexivity].
    destruct (ResultMatchesJobCriteria _ _ _ _ _ _).
    + match goal with |- context [h ?e s] => pose proof (Hh e s) as Hstop;
        destruct (h e s) as [continue s'] eqn:E end.
      simpl in Hstop. subst continue. right. eexists. split; [reflexivity|].
      rewrite E. reflexivity.
    + apply (IH next legacy h s Hh).
Qed.

(** When nothing is handed over the state of the handler is as it was. *)
Lemma GetCombinedResult_while_untouched fails g k st incl pending :
  forall current legacy (h : Handler CombinedDatabaseEntry.t St) s,
  delivered (loop fails current pending legacy h g k st incl s) = [] ->
  captured (loop fails current pending legacy h g k st incl s) = s.
Proof.
  induction pending as [|next pending IH]; intros current legacy h s;
    cbn [GetCombinedResult_while].
  - destruct (Fetch current) as [[[[sf src] j] p]|]; [|reflexivity].
    destruct (ResultMatchesJobCriteria _ _ _ _ _ _).
    + destruct (h _ s) as [continue s']. intros H. discriminate H.
    + intros _. destruct fails; reflexivity.
  - destruct (Fetch current) as [[[[sf src] j] p]|]; [|reflexivity].
    destruct (ResultMatchesJobCriteria _ _ _ _ _ _).
    + destruct (h _ s) as [continue s']. intros H. discriminate H.
    + apply (IH next legacy h s).
Qed.

Lemma GetCombinedResult_one (statement : Statement Row)
  (h : Handler CombinedDatabaseEntry.t St) g k st incl s :
  (forall e s, fst (h e s) = false) ->
  let o := GetCombinedResult Fetch LegacySubIds_of statement h g k st incl s in
  (delivered o = [] /\ captured o = s)
  \/ exists e, delivered o = [e] /\ captured o = snd (h e s).
Proof.
  intros Hh. unfold GetCombinedResult. cbn zeta.
  destruct (stmt_rows statement) as [|first pending].
  - left. destruct (stmt_fails statement); split; reflexivity.
  - apply (GetCombinedResult_while_one (stmt_fails statement) g k st incl pending first []
             h s Hh).
Qed.

Lemma GetCombinedResult_untouched (statement : Statement Row)
  (h : Handler CombinedDatabaseEntry.t St) g k st incl s :
  delivered (GetCombinedResult Fetch LegacySubIds_of statement h g k st incl s) = [] ->
  captured (GetCombinedResult Fetch LegacySubIds_of statement h g k st incl s) = s.
Proof.
  unfold GetCombinedResult. destruct (stmt_rows statement) as [|first pending].
  - intros _. destruct (stmt_fails statement); reflexivity.
  - apply GetCombinedResult_while_untouched.
Qed.

End StoppingHandler.

Section CombinedRows.

Import ScanFolderDatabaseEntry SourceDatabaseEntry JobDatabaseEntry ProductDatabaseEntry.

Lemma QUERY_COMBINED_BY_JOBID_rows db jobid sf src j p :
  In (sf, src, j, p) (QUERY_COMBINED_BY_JOBID_STATEMENT db jobid) ->
  In j (Jobs db) /\ m_jobID j = jobid /\
  In src (Sources db) /\ m_sourceID src = m_sourcePK j /\
  In sf (ScanFolders db) /\ m_scanFolderID sf = SourceDatabaseEntry.m_scanFolderPK src /\
  In p (Products db) /\ m_jobPK p = m_jobID j.
Proof.
  unfold QUERY_COMBINED_BY_JOBID_STATEMENT, from_Jobs_Sources_ScanFolders_Products.
  rewrite in_flat_map. intros [[[[j' os] sf'] p'] [Hin Hc]].
  apply filter_In in Hin. destruct Hin as [Hin Hid].
  destruct os as [s'|]; simpl in Hc; [|contradiction].
  destruct Hc as [Hc|[]]. inversion Hc; subst.
  apply In_inner_join in Hin. destruct Hin as [Hin [Hp Hjp]].
  apply In_inner_join in Hin. destruct Hin as [Hin [Hsf Hssf]].
  apply In_left_join_Some in Hin. destruct Hin as [Hj [Hs Hsj]].
  simpl in Hssf. apply Z.eqb_eq in Hid, Hjp, Hssf, Hsj.
  repeat split; auto.
Qed.

Lemma QUERY_COMBINED_BY_PRODUCTID_rows db productid sf src j p :
  In (sf, src, j, p) (QUERY_COMBINED_BY_PRODUCTID_STATEMENT db productid) ->
  In p (Products db) /\ m_productID p = productid /\
  In j (Jobs db) /\ m_jobID j = m_jobPK p /\
  In src (Sources db) /\ m_sourceID src = m_sourcePK j /\
  In sf (ScanFolders db) /\ m_scanFolderID sf = SourceDatabaseEntry.m_scanFolderPK src.
Proof.
  unfold QUERY_COMBINED_BY_PRODUCTID_STATEMENT, from_Products_Jobs_Sources_ScanFolders.
  rewrite in_flat_map. intros [[[[p' oj] s'] sf'] [Hin Hc]].
  apply filter_In in Hin. destruct Hin as [Hin Hid].
  destruct oj as [j'|]; simpl in Hc; [|contradiction].
  destruct Hc as [Hc|[]]. inversion Hc; subst.
  apply In_inner_join in Hin. destruct Hin as [Hin [Hsf Hssf]].
  apply In_inner_join in Hin. destruct Hin as [Hin [Hs Hsj]].
  apply In_left_join_Some in Hin. destruct Hin as [Hp [Hj Hjp]].
  simpl in Hsj. apply Z.eqb_eq in Hid, Hjp, Hssf, Hsj.
  repeat split; auto.
Qed.

End CombinedRows.

(** X15: whatever the store and the handler do, [QuerySourceByProductID]
    hands over at most one source, and the handler's answer is not looked
    at.  A source handed over is the source of the job of a product with
    the given id.  On a store that reports no error the call returns
    true, also when no such product exists and nothing is handed over. *)
Theorem QuerySourceByProductID_hands_over_the_owner (c : Store) (St : Type) (productid : Z)
  (handler : Handler SourceDatabaseEntry.t St) (s : St) :
  let o := QuerySourceByProductID c productid handler s in
  (List.length (delivered o) <= 1)%nat
  /\ (forall src, In src (delivered o) ->
        exists p j,
          In p (Products (tables c)) /\ ProductDatabaseEntry.m_productID p = productid
          /\ In j (Jobs (tables c))
          /\ JobDatabaseEntry.m_jobID j = ProductDatabaseEntry.m_jobPK p
          /\ In src (Sources (tables c))
          /\ SourceDatabaseEntry.m_sourceID src = JobDatabaseEntry.m_sourcePK j)
  /\ (fault c QUERY_COMBINED_BY_PRODUCTID = NoFault -> ret o = true)
  /\ (fault c QUERY_COMBINED_BY_PRODUCTID = NoFault ->
      QUERY_COMBINED_BY_PRODUCTID_STATEMENT (tables c) productid = [] ->
      o = mkOutcome true s [] 1).
Proof.
  intros o. subst o. unfold QuerySourceByProductID.
  set (lambda := fun (combined : CombinedDatabaseEntry.t) (s0 : St) =>
                   let source := CombinedDatabaseEntry.source combined in
                   let '(_, s1) := handler source s0 in (false, s1)).
  assert (Hstop : forall e s0, fst (lambda e s0) = false).
  { intros e s0. unfold lambda. cbv zeta. destruct (handler _ s0). reflexivity. }
  unfold QueryCombinedByProductID, default_platform. cbn [has_platform].
  unfold BindAndQuery, default_jobKey, default_status.
  destruct (Bind c QUERY_COMBINED_BY_PRODUCTID _) as [statement|] eqn:B; cbn [delivered ret].
  - unfold GetCombinedResultAsLambda.
    pose proof (GetCombinedResult_one (@Some _) (LegacySubIds_of c) statement lambda
                  0%N None JobStatus_Any false s Hstop) as Hone.
    cbv zeta in Hone. split; [|split; [|split]].
    + destruct Hone as [[Hd _]|[e [Hd _]]]; rewrite Hd; simpl; lia.
    + intros src Hin. apply in_map_iff in Hin. destruct Hin as [e [<- He]].
      apply GetCombinedResult_delivered in He. destruct He as [r [Hr Fr]].
      inversion Fr; subst r. eapply Bind_rows in Hr; [|exact B].
      unfold columns_of in Hr. apply QUERY_COMBINED_BY_PRODUCTID_rows in Hr.
      exists (CombinedDatabaseEntry.product e), (CombinedDatabaseEntry.job e). tauto.
    + intros Hf. rewrite (Bind_NoFault _ _ _ Hf) in B. inversion B; subst statement.
      destruct (ret (GetCombinedResult _ _ _ lambda _ _ _ _ s)) eqn:Hr; [reflexivity|].
      apply GetCombinedResult_false in Hr. cbn [stmt_fails stmt_rows] in Hr.
      destruct Hr as [Hr|[r [_ Hr]]]; discriminate Hr.
    + intros Hf Hrows. rewrite (Bind_NoFault _ _ _ Hf) in B. inversion B; subst statement.
      rewrite Hrows. reflexivity.
  - split; [simpl; lia|]. split; [intros src []|].
    unfold Bind in B. split; intros Hf; rewrite Hf in B; discriminate B.
Qed.

(** X16: a scan folder handed over by [QueryScanFolderByJobID] is the
    scan folder of the source of a job with the given id, and that job has
    a product (the statement joins [Products]): for a job without
    product nothing is handed over.  The call returns true only if at
    least one scan folder was handed over. *)
Theorem QueryScanFolderByJobID_hands_over_the_scan_folder_of_the_job (c : Store) (St : Type)
  (jobID : Z) (handler : Handler ScanFolderDatabaseEntry.t St) (s : St) :
  let o := QueryScanFolderByJobID c jobID handler s in
  (forall sf, In sf (delivered o) ->
     exists j src p,
       In j (Jobs (tables c)) /\ JobDatabaseEntry.m_jobID j = jobID
       /\ In src (Sources (tables c))
       /\ SourceDatabaseEntry.m_sourceID src = JobDatabaseEntry.m_sourcePK j
       /\ In sf (ScanFolders (tables c))
       /\ ScanFolderDatabaseEntry.m_scanFolderID sf = SourceDatabaseEntry.m_scanFolderPK src
       /\ In p (Products (tables c))
       /\ ProductDatabaseEntry.m_jobPK p = JobDatabaseEntry.m_jobID j)
  /\ (ret o = true -> delivered o <> []).
Proof.
  intros o. subst o. unfold QueryScanFolderByJobID, found_and_succeeded.
  unfold QueryCombinedByJobID, default_platform. cbn [has_platform]. unfold BindAndQuery.
  destruct (Bind c QUERY_COMBINED_BY_JOBID _) as [statement|] eqn:B.
  - unfold GetCombinedResultAsLambda.
    pose proof (@GetCombinedResult_untouched _ _ (@Some _) (LegacySubIds_of c) statement
                  (scanFolder_lambda handler) default_builderGuid default_jobKey
                  default_status false (false, s)) as Hun.
    pose proof (fun e => @GetCombinedResult_delivered _ _ (@Some _) (LegacySubIds_of c)
                  statement (scanFolder_lambda handler) default_builderGuid default_jobKey
                  default_status false (false, s) e) as Hdel.
    destruct (GetCombinedResult _ _ statement (scanFolder_lambda handler) _ _ _ _ _)
      as [succeeded [found s'] entries n]. cbn [captured delivered ret] in *.
    split.
    + intros sf Hin. apply in_map_iff in Hin. destruct Hin as [e [<- He]].
      apply Hdel in He. destruct He as [r [Hr Fr]].
      inversion Fr; subst r. eapply Bind_rows in Hr; [|exact B].
      unfold columns_of in Hr. apply QUERY_COMBINED_BY_JOBID_rows in Hr.
      exists (CombinedDatabaseEntry.job e), (CombinedDatabaseEntry.source e),
             (CombinedDatabaseEntry.product e). tauto.
    + intros Hret Hnil. apply andb_true_iff in Hret. destruct Hret as [Hfound _].
      destruct entries; [|discriminate Hnil].
      specialize (Hun eq_refl). inversion Hun. congruence.
  - cbn [captured delivered ret map]. split; [intros sf []|discriminate].
Qed.

Lemma QueryScanFolderByJobID_hands_over_the_scan_folder_of_the_job_witness :
  delivered (QueryScanFolderByJobID crossed_Store 2 take_all tt)
  = [example_scanFolder 2 "/dev/b" "b"]
  /\ exists j src p,
       In j (Jobs crossed_Database) /\ JobDatabaseEntry.m_jobID j = 2
       /\ In src (Sources crossed_Database)
       /\ SourceDatabaseEntry.m_sourceID src = JobDatabaseEntry.m_sourcePK j
       /\ In (example_scanFolder 2 "/dev/b" "b") (ScanFolders crossed_Database)
       /\ ScanFolderDatabaseEntry.m_scanFolderID (example_scanFolder 2 "/dev/b" "b")
          = SourceDatabaseEntry.m_scanFolderPK src
       /\ In p (Products crossed_Database)
       /\ ProductDatabaseEntry.m_jobPK p = JobDatabaseEntry.m_jobID j.
Proof.
  split; [reflexivity|].
  destruct (QueryScanFolderByJobID_hands_over_the_scan_folder_of_the_job crossed_Store 2
              take_all tt) as [H _].
  apply (H (example_scanFolder 2 "/dev/b" "b")). simpl. auto.
Defined.

(** ** Job infos by job id *)

(** The source handed over by [QuerySourceByJobID], if any, is that of a
    row of the combined statement, and the state is the handler's. *)
Lemma QuerySourceByJobID_cases (c : Store) (St : Type) jobid
  (h : Handler SourceDatabaseEntry.t St) s :
  let o := QuerySourceByJobID c jobid h s in
  (delivered o = [] /\ captured o = s)
  \/ exists sf src j p,
       In (sf, src, j, p) (QUERY_COMBINED_BY_JOBID_STATEMENT (tables c) jobid)
       /\ delivered o = [src] /\ captured o = snd (h src s).
Proof.
  intros o. subst o. unfold QuerySourceByJobID.
  set (lambda := fun (combined : CombinedDatabaseEntry.t) (s0 : St) =>
                   let source := CombinedDatabaseEntry.source combined in
                   let '(_, s1) := h source s0 in (false, s1)).
  assert (Hstop : forall e s0, fst (lambda e s0) = false).
  { intros e s0. unfold lambda. cbv zeta. destruct (h _ s0). reflexivity. }
  assert (Hsnd : forall e s0, snd (lambda e s0) = snd (h (CombinedDatabaseEntry.source e) s0)).
  { intros e s0. unfold lambda. cbv zeta. destruct (h _ s0). reflexivity. }
  unfold QueryCombinedByJobID, default_platform. cbn [has_platform]. unfold BindAndQuery.
  destruct (Bind c QUERY_COMBINED_BY_JOBID _) as [statement|] eqn:B; cbn [delivered captured].
  - unfold GetCombinedResultAsLambda.
    pose proof (GetCombinedResult_one (@Some _) (LegacySubIds_of c) statement lambda
                  0%N None default_status false s Hstop) as Hone.
    pose proof (fun e => @GetCombinedResult_delivered _ _ (@Some _) (LegacySubIds_of c)
                  statement lambda 0%N None default_status false s e) as Hdel.
    cbv zeta in Hone. destruct Hone as [[Hd Hc]|[e [Hd Hc]]].
    + left. rewrite Hd, Hc. split; reflexivity.
    + right. destruct (Hdel e) as [r [Hr Fr]]; [rewrite Hd; simpl; auto|].
      inversion Fr; subst r. eapply Bind_rows in Hr; [|exact B].
      unfold columns_of in Hr.
      exists (CombinedDatabaseEntry.scanFolder e), (CombinedDatabaseEntry.source e),
             (CombinedDatabaseEntry.job e), (CombinedDatabaseEntry.product e).
      split; [exact Hr|]. rewrite Hd, Hc, Hsnd. split; reflexivity.
  - left. split; reflexivity.
Qed.

Section JobInfoLog.

Variable St : Type.
Variable make : JobDatabaseEntry.t -> JobInfo.t.
Variable lambda : Handler JobDatabaseEntry.t (JobInfoState St).
Hypothesis lambda_logs :
  forall entry state, snd (snd (lambda entry state)) = snd state ++ [make entry].

(** A lambda that appends the job info it builds to the log leaves in the
    log the infos of the jobs it was given. *)
Lemma GetResult_while_log fails pending : forall current state,
  snd (captured (GetResult_while (@Some _) fails current pending lambda state))
  = snd state
    ++ map make (delivered (GetResult_while (@Some _) fails current pending lambda state)).
Proof.
  induction pending as [|next pending IH]; intros current state; cbn [GetResult_while].
  - pose proof (lambda_logs current state) as Hl.
    destruct (lambda current state) as [continue state'].
    cbn [snd] in Hl.
    destruct continue; [destruct fails|]; cbn; rewrite Hl; reflexivity.
  - pose proof (lambda_logs current state) as Hl.
    destruct (lambda current state) as [continue state'].
    cbn [snd] in Hl.
    destruct continue.
    + cbn [after_delivery after_step captured delivered map]. rewrite IH, Hl.
      rewrite <- app_assoc. reflexivity.
    + cbn. rewrite Hl. reflexivity.
Qed.

Lemma GetResult_log (statement : Statement JobDatabaseEntry.t) state :
  snd (captured (GetResult (@Some _) statement lambda state))
  = snd state ++ map make (delivered (GetResult (@Some _) statement lambda state)).
Proof.
  unfold GetResult. destruct (stmt_rows statement) as [|first pending].
  - destruct (stmt_fails statement); cbn; rewrite app_nil_r; reflexivity.
  - cbn [after_step captured delivered]. apply GetResult_while_log.
Qed.

End JobInfoLog.

(** What was handed over by [GetResult] are rows of the statement. *)
Lemma GetResult_delivered_rows {E St} (statement : Statement E) (h : Handler E St) s e :
  In e (delivered (GetResult (@Some _) statement h s)) -> In e (stmt_rows statement).
Proof.
  intros He. destruct (GetResult_prefix (@Some _) statement h s) as [n Hn].
  apply (in_map (@Some _)) in He. rewrite <- Hn in He.
  apply in_map_iff in He. destruct He as [r [Er Hr]]. inversion Er; subst r.
  eapply In_firstn; exact Hr.
Qed.

(** X17: every job info that [QueryJobInfoByJobID] hands over is built
    from a job with the given id: the job columns are those of that job,
    the source file is the name of the source of a job with that id as the
    combined statement finds it (so that job has a product), and the watch
    folder is left empty. *)
Theorem QueryJobInfoByJobID_builds_from_job_and_source (c : Store) (St : Type) (jobID : Z)
  (handler : Handler JobInfo.t St) (s : St) (info : JobInfo.t) :
  In info (delivered (QueryJobInfoByJobID c jobID handler s)) ->
  (exists j src j' p,
     In j (Jobs (tables c)) /\ JobDatabaseEntry.m_jobID j = jobID
     /\ In j' (Jobs (tables c)) /\ JobDatabaseEntry.m_jobID j' = jobID
     /\ In src (Sources (tables c))
     /\ SourceDatabaseEntry.m_sourceID src = JobDatabaseEntry.m_sourcePK j'
     /\ In p (Products (tables c)) /\ ProductDatabaseEntry.m_jobPK p = jobID
     /\ info = PopulateJobInfo
                 (JobInfo_with_sourceFile JobInfo.empty (SourceDatabaseEntry.m_sourceName src))
                 j)
  /\ JobInfo.m_watchFolder info = ""
  /\ JobInfo.m_jobID info = jobID.
Proof.
  unfold QueryJobInfoByJobID. cbv zeta.
  match goal with |- context [QuerySourceByJobID c jobID ?h ?st] =>
    pose proof (QuerySourceByJobID_cases c jobID h st) as Hsrc;
    set (o1 := QuerySourceByJobID c jobID h st) in * end.
  cbv zeta in Hsrc.
  destruct Hsrc as [[_ Hcap]|[sf [src [j' [p [Hrow [_ Hcap]]]]]]]; rewrite Hcap.
  - cbn. intros [].
  - cbn [snd]. cbn [negb orb].
    destruct (ret o1); cbn [negb]; [|intros []].
    set (make := fun entry : JobDatabaseEntry.t =>
                   PopulateJobInfo
                     (JobInfo_with_sourceFile JobInfo.empty (SourceDatabaseEntry.m_sourceName src))
                     entry).
    match goal with |- context [QueryJobByJobID c jobID ?h ?st] =>
      set (lambda := h); set (state := st) end.
    assert (Hlog : forall entry st, snd (snd (lambda entry st)) = snd st ++ [make entry]).
    { intros entry [[f s0] log]. unfold lambda. cbv zeta.
      destruct (handler _ s0) as [continue s1]. reflexivity. }
    unfold QueryJobByJobID, BindAndQuery.
    destruct (Bind c QUERY_JOB_BY_JOBID _) as [statement|] eqn:B.
    + unfold GetJobResultSimple, GetJobResult.
      assert (Hsimple : forall st,
                 GetJobResult (@Some _) statement lambda 0%N None JobStatus_Any st
                 = GetResult (@Some _) statement lambda st).
      { intros st. unfold GetJobResult, GetResult.
        destruct (stmt_rows statement); [reflexivity|].
        rewrite GetJobResult_while_simple. reflexivity. }
      fold (GetJobResult (@Some _) statement lambda 0%N None JobStatus_Any state).
      rewrite Hsimple. subst state.
      match goal with |- context [jobInfo_result ?o] =>
        assert (Hl : snd (captured o) = map make (delivered o))
          by apply (GetResult_log make lambda Hlog statement (false, s, []));
        assert (Hrows : forall e, In e (delivered o) -> In e (stmt_rows statement))
          by (intros e; apply GetResult_delivered_rows);
        unfold jobInfo_result;
        destruct o as [succeeded [[found s1] log] jobs n]
      end.
      cbn [captured delivered ret snd app] in *. subst log.
      intros Hin. apply in_map_iff in Hin. destruct Hin as [j [<- Hj]].
      apply Hrows in Hj. eapply Bind_rows in Hj; [|exact B].
      unfold QUERY_JOB_BY_JOBID_STATEMENT in Hj. apply filter_In in Hj.
      destruct Hj as [Hj Hid]. apply Z.eqb_eq in Hid.
      apply QUERY_COMBINED_BY_JOBID_rows in Hrow.
      destruct Hrow as [Hj' [Hid' [Hs [Hsj [_ [_ [Hp Hpj]]]]]]].
      split; [|split; [reflexivity|exact Hid]].
      exists j, src, j', p. repeat split; auto. congruence.
    + cbn. intros [].
Qed.

Lemma QueryJobInfoByJobID_builds_from_job_and_source_witness :
  delivered (QueryJobInfoByJobID crossed_Store 2 take_all tt)
  = [PopulateJobInfo (JobInfo_with_sourceFile JobInfo.empty "two.txt") (example_job 2 2)]
  /\ JobInfo.m_watchFolder
       (PopulateJobInfo (JobInfo_with_sourceFile JobInfo.empty "two.txt") (example_job 2 2)) = ""
  /\ JobInfo.m_jobID
       (PopulateJobInfo (JobInfo_with_sourceFile JobInfo.empty "two.txt") (example_job 2 2)) = 2.
Proof.
  split; [reflexivity|].
  apply (@QueryJobInfoByJobID_builds_from_job_and_source crossed_Store unit 2 take_all tt
           (PopulateJobInfo (JobInfo_with_sourceFile JobInfo.empty "two.txt") (example_job 2 2))).
  simpl. auto.
Defined.

(** ** Direct product dependencies *)

Section DirectProductDependencies.

Import SourceDatabaseEntry JobDatabaseEntry ProductDatabaseEntry ProductDependencyDatabaseEntry.

(** The rows of the direct statement are the products one dependency edge
    away from the product with the given id. *)
Lemma QUERY_DIRECT_PRODUCTDEPENDENCIES_edge (db : Database) (p q : ProductDatabaseEntry.t) :
  In q (QUERY_DIRECT_PRODUCTDEPENDENCIES_STATEMENT db (m_productID p)) <-> depends_on db p q.
Proof.
  unfold QUERY_DIRECT_PRODUCTDEPENDENCIES_STATEMENT, depends_on. rewrite in_map_iff. split.
  - intros [[[[P oj] os] od] [E Hrow]]. subst q.
    apply filter_In in Hrow. destruct Hrow as [Hin Hwhere].
    apply on_some_true in Hwhere. destruct Hwhere as [d [-> Hpk]].
    apply In_left_join_Some in Hin. destruct Hin as [Hin [Hd Hon]].
    apply andb_true_iff in Hon. destruct Hon as [Hguid Hsub].
    apply on_some_true in Hguid. destruct Hguid as [s [-> Hguid]].
    apply In_left_join_Some in Hin. destruct Hin as [Hin [Hs Hon]].
    apply on_some_true in Hon. destruct Hon as [j [-> Hsj]].
    apply In_left_join_Some in Hin. destruct Hin as [HP [Hj Hjp]].
    apply Z.eqb_eq in Hpk, Hsub, Hsj, Hjp. apply N.eqb_eq in Hguid.
    split; [exact HP|]. exists d, j, s. repeat split; auto.
  - intros [HP [d [j [s [Hd [Hj [Hs [Hpk [Hjp [Hsj [Hguid Hsub]]]]]]]]]]].
    exists (q, Some j, Some s, Some d). split; [reflexivity|].
    apply filter_In. split.
    + apply In_left_join_Some. split; [|split; [exact Hd|]].
      * apply In_left_join_Some. split; [|split; [exact Hs|]].
        -- apply In_left_join_Some. split; [exact HP|]. split; [exact Hj|].
           apply Z.eqb_eq. exact Hjp.
        -- simpl. apply Z.eqb_eq. exact Hsj.
      * simpl. apply andb_true_iff. split; [apply N.eqb_eq|apply Z.eqb_eq]; assumption.
    + simpl. apply Z.eqb_eq. exact Hpk.
Qed.

End DirectProductDependencies.

(** The rows of a statement that goes to [GetProductResultSimple], on a
    store that reports no error and with a handler that takes every row. *)
Lemma simple_product_rows_delivered (c : Store) (u : Uuid * Z) (St : Type) name
  (rows : list ProductDatabaseEntry.t) (h : Handler ProductDatabaseEntry.t St) s :
  fault c name = NoFault ->
  (forall e s, fst (h e s) = true) ->
  let o := BindAndQuery (Bind c name rows)
             (GetProductResultSimple (@Some _) (fun _ => None) (fun _ => None)
                (fun _ => None) u) h s in
  ret o = true /\ delivered o = rows.
Proof.
  intros Hf Hh o. subst o. rewrite (Bind_NoFault _ _ _ Hf). unfold BindAndQuery.
  rewrite GetProductResultSimple_GetResult.
  apply (GetResult_Some_all rows false h s Hh).
Qed.




Lemma self_dependent_Database_key : ProductID_is_key self_dependent_Database.
Proof.
  intros p q Hp Hq E. simpl in Hp, Hq.
  destruct Hp as [<-|[<-|[]]]; destruct Hq as [<-|[<-|[]]];
    try reflexivity; simpl in E; discriminate E.
Qed.


(** ** Whole tables, and errors while stepping *)

(** The rows of a statement that goes to [GetResult], with a handler that
    takes every row: all of them when the store reports no error, none
    when binding fails, and those produced before the error when stepping
    fails; only the first case returns true. *)
Lemma rows_delivered_until_error (c : Store) (E St : Type) name (rows : list E)
  (h : Handler E St) s :
  (forall e s, fst (h e s) = true) ->
  let o := BindAndQuery (Bind c name rows) (GetResult (@Some _)) h s in
  match fault c name with
  | NoFault => ret o = true /\ delivered o = rows
  | BindFails => ret o = false /\ delivered o = [] /\ steps o = 0%nat
  | StepFailsAfter n => ret o = false /\ delivered o = firstn n rows
  end.
Proof.
  intros Hh o. subst o. unfold Bind. destruct (fault c name) as [| |n]; unfold BindAndQuery.
  - apply (GetResult_Some_all rows false h s Hh).
  - repeat split.
  - apply (GetResult_Some_all (firstn n rows) true h s Hh).
Qed.



(** ** From a product to its job and back *)

(** The products handed over for a job id when no criteria are given. *)
Lemma QueryProductByJobID_default_rows (c : Store) (u : Uuid * Z) (St : Type) (jobid : Z)
  (h : Handler ProductDatabaseEntry.t St) s :
  (forall name, fault c name = NoFault) ->
  (forall e s, fst (h e s) = true) ->
  forall p,
    In p (delivered (QueryProductByJobID c u jobid h default_builderGuid default_jobKey
                       default_platform default_status s))
    <-> In p (Products (tables c))
        /\ exists j, In j (Jobs (tables c))
                     /\ JobDatabaseEntry.m_jobID j = ProductDatabaseEntry.m_jobPK p
                     /\ JobDatabaseEntry.m_jobID j = jobid.
Proof.
  intros Hf Hh p. unfold QueryProductByJobID, default_platform. cbn [has_platform].
  destruct (@product_rows_delivered c u St QUERY_PRODUCT_BY_JOBID
              (QUERY_PRODUCT_BY_JOBID_STATEMENT (tables c) jobid) h default_builderGuid
              default_jobKey default_status s (Hf _) Hh) as [_ Hd].
  rewrite Hd, In_map_snd_filter. cbn [fst]. unfold QUERY_PRODUCT_BY_JOBID_STATEMENT. split.
  - intros [j [Hin _]]. apply filter_In in Hin. destruct Hin as [Hin Hc].
    apply In_from_Jobs_Products in Hin. rewrite Z.eqb_eq in Hc. destruct Hin as [Hj [Hp E]].
    split; [exact Hp|]. exists j. intuition congruence.
  - intros [Hp [j [Hj [E Hid]]]]. exists j. split.
    + apply filter_In. split; [apply In_from_Jobs_Products; auto|].
      rewrite Z.eqb_eq. congruence.
    + unfold job_matches. apply ResultMatchesJobCriteria_default.
Qed.



(** ** Lookups by name pattern *)

Section LikeQueries.

Variable chr_eq : ascii -> ascii -> bool.

(** The rows that a LIKE statement selects with the search term made from
    a literal without [|]. *)
Lemma filter_LIKE_search_term {A : Type} (name : A -> string) (rows : list A)
  (literal : string) (likeType : LikeType) (x : A) :
  contains_char "|" literal = false ->
  likeType <> Raw ->
  In x (filter (fun x => LIKE_ESCAPE_pipe chr_eq (name x)
                           (GetLikeActualSearchTerm literal likeType)) rows)
  <-> In x rows /\ occurs_as chr_eq likeType literal (name x).
Proof.
  intros Hc Hraw. rewrite filter_In.
  enough (H : LIKE_ESCAPE_pipe chr_eq (name x) (GetLikeActualSearchTerm literal likeType) = true
              <-> occurs_as chr_eq likeType literal (name x)) by (rewrite H; reflexivity).
  generalize (name x). intros stored.
  unfold LIKE_ESCAPE_pipe, GetLikeActualSearchTerm.
  destruct likeType; [contradiction| | |]; cbn zeta; rewrite Replace_twice;
    unfold StringFunc.Append, StringFunc.Prepend, occurs_as.
  - rewrite like_escaped by exact Hc. split.
    + intros [mid [post [E [Hm _]]]]. exists mid, post. auto.
    + intros [mid [post [E Hm]]]. exists mid, post.
      repeat split; [exact E|exact Hm|apply like_percent_only].
  - change ("%" ++ escaped literal)%string with (String "%" (escaped literal)).
    rewrite like_percent. split.
    + intros [pre [post [E H]]].
      rewrite <- (string_app_nil_r (escaped literal)) in H.
      apply like_escaped in H; [|exact Hc].
      destruct H as [mid [rest [E' [Hm H]]]]. apply like_empty in H. subst rest.
      rewrite string_app_nil_r in E'. subst post. exists pre, mid. auto.
    + intros [pre [mid [E Hm]]]. exists pre, mid. split; [exact E|].
      rewrite <- (string_app_nil_r (escaped literal)).
      apply like_escaped; [exact Hc|]. exists mid, "".
      rewrite string_app_nil_r. repeat split. exact Hm.
  - change (("%" ++ escaped literal) ++ "%")%string
      with (String "%" (escaped literal ++ "%")).
    rewrite like_percent. split.
    + intros [pre [post [E H]]]. apply like_escaped in H; [|exact Hc].
      destruct H as [mid [rest [E' [Hm _]]]]. subst post. exists pre, mid, rest. auto.
    + intros [pre [mid [post [E Hm]]]]. exists pre, (mid ++ post)%string.
      split; [exact E|]. apply like_escaped; [exact Hc|].
      exists mid, post. repeat split; [exact Hm|apply like_percent_only].
Qed.

End LikeQueries.



(** ** Direct dependencies, one statement or two lookups *)

Section ByAssetId.

Import SourceDatabaseEntry JobDatabaseEntry ProductDatabaseEntry.

(** The products that the statement by source guid and sub id selects. *)
Lemma In_QUERY_PRODUCT_BY_SOURCEGUID_SUBID (db : Database) sourceguid productsubid q :
  In q (map snd (QUERY_PRODUCT_BY_SOURCEGUID_SUBID_STATEMENT db sourceguid productsubid))
  <-> In q (Products db) /\ ProductDatabaseEntry.m_subID q = productsubid
      /\ exists j s, In j (Jobs db) /\ In s (Sources db)
                     /\ m_jobID j = m_jobPK q /\ m_sourceID s = m_sourcePK j
                     /\ m_sourceGuid s = sourceguid.
Proof.
  unfold QUERY_PRODUCT_BY_SOURCEGUID_SUBID_STATEMENT. rewrite map_map, in_map_iff. split.
  - intros [[[s j] p] [E Hin]]. simpl in E. subst p.
    apply filter_In in Hin. destruct Hin as [Hin Hsel].
    apply andb_true_iff in Hsel. destruct Hsel as [Hguid Hsub].
    apply In_inner_join in Hin. destruct Hin as [Hin [Hq Hjq]].
    apply In_inner_join in Hin. destruct Hin as [Hs [Hj Hsj]].
    apply N.eqb_eq in Hguid. apply Z.eqb_eq in Hsub, Hjq, Hsj.
    split; [exact Hq|]. split; [exact Hsub|]. exists j, s. auto.
  - intros [Hq [Hsub [j [s [Hj [Hs [Hjq [Hsj Hguid]]]]]]]].
    exists (s, j, q). split; [reflexivity|]. apply filter_In. split.
    + apply In_inner_join. split; [|split; [exact Hq|apply Z.eqb_eq; exact Hjq]].
      apply In_inner_join. split; [exact Hs|]. split; [exact Hj|apply Z.eqb_eq; exact Hsj].
    + apply andb_true_iff. split; [apply N.eqb_eq; exact Hguid|apply Z.eqb_eq; exact Hsub].
Qed.

End ByAssetId.


